(** * FabricDB: the class store, its byte codec and its file surface

    A shallow embedding of the storage core of FabricDB (Class.c,
    ClassStore.c, Graph.c, Fabric.c, IdSet.c, EntityMap.c, Hash.c and the
    stubs of IndexStore.c, Index.c and LabelStore.c they call), followed by
    the properties of the class store that the design document states.

    Conventions of the embedding.
    - A C integer of width w is a [Z]; arithmetic that can leave the range
      is wrapped explicitly with [uint8], [uint16], [uint32].
    - A byte is a [Z] in [0, 256); a buffer is a [list Z].
    - [Class *] is an address into a heap of class objects, [NULL] is 0.
    - A call that dereferences a null or dangling pointer, reads outside an
      array, or never leaves a loop has no result: the functions return
      [option], and [None] stands for "crashes or does not return".
    - [malloc] is taken to succeed; the out-of-memory branches are kept where
      the source has them but their guards are then never true.
    - [host] is the byte order of the machine the library runs on.
    - [float] and [double] are the IEEE 754 formats binary32 and binary64,
      computed with the Standard Library's [SpecFloat]; [long] is wider
      than 32 bits, so a [uint32_t] offset passed as [long] keeps its
      value. *)

From Stdlib Require Import ZArith Lia.
From Stdlib Require Import Floats.SpecFloat.
From stdpp Require Import prelude.

Local Open Scope Z_scope.

(** ** Fixed-width integers and their bytes in memory *)

Definition uint8 (x : Z) : Z := x mod 2 ^ 8.
Definition uint16 (x : Z) : Z := x mod 2 ^ 16.
Definition uint32 (x : Z) : Z := x mod 2 ^ 32.

Inductive byte_order := LittleEndian | BigEndian.

(** The [n] bytes of [v], least significant first. *)
Fixpoint le_bytes (n : nat) (v : Z) : list Z :=
  match n with
  | O => []
  | S n' => v mod 256 :: le_bytes n' (v / 256)
  end.

(** The value of a byte sequence, least significant byte first. *)
Fixpoint le_value (bs : list Z) : Z :=
  match bs with
  | [] => 0
  | b :: rest => b + 256 * le_value rest
  end.

(** [(uint8_t* ) &v] for an [n]-byte integer object [v]: its bytes in the
    order the host keeps them in memory. *)
Definition object_bytes (host : byte_order) (n : nat) (v : Z) : list Z :=
  match host with
  | LittleEndian => le_bytes n v
  | BigEndian => reverse (le_bytes n v)
  end.

(** [*(uintN_t* ) bytes]: the integer object the host sees in these bytes. *)
Definition object_value (host : byte_order) (bs : list Z) : Z :=
  match host with
  | LittleEndian => le_value bs
  | BigEndian => le_value (reverse bs)
  end.

(** [data + off] read as an [n]-byte object. *)
Definition slice (data : list Z) (off n : nat) : list Z :=
  take n (drop off data).

(** Modelled from the spec: the macros of ../ByteOrder/byteorder.h, which is
    not part of the sources.  The spec assumes "a portable big-endian
    read/write helper": [htobeN] turns a host integer into the integer whose
    bytes in host memory are the big-endian bytes of the argument, [betohN]
    is the way back.  On a big-endian host both are the identity, on a
    little-endian host both swap the [N/8] bytes. *)
Definition bswap (n : nat) (v : Z) : Z := le_value (reverse (le_bytes n v)).

Definition htobe32 (host : byte_order) (v : Z) : Z :=
  match host with BigEndian => uint32 v | LittleEndian => bswap 4 v end.
Definition betoh32 (host : byte_order) (v : Z) : Z :=
  match host with BigEndian => uint32 v | LittleEndian => bswap 4 v end.
Definition betoh16 (host : byte_order) (v : Z) : Z :=
  match host with BigEndian => uint16 v | LittleEndian => bswap 2 v end.

(** ** The backing file (stdio's [FILE]) *)

Module FILE.
Record t := mk { contents : list Z; position : Z }.
End FILE.

Definition EOF : Z := -1.

(** [fseek(file, offset, SEEK_SET)]: a negative offset is refused and leaves
    the position where it was. *)
Definition fseek (file : FILE.t) (offset : Z) : FILE.t :=
  if offset <? 0 then file
  else FILE.mk (FILE.contents file) offset.

(** [fputc(c, file)]: writing past the end first fills the gap with zero
    bytes. *)
Definition fputc (c : Z) (file : FILE.t) : FILE.t :=
  let pos := Z.to_nat (FILE.position file) in
  let old := FILE.contents file in
  let padded := old ++ replicate (S pos - length old) 0 in
  FILE.mk (<[pos := uint8 c]> padded) (FILE.position file + 1).

(** [fgetc(file)]: at the end of the file the result is [EOF] and the
    position stays. *)
Definition fgetc (file : FILE.t) : Z * FILE.t :=
  match FILE.contents file !! Z.to_nat (FILE.position file) with
  | Some b => (b, FILE.mk (FILE.contents file) (FILE.position file + 1))
  | None => (EOF, file)
  end.

(** ** Hash.c: Jenkins one-at-a-time *)

Definition hash_mix (hash : Z) (byte : Z) : Z :=
  let hash := uint32 (hash + byte) in
  let hash := uint32 (hash + uint32 (Z.shiftl hash 10)) in
  Z.lxor hash (Z.shiftr hash 6).

Definition hash (key : list Z) (len : nat) : Z :=
  let hash := foldl hash_mix 0 (take len key) in
  let hash := uint32 (hash + uint32 (Z.shiftl hash 3)) in
  let hash := Z.lxor hash (Z.shiftr hash 11) in
  uint32 (hash + uint32 (Z.shiftl hash 15)).

Definition hash_uint32 (host : byte_order) (key : Z) : Z :=
  hash (object_bytes host 4 key) 4.

(** ** Pointers and status codes *)

(** An address; [NULL] is 0.  [Class *] addresses index the heap of class
    objects, [error_t *] addresses name a status cell of the caller. *)
Definition ptr := nat.
Definition NULL : ptr := 0%nat.

Definition error_t := Z.
Definition FABRIC_OK : error_t := 0x00000000.
Definition FABRIC_ERROR : error_t := 0x00000001.
Definition FABRIC_OUT_OF_MEMORY : error_t := 0x00000002.
Definition FABRIC_CLASSSTORE_ERROR : error_t := 0x00000100.
Definition FABRIC_CLASSSTORE_INVALID_ID : error_t := 0x00000101.
Definition FABRIC_CLASS_DOESNT_EXIST : error_t := 0x00000102.
Definition FABRIC_DUPLICATE_CLASSNAME : error_t := 0x00000103.
Definition FABRIC_CANT_DELETE_CLASS_HAS_CHILDREN : error_t := 0x00000104.
Definition FABRIC_CANT_DELETE_CLASS_HAS_MEMBERS : error_t := 0x00000105.
Definition FABRIC_CLASSSTORE_NEEDS_RESIZE : error_t := 0x00000110.
Definition FABRIC_CLASS_INVALID_ID : error_t := 0x00001101.

Definition TRUE : Z := 1.
Definition FALSE : Z := 0.

(** ** IdSet.c: a set of uint32 ids, open addressing with linear probing *)

Definition FABRIC_IDSET_DEFAULT_CAPACITY : Z := 32.
Definition FABRIC_IDSET_TOMBSTONE : Z := 0x11111111.

Module IdSet.
Record t := mk { count : Z; cap : Z; ids : list Z }.
End IdSet.

(** [(float) x] for an [int] [x], and the promotion of a [float] to
    [double] that a comparison with a [double] constant makes.  binary32
    has 24 bits of precision and exponents below 128, binary64 has 53 bits
    and exponents below 1024; conversions and division round to nearest,
    ties to even. *)
Definition float_of_int (x : Z) : spec_float :=
  binary_normalize 24 128 x 0 false.

Definition double_of_float (f : spec_float) : spec_float :=
  match f with
  | S754_finite s m e =>
      binary_normalize 53 1024 (if s then Z.neg m else Z.pos m) e s
  | _ => f
  end.

(** The constant [0.6] of FABRIC_IDSET_MAXLOAD and
    FABRIC_ENTITYMAP_MAXLOAD: the double nearest to 6/10. *)
Definition FABRIC_IDSET_MAXLOAD : spec_float :=
  SFdiv 53 1024 (binary_normalize 53 1024 6 0 false)
    (binary_normalize 53 1024 10 0 false).

Definition FABRIC_ENTITYMAP_MAXLOAD : spec_float := FABRIC_IDSET_MAXLOAD.

(** [(float)(count + 1) / (float)cap > maxload], the test both hash tables
    make before they grow.  The quotient is a [float]; the float nearest to
    3/5 lies above the double nearest to 0.6, so a table also grows when
    the new entry brings the load to exactly 3/5. *)
Definition load_exceeds_maxload (maxload : spec_float) (count cap : Z)
  : bool :=
  match SFcompare
          (double_of_float
             (SFdiv 24 128 (float_of_int (count + 1)) (float_of_int cap)))
          maxload with
  | Some Gt => true
  | _ => false
  end.

Definition Fabric_IdSet_new_with_capacity (capacity : Z) : IdSet.t * error_t :=
  let capacity :=
    if capacity <? 1 then FABRIC_IDSET_DEFAULT_CAPACITY else capacity in
  (IdSet.mk 0 capacity (replicate (Z.to_nat capacity) 0), FABRIC_OK).

Definition Fabric_IdSet_new : IdSet.t * error_t :=
  Fabric_IdSet_new_with_capacity 0.

Definition Fabric_IdSet_get_count (self : IdSet.t) : Z := IdSet.count self.

Definition Fabric_IdSet_is_empty (self : IdSet.t) : bool :=
  IdSet.count self <=? 0.

Definition Fabric_IdSet_get_capacity (self : IdSet.t) : Z := IdSet.cap self.

(** The probing loops run over the table cyclically.  A loop that has made
    [cap] probes without leaving has seen every slot and will see the same
    slots again, so it never leaves: [cap] units of fuel decide it, and
    running out of fuel is the loop that does not return. *)
Fixpoint IdSet_has_loop (fuel : nat) (self : IdSet.t) (id pos : Z)
  : option bool :=
  match fuel with
  | O => None
  | S fuel' =>
      slot ← IdSet.ids self !! Z.to_nat pos;
      if slot =? 0 then Some false
      else if slot =? id then Some true
      else IdSet_has_loop fuel' self id ((pos + 1) mod IdSet.cap self)
  end.

Definition Fabric_IdSet_has (host : byte_order) (self : IdSet.t) (id : Z)
  : option bool :=
  if IdSet.cap self <=? 0 then None
  else IdSet_has_loop (Z.to_nat (IdSet.cap self)) self id
         (hash_uint32 host id mod IdSet.cap self).

(** The slot [Fabric_IdSet__add_no_checks] stops at: the first one, from
    [pos] on, that is empty or a tombstone. *)
Fixpoint IdSet_free_slot_loop (fuel : nat) (self : IdSet.t) (pos : Z)
  : option Z :=
  match fuel with
  | O => None
  | S fuel' =>
      slot ← IdSet.ids self !! Z.to_nat pos;
      if negb (slot =? 0) && negb (slot =? FABRIC_IDSET_TOMBSTONE)
      then IdSet_free_slot_loop fuel' self ((pos + 1) mod IdSet.cap self)
      else Some pos
  end.

Definition Fabric_IdSet__add_no_checks (host : byte_order) (self : IdSet.t)
    (id : Z) : option IdSet.t :=
  if IdSet.cap self <=? 0 then None
  else
    pos ← IdSet_free_slot_loop (Z.to_nat (IdSet.cap self)) self
             (hash_uint32 host id mod IdSet.cap self);
    Some (IdSet.mk (IdSet.count self + 1) (IdSet.cap self)
            (<[Z.to_nat pos := id]> (IdSet.ids self))).

(** The copy loop of [Fabric_IdSet__resize] over the old table. *)
Fixpoint IdSet_resize_loop (host : byte_order) (old_data : list Z)
    (self : IdSet.t) : option IdSet.t :=
  match old_data with
  | [] => Some self
  | x :: rest =>
      if negb (x =? 0) && negb (x =? FABRIC_IDSET_TOMBSTONE)
      then self' ← Fabric_IdSet__add_no_checks host self x;
           IdSet_resize_loop host rest self'
      else IdSet_resize_loop host rest self
  end.

Definition Fabric_IdSet__resize (host : byte_order) (self : IdSet.t)
    (new_cap : Z) : option (IdSet.t * error_t) :=
  let old_data := take (Z.to_nat (IdSet.cap self)) (IdSet.ids self) in
  let fresh := IdSet.mk 0 new_cap (replicate (Z.to_nat new_cap) 0) in
  self' ← IdSet_resize_loop host old_data fresh;
  Some (self', FABRIC_OK).

Definition Fabric_IdSet_add (host : byte_order) (self : IdSet.t) (id : Z)
  : option (IdSet.t * error_t) :=
  present ← Fabric_IdSet_has host self id;
  if (present : bool) then Some (self, FABRIC_OK)
  else
    resized ←
      (if load_exceeds_maxload FABRIC_IDSET_MAXLOAD (IdSet.count self)
            (IdSet.cap self)
       then Fabric_IdSet__resize host self (IdSet.cap self * 2)
       else Some (self, FABRIC_OK));
    let '(self, status) := resized in
    if negb (status =? FABRIC_OK) then Some (self, status)
    else
      self ← Fabric_IdSet__add_no_checks host self id;
      Some (self, FABRIC_OK).

(** The loop of [Fabric_IdSet_remove]. *)
Fixpoint IdSet_remove_loop (fuel : nat) (self : IdSet.t) (id pos : Z)
  : option IdSet.t :=
  match fuel with
  | O => None
  | S fuel' =>
      slot ← IdSet.ids self !! Z.to_nat pos;
      if slot =? 0 then Some self
      else if slot =? id
      then Some (IdSet.mk (IdSet.count self - 1) (IdSet.cap self)
                   (<[Z.to_nat pos := FABRIC_IDSET_TOMBSTONE]> (IdSet.ids self)))
      else IdSet_remove_loop fuel' self id ((pos + 1) mod IdSet.cap self)
  end.

Definition Fabric_IdSet_remove (host : byte_order) (self : IdSet.t) (id : Z)
  : option IdSet.t :=
  if IdSet.cap self <=? 0 then None
  else IdSet_remove_loop (Z.to_nat (IdSet.cap self)) self id
         (hash_uint32 host id mod IdSet.cap self).

(** The scan of [Fabric_IdSet_to_array]: [table] is what lies from
    [internal_pos] on; skipping past the end of the table is a read outside
    the array. *)
Fixpoint IdSet_skip_unused (table : list Z) : list Z :=
  match table with
  | [] => []
  | x :: rest =>
      if (x =? 0) || (x =? FABRIC_IDSET_TOMBSTONE)
      then IdSet_skip_unused rest else table
  end.

Fixpoint IdSet_to_array_loop (arr_l : nat) (table : list Z)
  : option (list Z) :=
  match arr_l with
  | O => Some []
  | S arr_l' =>
      match IdSet_skip_unused table with
      | [] => None
      | x :: rest => (x ::.) <$> IdSet_to_array_loop arr_l' rest
      end
  end.

Definition Fabric_IdSet_to_array (self : IdSet.t)
  : option (list Z * error_t) :=
  array ← IdSet_to_array_loop (Z.to_nat (IdSet.count self)) (IdSet.ids self);
  Some (array, FABRIC_OK).

(** ** EntityMap.c: a map from uint32 keys to object addresses *)

Definition FABRIC_ENTITYMAP_DEFAULT_CAPACITY : Z := 32.
Definition FABRIC_ENTITYMAP_TOMBSTONE : Z := 0x11111111.

Module EntityMapEntry.
Record t := mk { key : Z; entity : ptr }.
End EntityMapEntry.

Module EntityMap.
Record t := mk { count : Z; cap : Z; entries : list EntityMapEntry.t }.
End EntityMap.

Definition Fabric_EntityMap_new_with_capacity (capacity : Z)
  : EntityMap.t * error_t :=
  let capacity :=
    if capacity <? 1 then FABRIC_ENTITYMAP_DEFAULT_CAPACITY else capacity in
  (EntityMap.mk 0 capacity
     (replicate (Z.to_nat capacity) (EntityMapEntry.mk 0 NULL)),
   FABRIC_OK).

Definition Fabric_EntityMap_new : EntityMap.t * error_t :=
  Fabric_EntityMap_new_with_capacity 0.

Definition Fabric_EntityMap_get_count (self : EntityMap.t) : Z :=
  EntityMap.count self.

Definition Fabric_EntityMap_get_capacity (self : EntityMap.t) : Z :=
  EntityMap.cap self.

(** The loop of [Fabric_EntityMap__pos_of_key]; fuel as for the id set. *)
Fixpoint EntityMap_pos_of_key_loop (fuel : nat) (self : EntityMap.t)
    (key pos : Z) : option Z :=
  match fuel with
  | O => None
  | S fuel' =>
      entry ← EntityMap.entries self !! Z.to_nat pos;
      if EntityMapEntry.key entry =? 0 then Some FABRIC_ENTITYMAP_TOMBSTONE
      else if EntityMapEntry.key entry =? key then Some pos
      else EntityMap_pos_of_key_loop fuel' self key
             ((pos + 1) mod EntityMap.cap self)
  end.

Definition Fabric_EntityMap__pos_of_key (host : byte_order)
    (self : EntityMap.t) (key : Z) : option Z :=
  if EntityMap.cap self <=? 0 then None
  else EntityMap_pos_of_key_loop (Z.to_nat (EntityMap.cap self)) self key
         (hash_uint32 host key mod EntityMap.cap self).

Definition Fabric_EntityMap_has_key (host : byte_order) (self : EntityMap.t)
    (key : Z) : option bool :=
  pos ← Fabric_EntityMap__pos_of_key host self key;
  Some (negb (pos =? FABRIC_ENTITYMAP_TOMBSTONE)).

(** The slot [Fabric_EntityMap__add_no_checks] stops at. *)
Fixpoint EntityMap_free_slot_loop (fuel : nat) (self : EntityMap.t) (pos : Z)
  : option Z :=
  match fuel with
  | O => None
  | S fuel' =>
      entry ← EntityMap.entries self !! Z.to_nat pos;
      if negb (EntityMapEntry.key entry =? 0)
         && negb (EntityMapEntry.key entry =? FABRIC_ENTITYMAP_TOMBSTONE)
      then EntityMap_free_slot_loop fuel' self
             ((pos + 1) mod EntityMap.cap self)
      else Some pos
  end.

Definition Fabric_EntityMap__add_no_checks (host : byte_order)
    (self : EntityMap.t) (entry : EntityMapEntry.t) : option EntityMap.t :=
  if EntityMap.cap self <=? 0 then None
  else
    pos ← EntityMap_free_slot_loop (Z.to_nat (EntityMap.cap self)) self
             (hash_uint32 host (EntityMapEntry.key entry)
                mod EntityMap.cap self);
    Some (EntityMap.mk (EntityMap.count self + 1) (EntityMap.cap self)
            (<[Z.to_nat pos := entry]> (EntityMap.entries self))).

(** The copy loop of [Fabric_EntityMap__resize] over the old table. *)
Fixpoint EntityMap_resize_loop (host : byte_order)
    (old_data : list EntityMapEntry.t) (self : EntityMap.t)
  : option EntityMap.t :=
  match old_data with
  | [] => Some self
  | entry :: rest =>
      if negb (EntityMapEntry.key entry =? 0)
         && negb (EntityMapEntry.key entry =? FABRIC_ENTITYMAP_TOMBSTONE)
      then self' ← Fabric_EntityMap__add_no_checks host self entry;
           EntityMap_resize_loop host rest self'
      else EntityMap_resize_loop host rest self
  end.

Definition Fabric_EntityMap__resize (host : byte_order) (self : EntityMap.t)
    (new_cap : Z) : option (EntityMap.t * error_t) :=
  let old_data := take (Z.to_nat (EntityMap.cap self)) (EntityMap.entries self) in
  let fresh :=
    EntityMap.mk 0 new_cap
      (replicate (Z.to_nat new_cap) (EntityMapEntry.mk 0 NULL)) in
  self' ← EntityMap_resize_loop host old_data fresh;
  Some (self', FABRIC_OK).

Definition Fabric_EntityMap_set (host : byte_order) (self : EntityMap.t)
    (key : Z) (entity : ptr) : option (EntityMap.t * error_t) :=
  let entry := EntityMapEntry.mk key entity in
  pos ← Fabric_EntityMap__pos_of_key host self key;
  if negb (pos =? FABRIC_ENTITYMAP_TOMBSTONE)
  then
    old ← EntityMap.entries self !! Z.to_nat pos;
    Some (EntityMap.mk (EntityMap.count self) (EntityMap.cap self)
            (<[Z.to_nat pos := EntityMapEntry.mk (EntityMapEntry.key old) entity]>
               (EntityMap.entries self)),
          FABRIC_OK)
  else
    resized ←
      (if load_exceeds_maxload FABRIC_ENTITYMAP_MAXLOAD
            (EntityMap.count self) (EntityMap.cap self)
       then Fabric_EntityMap__resize host self (EntityMap.cap self * 2)
       else Some (self, FABRIC_OK));
    let '(self, status) := resized in
    if negb (status =? FABRIC_OK) then Some (self, status)
    else
      self ← Fabric_EntityMap__add_no_checks host self entry;
      Some (self, FABRIC_OK).

Definition Fabric_EntityMap_get (host : byte_order) (self : EntityMap.t)
    (key : Z) : option ptr :=
  pos ← Fabric_EntityMap__pos_of_key host self key;
  if pos =? FABRIC_ENTITYMAP_TOMBSTONE then Some NULL
  else EntityMapEntry.entity <$> EntityMap.entries self !! Z.to_nat pos.

Definition Fabric_EntityMap_unset (host : byte_order) (self : EntityMap.t)
    (key : Z) : option EntityMap.t :=
  pos ← Fabric_EntityMap__pos_of_key host self key;
  if negb (pos =? FABRIC_ENTITYMAP_TOMBSTONE)
  then Some (EntityMap.mk (EntityMap.count self - 1) (EntityMap.cap self)
               (<[Z.to_nat pos :=
                    EntityMapEntry.mk FABRIC_ENTITYMAP_TOMBSTONE NULL]>
                  (EntityMap.entries self)))
  else Some self.

(** ** Class.c: the class record and its 21-byte stored form *)

Definition FABRIC_CLASS_STORAGE_SIZE : Z := 21.
Definition FABRIC_LABEL_STORAGE_SIZE : Z := 8.

Module Class.
Record t := mk {
  id : Z;               (* classid_t, 16 bits *)
  label_id : Z;         (* labelid_t, 32 bits *)
  parent_id : Z;        (* classid_t *)
  first_child_id : Z;   (* classid_t *)
  next_child_id : Z;    (* classid_t *)
  first_index_id : Z;   (* indexid_t, 16 bits *)
  count : Z;            (* uint32_t *)
  is_abstract : Z;      (* uint8_t *)
  incrementer : Z       (* uint32_t *)
}.
End Class.

Definition Fabric_Class_get_id (self : Class.t) : Z := Class.id self.

Definition Fabric_Class_set_id (self : Class.t) (id : Z) : Class.t :=
  Class.mk id (Class.label_id self) (Class.parent_id self)
    (Class.first_child_id self) (Class.next_child_id self)
    (Class.first_index_id self) (Class.count self) (Class.is_abstract self)
    (Class.incrementer self).

(** [Fabric_Class_init]: decode the stored form into [self], whose id the
    caller has set. *)
Definition Fabric_Class_init (host : byte_order) (self : Class.t)
    (data : list Z) : Class.t * error_t :=
  if Class.id self <? 1 then (self, FABRIC_CLASS_INVALID_ID)
  else
    (Class.mk (Class.id self)
       (betoh32 host (object_value host (slice data 0 4)))
       (betoh16 host (object_value host (slice data 4 2)))
       (betoh16 host (object_value host (slice data 6 2)))
       (betoh16 host (object_value host (slice data 8 2)))
       (betoh16 host (object_value host (slice data 10 2)))
       (betoh32 host (object_value host (slice data 12 4)))
       (nth 16 data 0)
       (betoh32 host (object_value host (slice data 17 4))),
     FABRIC_OK).

(** [Fabric_Class_load_bytes]: the 21 bytes stored into [dest]. *)
Definition Fabric_Class_load_bytes (host : byte_order) (self : Class.t)
  : list Z :=
  object_bytes host 4 (Class.label_id self)
  ++ object_bytes host 2 (Class.parent_id self)
  ++ object_bytes host 2 (Class.first_child_id self)
  ++ object_bytes host 2 (Class.next_child_id self)
  ++ object_bytes host 2 (Class.first_index_id self)
  ++ object_bytes host 4 (Class.count self)
  ++ [uint8 (Class.is_abstract self)]
  ++ object_bytes host 4 (Class.incrementer self).

Definition Fabric_Class_get_label_id (self : Class.t) : Z :=
  Class.label_id self.

Definition Fabric_Class_set_label_id (self : Class.t) (label_id : Z)
  : Class.t :=
  Class.mk (Class.id self) label_id (Class.parent_id self)
    (Class.first_child_id self) (Class.next_child_id self)
    (Class.first_index_id self) (Class.count self) (Class.is_abstract self)
    (Class.incrementer self).

Definition Fabric_Class_is_in_use (self : Class.t) : bool :=
  negb (Class.label_id self =? 0).

Definition Fabric_Class_get_parent_class_id (self : Class.t) : Z :=
  Class.parent_id self.

Definition Fabric_Class_set_parent_class_id (self : Class.t)
    (parent_class_id : Z) : Class.t :=
  Class.mk (Class.id self) (Class.label_id self) parent_class_id
    (Class.first_child_id self) (Class.next_child_id self)
    (Class.first_index_id self) (Class.count self) (Class.is_abstract self)
    (Class.incrementer self).

Definition Fabric_Class_has_child_classes (self : Class.t) : bool :=
  negb (Class.first_child_id self =? 0).

Definition Fabric_Class_get_first_child_class_id (self : Class.t) : Z :=
  Class.first_child_id self.

Definition Fabric_Class_set_first_child_class_id (self : Class.t)
    (child_class_id : Z) : Class.t :=
  Class.mk (Class.id self) (Class.label_id self) (Class.parent_id self)
    child_class_id (Class.next_child_id self)
    (Class.first_index_id self) (Class.count self) (Class.is_abstract self)
    (Class.incrementer self).

Definition Fabric_Class_has_next_child_class (self : Class.t) : bool :=
  negb (Class.next_child_id self =? 0).

Definition Fabric_Class_get_next_child_class_id (self : Class.t) : Z :=
  Class.next_child_id self.

Definition Fabric_Class_set_next_child_class_id (self : Class.t)
    (next_child_id : Z) : Class.t :=
  Class.mk (Class.id self) (Class.label_id self) (Class.parent_id self)
    (Class.first_child_id self) next_child_id
    (Class.first_index_id self) (Class.count self) (Class.is_abstract self)
    (Class.incrementer self).

Definition Fabric_Class_get_first_index_id (self : Class.t) : Z :=
  Class.first_index_id self.

Definition Fabric_Class_set_first_index_id (self : Class.t)
    (first_index_id : Z) : Class.t :=
  Class.mk (Class.id self) (Class.label_id self) (Class.parent_id self)
    (Class.first_child_id self) (Class.next_child_id self)
    first_index_id (Class.count self) (Class.is_abstract self)
    (Class.incrementer self).

Definition Fabric_Class_get_count (self : Class.t) : Z := Class.count self.

Definition Fabric_Class_set_count (self : Class.t) (count : Z) : Class.t :=
  Class.mk (Class.id self) (Class.label_id self) (Class.parent_id self)
    (Class.first_child_id self) (Class.next_child_id self)
    (Class.first_index_id self) count (Class.is_abstract self)
    (Class.incrementer self).

Definition Fabric_Class_has_members (self : Class.t) : bool :=
  0 <? Class.count self.

Definition Fabric_Class_is_abstract (self : Class.t) : Z :=
  Class.is_abstract self.

Definition Fabric_Class_set_is_abstract (self : Class.t) (is_abstract : Z)
  : Class.t :=
  Class.mk (Class.id self) (Class.label_id self) (Class.parent_id self)
    (Class.first_child_id self) (Class.next_child_id self)
    (Class.first_index_id self) (Class.count self) is_abstract
    (Class.incrementer self).

Definition Fabric_Class_set_incrementer (self : Class.t) (value : Z)
  : Class.t :=
  Class.mk (Class.id self) (Class.label_id self) (Class.parent_id self)
    (Class.first_child_id self) (Class.next_child_id self)
    (Class.first_index_id self) (Class.count self) (Class.is_abstract self)
    value.

(** [Fabric_Class_increment]: the old counter and the class with the
    counter advanced. *)
Definition Fabric_Class_increment (self : Class.t) : Z * Class.t :=
  (Class.incrementer self,
   Fabric_Class_set_incrementer self (uint32 (Class.incrementer self + 1))).

(** ** The stores and the graph that embeds them *)

Definition FABRIC_CLASSSTORE_HEADER_SIZE : Z := 6.
Definition FABRIC_LABELSTORE_HEADER_SIZE : Z := 12.
Definition MIN_PAGE_SIZE : Z := 65536.
Definition INDEX_PAGE_SIZE : Z := 65536.
Definition FABRIC_TEXT_BLOCK_SIZE : Z := 32.
Definition FABRIC_VERSION_NUMBER : Z := 1.
Definition FABRIC_HEADER_SIZE : Z := 84.

Module ClassStore.
Record t := mk {
  offset : Z;          (* uint32_t *)
  num_classes : Z;     (* uint16_t *)
  next_free_id : Z;    (* uint16_t *)
  last_free_id : Z;    (* uint16_t *)
  size : Z;            (* uint32_t *)
  cache : EntityMap.t;
  changed : IdSet.t
}.
End ClassStore.

Module LabelStore.
Record t := mk {
  offset : Z; size : Z; num_labels : Z; next_free_id : Z;
  last_free_id : Z; cache : EntityMap.t; changed : IdSet.t
}.
End LabelStore.

Module VertexStore.
Record t := mk { offset : Z; size : Z }.
End VertexStore.
Module EdgeStore.
Record t := mk { offset : Z; size : Z }.
End EdgeStore.
Module PropertyStore.
Record t := mk { offset : Z; size : Z }.
End PropertyStore.
Module TextStore.
Record t := mk { offset : Z; size : Z; block_size : Z }.
End TextStore.
Module IndexStore.
Record t := mk { offset : Z; size : Z; page_size : Z; page_count : Z }.
End IndexStore.

Module Graph.
Record t := mk {
  graph_file : FILE.t;
  fabric_header_string : list Z;
  application_header_string : list Z;
  fabric_version_number : Z;
  application_version_number : Z;
  file_change_counter : Z;
  class_store : ClassStore.t;
  label_store : LabelStore.t;
  vertex_store : VertexStore.t;
  edge_store : EdgeStore.t;
  property_store : PropertyStore.t;
  text_store : TextStore.t;
  index_store : IndexStore.t
}.

Definition with_file (g : t) (file : FILE.t) : t :=
  mk file (fabric_header_string g) (application_header_string g)
    (fabric_version_number g) (application_version_number g)
    (file_change_counter g) (class_store g) (label_store g)
    (vertex_store g) (edge_store g) (property_store g) (text_store g)
    (index_store g).

Definition with_class_store (g : t) (cs : ClassStore.t) : t :=
  mk (graph_file g) (fabric_header_string g) (application_header_string g)
    (fabric_version_number g) (application_version_number g)
    (file_change_counter g) cs (label_store g)
    (vertex_store g) (edge_store g) (property_store g) (text_store g)
    (index_store g).

Definition with_label_store (g : t) (ls : LabelStore.t) : t :=
  mk (graph_file g) (fabric_header_string g) (application_header_string g)
    (fabric_version_number g) (application_version_number g)
    (file_change_counter g) (class_store g) ls
    (vertex_store g) (edge_store g) (property_store g) (text_store g)
    (index_store g).
End Graph.

(** Fabric.c: the signature every graph file starts with. *)
Definition FABRIC_HEADER_STRING : list Z :=
  [102; 97; 98; 114; 105; 99; 100; 98; 32; 118; 48; 46; 49; 0; 0; 0].

(** ** Graph.c: positional reads and writes *)

(** [offset] is a [long]; -1 stands for "from the current position". *)
Definition Fabric_Graph_write_bytes (self : Graph.t) (bytes : list Z)
    (num_bytes : Z) (offset : Z) : Graph.t :=
  let file := Graph.graph_file self in
  let file := if negb (offset =? -1) then fseek file offset else file in
  Graph.with_file self
    (foldl (λ file byte, fputc byte file) file
       (take (Z.to_nat num_bytes) bytes)).

Definition Fabric_Graph_write_uint32 (host : byte_order) (self : Graph.t)
    (value : Z) (offset : Z) : Graph.t :=
  let network_order_value := htobe32 host value in
  let bytes := object_bytes host 4 network_order_value in
  Fabric_Graph_write_bytes self bytes 4 offset.

(** The temporary is a [uint16_t] that receives [htobe32(value)]: the
    conversion keeps the low 16 bits of the 32-bit result. *)
Definition Fabric_Graph_write_uint16 (host : byte_order) (self : Graph.t)
    (value : Z) (offset : Z) : Graph.t :=
  let network_order_value := uint16 (htobe32 host value) in
  let bytes := object_bytes host 2 network_order_value in
  Fabric_Graph_write_bytes self bytes 2 offset.

(** The loop of [Fabric_Graph_read_bytes]: [num_bytes] calls of [fgetc],
    each result converted to [uint8_t]. *)
Fixpoint Graph_read_loop (num_bytes : nat) (file : FILE.t)
  : list Z * FILE.t :=
  match num_bytes with
  | O => ([], file)
  | S n =>
      let '(c, file) := fgetc file in
      let '(rest, file) := Graph_read_loop n file in
      (uint8 c :: rest, file)
  end.

Definition Fabric_Graph_read_bytes (self : Graph.t) (num_bytes : Z)
    (offset : Z) : list Z * Graph.t :=
  let file := Graph.graph_file self in
  let file := if negb (offset =? -1) then fseek file offset else file in
  let '(destination, file) := Graph_read_loop (Z.to_nat num_bytes) file in
  (destination, Graph.with_file self file).

Definition Fabric_Graph_read_uint32 (host : byte_order) (self : Graph.t)
    (offset : Z) : Z * Graph.t :=
  let '(bytes, self) := Fabric_Graph_read_bytes self 4 offset in
  (betoh32 host (object_value host bytes), self).

Definition Fabric_Graph_read_uint16 (host : byte_order) (self : Graph.t)
    (offset : Z) : Z * Graph.t :=
  let '(bytes, self) := Fabric_Graph_read_bytes self 2 offset in
  (betoh16 host (object_value host bytes), self).

(** ** The state the store operations act on *)

(** [heap] holds the [Class] objects obtained from [Fabric_memalloc]: the
    object at address [S i] is [heap !! i].  [junk] is what freshly
    allocated memory happens to contain.  The stores are embedded in the
    graph, so [Fabric_ClassStore_get_graph(self)] is [graph] and [self] is
    its [class_store]. *)
Module World.
Record t := mk { heap : list Class.t; junk : Class.t; graph : Graph.t }.
End World.

Definition M (A : Type) : Type := World.t → option (A * World.t).

#[global] Instance M_ret : MRet M := λ A a w, Some (a, w).
#[global] Instance M_bind : MBind M := λ A B f m w,
  match m w with
  | Some (a, w') => f a w'
  | None => None
  end.

(** No result: a crash or a loop that is never left. *)
Definition crash {A : Type} : M A := λ _, None.

Definition lift_option {A : Type} (o : option A) : M A :=
  λ w, match o with Some a => Some (a, w) | None => None end.

(** [*c] for a [Class *c]. *)
Definition deref (c : ptr) : M Class.t := λ w,
  match c with
  | O => None
  | S i => match World.heap w !! i with
           | Some v => Some (v, w)
           | None => None
           end
  end.

(** [*c = v]. *)
Definition assign (c : ptr) (v : Class.t) : M unit := λ w,
  match c with
  | O => None
  | S i => match World.heap w !! i with
           | Some _ =>
               Some (tt, World.mk (<[i := v]> (World.heap w)) (World.junk w)
                           (World.graph w))
           | None => None
           end
  end.

(** A setter or other in-place update applied through a pointer. *)
Definition update (c : ptr) (f : Class.t → Class.t) : M unit :=
  v ← deref c; assign c (f v).

(** [Fabric_memalloc(sizeof(Class))]. *)
Definition memalloc_Class : M ptr := λ w,
  Some (S (length (World.heap w)),
        World.mk (World.heap w ++ [World.junk w]) (World.junk w)
          (World.graph w)).

(** [*status = ...]: storing through a null [error_t *] crashes; the value
    stored is carried in the result of the function. *)
Definition store_status (status : ptr) : M unit := λ w,
  match status with
  | O => None
  | S _ => Some (tt, w)
  end.

(** The address of a local [error_t status] of the running function. *)
Definition local_status : ptr := 1%nat.

Definition get_graph : M Graph.t := λ w, Some (World.graph w, w).
Definition put_graph (g : Graph.t) : M unit := λ w,
  Some (tt, World.mk (World.heap w) (World.junk w) g).

Definition get_class_store : M ClassStore.t :=
  g ← get_graph; mret (Graph.class_store g).
Definition put_class_store (cs : ClassStore.t) : M unit :=
  g ← get_graph; put_graph (Graph.with_class_store g cs).

Definition put_next_free_id (v : Z) : M unit :=
  self ← get_class_store;
  put_class_store
    (ClassStore.mk (ClassStore.offset self) (ClassStore.num_classes self) v
       (ClassStore.last_free_id self) (ClassStore.size self)
       (ClassStore.cache self) (ClassStore.changed self)).

Definition put_last_free_id (v : Z) : M unit :=
  self ← get_class_store;
  put_class_store
    (ClassStore.mk (ClassStore.offset self) (ClassStore.num_classes self)
       (ClassStore.next_free_id self) v (ClassStore.size self)
       (ClassStore.cache self) (ClassStore.changed self)).

Definition put_num_classes (v : Z) : M unit :=
  self ← get_class_store;
  put_class_store
    (ClassStore.mk (ClassStore.offset self) v (ClassStore.next_free_id self)
       (ClassStore.last_free_id self) (ClassStore.size self)
       (ClassStore.cache self) (ClassStore.changed self)).

Definition put_cache (v : EntityMap.t) : M unit :=
  self ← get_class_store;
  put_class_store
    (ClassStore.mk (ClassStore.offset self) (ClassStore.num_classes self)
       (ClassStore.next_free_id self) (ClassStore.last_free_id self)
       (ClassStore.size self) v (ClassStore.changed self)).

Definition put_changed (v : IdSet.t) : M unit :=
  self ← get_class_store;
  put_class_store
    (ClassStore.mk (ClassStore.offset self) (ClassStore.num_classes self)
       (ClassStore.next_free_id self) (ClassStore.last_free_id self)
       (ClassStore.size self) (ClassStore.cache self) v).

(** [Fabric_EntityMap_set(self->cache, key, entity)]. *)
Definition cache_set (host : byte_order) (key : Z) (entity : ptr)
  : M error_t :=
  self ← get_class_store;
  r ← lift_option (Fabric_EntityMap_set host (ClassStore.cache self) key entity);
  put_cache (fst r);;
  mret (snd r).

(** [Fabric_IdSet_add(self->changed, id)]. *)
Definition changed_add (host : byte_order) (id : Z) : M error_t :=
  self ← get_class_store;
  r ← lift_option (Fabric_IdSet_add host (ClassStore.changed self) id);
  put_changed (fst r);;
  mret (snd r).

(** One disjunct [FABRIC_OK != (status = call)] of a short-circuit chain:
    [call] runs only while the status is still [FABRIC_OK]. *)
Definition or_else (status : error_t) (call : M error_t) : M error_t :=
  if negb (status =? FABRIC_OK) then mret status else call.

(** [Fabric_Class_new]. *)
Definition Fabric_Class_new (id : Z) (status : ptr) : M (ptr * error_t) :=
  c ← memalloc_Class;
  update c (λ v, Fabric_Class_set_id v id);;
  store_status status;;
  mret (c, FABRIC_OK).

(** ** IndexStore.c, Index.c, LabelStore.c: what the class store calls *)

(** A [text_t] is a [char *]: the bytes of the name. *)
Definition text_t := list Z.

Definition Fabric_IndexStore_get_class_index (status : ptr)
  : M (ptr * error_t) :=
  store_status status;; mret (NULL, FABRIC_OK).

Definition Fabric_IndexStore_get_label_index (status : ptr)
  : M (ptr * error_t) :=
  store_status status;; mret (NULL, FABRIC_OK).

Definition Fabric_IndexStore_create_id_index (class_id : Z) (status : ptr)
  : M (Z * error_t) :=
  store_status status;; mret (0, FABRIC_OK).

Definition Fabric_IndexStore_delete_id_index (index_id : Z) : M error_t :=
  mret FABRIC_OK.

Definition Fabric_IndexStore_add_class_to_index (class : ptr) : M error_t :=
  mret FABRIC_OK.

Definition Fabric_IndexStore_add_class_to_index_if_not_exists (class : ptr)
  : M error_t :=
  mret FABRIC_OK.

Definition Fabric_IndexStore_remove_class_from_index (class : ptr)
  : M error_t :=
  mret FABRIC_OK.

Definition Fabric_ClassIndex_get_class_id (self : ptr) (name : text_t)
    (status : ptr) : M (Z * error_t) :=
  store_status status;; mret (0, FABRIC_OK).

(** Modelled from the spec: the label store's "does not exist" code, which
    LabelStore.c uses and Internal.h does not define; numbered like
    [FABRIC_CLASS_DOESNT_EXIST] in the label store's range. *)
Definition FABRIC_LABEL_DOESNT_EXIST : error_t := 0x00000202.

(** [Fabric_LabelStore_get_label_by_name].  The test after the index is
    fetched compares the pointer [status], not the code it points to.  The
    lookup behind it calls [Fabric_LabelIndex_get_label_id] and
    [Fabric_LabelStore_get_class], which the sources do not define; it is
    only reached with [status == NULL], and then the store through [status]
    in [Fabric_IndexStore_get_label_index] has crashed already. *)
Definition Fabric_LabelStore_get_label_by_name (name : text_t) (status : ptr)
  : M (ptr * error_t) :=
  '(li, st) ← Fabric_IndexStore_get_label_index status;
  if negb (FABRIC_OK =? Z.of_nat status) then mret (NULL, st)
  else crash.

(** [Fabric_LabelStore_add_label].  Allocating a new label calls
    [Fabric_LabelStore_next_id] and [Fabric_TextStore_delete_text], which
    the sources do not define: that branch has no result here.  In the last
    branch [Fabric_Label_add_ref(label)] dereferences the label found, and
    a null label crashes. *)
Definition Fabric_LabelStore_add_label (name : text_t) (status : ptr)
  : M (Z * error_t) :=
  '(label, st) ← Fabric_LabelStore_get_label_by_name name status;
  if st =? FABRIC_LABEL_DOESNT_EXIST then crash
  else if negb (st =? FABRIC_OK) then mret (0, st)
  else crash.

Definition Fabric_LabelStore_remove_label (label_id : Z) : M error_t :=
  mret FABRIC_OK.

(** ** ClassStore.c *)

(** [Fabric_ClassStore_init]: the store reads its three counters; its
    offset has been set by the graph. *)
Definition Fabric_ClassStore_init (host : byte_order) (graph : Graph.t)
  : Graph.t * error_t :=
  let self := Graph.class_store graph in
  let size :=
    uint32 (LabelStore.offset (Graph.label_store graph)
            - ClassStore.offset self) in
  let '(num_classes, graph) :=
    Fabric_Graph_read_uint16 host graph (ClassStore.offset self) in
  let '(next_free_id, graph) :=
    Fabric_Graph_read_uint16 host graph (uint32 (ClassStore.offset self + 2)) in
  let '(last_free_id, graph) :=
    Fabric_Graph_read_uint16 host graph (uint32 (ClassStore.offset self + 4)) in
  let '(cache, status) := Fabric_EntityMap_new in
  if negb (FABRIC_OK =? status)
  then (Graph.with_class_store graph
          (ClassStore.mk (ClassStore.offset self) num_classes next_free_id
             last_free_id size cache (ClassStore.changed self)), status)
  else
    let '(changed, status) := Fabric_IdSet_new in
    (Graph.with_class_store graph
       (ClassStore.mk (ClassStore.offset self) num_classes next_free_id
          last_free_id size cache changed), status).

Definition Fabric_ClassStore__get_id_offset (self : ClassStore.t)
    (class_id : Z) : Z :=
  uint32 ((class_id - 1) * FABRIC_CLASS_STORAGE_SIZE + ClassStore.offset self
          + FABRIC_CLASSSTORE_HEADER_SIZE).

(** [max_id] of [Fabric_ClassStore_flush]: the last id the region has a
    slot for. *)
Definition ClassStore_max_id (self : ClassStore.t) : Z :=
  uint16 (uint32 (ClassStore.size self - FABRIC_CLASSSTORE_HEADER_SIZE)
          / FABRIC_CLASS_STORAGE_SIZE).

(** The [for] loop of [Fabric_ClassStore_flush] over [changed_ids]; [Some]
    is the status the loop returns with, [None] is the loop running to its
    end. *)
Fixpoint ClassStore_flush_loop (host : byte_order) (changed_ids : list Z)
    (max_id : Z) : M (option error_t) :=
  match changed_ids with
  | [] => mret None
  | changed_id :: rest =>
      self ← get_class_store;
      changed_class ←
        lift_option (Fabric_EntityMap_get host (ClassStore.cache self) changed_id);
      if max_id <? changed_id
      then mret (Some FABRIC_CLASSSTORE_NEEDS_RESIZE)
      else
        let offset := Fabric_ClassStore__get_id_offset self changed_id in
        v ← deref changed_class;
        let write_data := Fabric_Class_load_bytes host v in
        graph ← get_graph;
        put_graph (Fabric_Graph_write_bytes graph write_data
                     FABRIC_CLASS_STORAGE_SIZE offset);;
        self ← get_class_store;
        changed ←
          lift_option (Fabric_IdSet_remove host (ClassStore.changed self) changed_id);
        put_changed changed;;
        ClassStore_flush_loop host rest max_id
  end.

Definition Fabric_ClassStore_flush (host : byte_order) : M error_t :=
  self ← get_class_store;
  if Fabric_IdSet_is_empty (ClassStore.changed self) then mret FABRIC_OK
  else
    '(changed_ids, status) ←
      lift_option (Fabric_IdSet_to_array (ClassStore.changed self));
    if negb (FABRIC_OK =? status) then mret status
    else
      let num_ids := Fabric_IdSet_get_count (ClassStore.changed self) in
      let max_id := ClassStore_max_id self in
      r ← ClassStore_flush_loop host (take (Z.to_nat num_ids) changed_ids) max_id;
      match r with
      | Some status => mret status
      | None =>
          self ← get_class_store;
          graph ← get_graph;
          let graph :=
            Fabric_Graph_write_uint16 host graph (ClassStore.num_classes self)
              (ClassStore.offset self) in
          let graph :=
            Fabric_Graph_write_uint16 host graph (ClassStore.next_free_id self)
              (uint32 (ClassStore.offset self + 2)) in
          let graph :=
            Fabric_Graph_write_uint16 host graph (ClassStore.next_free_id self)
              (uint32 (ClassStore.offset self + 4)) in
          put_graph graph;;
          mret FABRIC_OK
      end.

(** [Fabric_ClassStore__next_id]: the id the next class will get. *)
Definition Fabric_ClassStore__next_id (host : byte_order) : M Z :=
  self ← get_class_store;
  let next_free_id := ClassStore.next_free_id self in
  (if ClassStore.next_free_id self =? ClassStore.last_free_id self
   then
     put_next_free_id (uint16 (ClassStore.next_free_id self + 1));;
     put_last_free_id (uint16 (ClassStore.last_free_id self + 1))
   else
     has_key ←
       lift_option (Fabric_EntityMap_has_key host (ClassStore.cache self) next_free_id);
     if (has_key : bool)
     then
       c ← lift_option (Fabric_EntityMap_get host (ClassStore.cache self) next_free_id);
       v ← deref c;
       put_next_free_id (Fabric_Class_get_parent_class_id v)
     else
       g ← get_graph;
       let next_id_offset := Fabric_ClassStore__get_id_offset self next_free_id in
       let '(link, g) := Fabric_Graph_read_uint16 host g (next_id_offset + 4) in
       put_graph g;;
       put_next_free_id link);;
  mret next_free_id.

(** [Fabric_ClassStore__add_free_id]: push the class on the free list. *)
Definition Fabric_ClassStore__add_free_id (class : ptr) : M unit :=
  self ← get_class_store;
  update class
    (λ v, Fabric_Class_set_parent_class_id v (ClassStore.next_free_id self));;
  v ← deref class;
  put_next_free_id (Fabric_Class_get_id v).

(** The end of [Fabric_ClassStore_get_class]: a record whose label id is 0
    is not in use. *)
Definition ClassStore_get_class_in_use (c : ptr) (st : error_t)
  : M (ptr * error_t) :=
  v ← deref c;
  if negb (Fabric_Class_is_in_use v)
  then mret (NULL, FABRIC_CLASS_DOESNT_EXIST)
  else mret (c, st).

Definition Fabric_ClassStore_get_class (host : byte_order) (class_id : Z)
    (status : ptr) : M (ptr * error_t) :=
  self ← get_class_store;
  c ← lift_option (Fabric_EntityMap_get host (ClassStore.cache self) class_id);
  store_status status;;
  if decide (c = NULL)
  then
    let offset := Fabric_ClassStore__get_id_offset self class_id in
    if (uint32 (ClassStore.size self + ClassStore.offset self) <? offset)
       || (class_id <? 1)
    then mret (c, FABRIC_CLASSSTORE_INVALID_ID)
    else
      g ← get_graph;
      let '(data, g) :=
        Fabric_Graph_read_bytes g FABRIC_CLASS_STORAGE_SIZE offset in
      put_graph g;;
      '(c, st) ← Fabric_Class_new class_id status;
      if negb (st =? FABRIC_OK) then mret (c, st)
      else
        v ← deref c;
        let '(v, st) := Fabric_Class_init host v data in
        assign c v;;
        cache_set host class_id c;;
        ClassStore_get_class_in_use c st
  else ClassStore_get_class_in_use c FABRIC_OK.

(** [Fabric_ClassStore_get_class_by_name].  Both tests [FABRIC_OK != status]
    compare the pointer [status] with 0, not the code stored behind it. *)
Definition Fabric_ClassStore_get_class_by_name (host : byte_order)
    (name : text_t) (status : ptr) : M (ptr * error_t) :=
  '(ci, st) ← Fabric_IndexStore_get_class_index status;
  if negb (FABRIC_OK =? Z.of_nat status) then mret (NULL, st)
  else
    '(id, st) ← Fabric_ClassIndex_get_class_id ci name status;
    if negb (FABRIC_OK =? Z.of_nat status) then mret (NULL, st)
    else if id =? 0
    then store_status status;; mret (NULL, FABRIC_CLASS_DOESNT_EXIST)
    else Fabric_ClassStore_get_class host id status.

(** Class.c: the relatives of a class, fetched through the class store. *)
Definition Fabric_Class_get_parent_class (host : byte_order) (self : ptr)
    (status : ptr) : M (ptr * error_t) :=
  v ← deref self;
  Fabric_ClassStore_get_class host (Class.parent_id v) status.

Definition Fabric_Class_get_first_child_class (host : byte_order)
    (self : ptr) (status : ptr) : M (ptr * error_t) :=
  v ← deref self;
  Fabric_ClassStore_get_class host (Class.first_child_id v) status.

Definition Fabric_Class_get_next_child_class (host : byte_order) (self : ptr)
    (status : ptr) : M (ptr * error_t) :=
  v ← deref self;
  Fabric_ClassStore_get_class host (Class.next_child_id v) status.

(** [Fabric_ClassStore_create_class], from the allocation of the id on
    (the part behind the two tests of the name lookup). *)
Definition ClassStore_create_class_allocate (host : byte_order)
    (extends : ptr) (name : text_t) (is_abstract : Z) (status : ptr)
  : M (ptr * error_t) :=
  '(ci, st) ← Fabric_IndexStore_get_class_index status;
  if negb (FABRIC_OK =? st) then mret (NULL, st)
  else
    class_id ← Fabric_ClassStore__next_id host;
    '(c, st) ← Fabric_Class_new class_id status;
    if negb (FABRIC_OK =? st)
    then Fabric_ClassStore__add_free_id c;; mret (NULL, st)
    else
      '(label_id, st) ← Fabric_LabelStore_add_label name status;
      if negb (FABRIC_OK =? st)
      then Fabric_ClassStore__add_free_id c;; mret (NULL, st)
      else
        created ←
          (if is_abstract =? 0
           then Fabric_IndexStore_create_id_index class_id status
           else mret (0, st));
        let '(index_id, st) := created in
        if negb (FABRIC_OK =? st)
        then
          Fabric_ClassStore__add_free_id c;;
          Fabric_LabelStore_remove_label label_id;;
          mret (NULL, st)
        else
          ev ← deref extends;
          let parent_class_id := Fabric_Class_get_id ev in
          update c (λ v, Fabric_Class_set_label_id v label_id);;
          update c (λ v, Fabric_Class_set_parent_class_id v parent_class_id);;
          ev ← deref extends;
          update c (λ v, Fabric_Class_set_next_child_class_id v
                           (Fabric_Class_get_first_child_class_id ev));;
          update extends (λ v, Fabric_Class_set_first_child_class_id v class_id);;
          update c (λ v, Fabric_Class_set_first_index_id v index_id);;
          update c (λ v, Fabric_Class_set_count v 0);;
          update c (λ v, Fabric_Class_set_incrementer v 1);;
          update c (λ v, Fabric_Class_set_is_abstract v is_abstract);;
          stat ← cache_set host class_id c;
          stat ← or_else stat (cache_set host parent_class_id extends);
          stat ← or_else stat (changed_add host class_id);
          stat ← or_else stat (changed_add host parent_class_id);
          stat ← or_else stat (Fabric_IndexStore_add_class_to_index c);
          if negb (FABRIC_OK =? stat)
          then
            store_status status;;
            Fabric_LabelStore_remove_label label_id;;
            (if is_abstract =? 0
             then Fabric_IndexStore_delete_id_index index_id
             else mret FABRIC_OK);;
            cv ← deref c;
            update extends (λ v, Fabric_Class_set_first_child_class_id v
                                   (Fabric_Class_get_next_child_class_id cv));;
            update c (λ v, Fabric_Class_set_label_id v 0);;
            Fabric_ClassStore__add_free_id c;;
            mret (NULL, stat)
          else
            self ← get_class_store;
            put_num_classes (uint16 (ClassStore.num_classes self + 1));;
            mret (c, st).

Definition Fabric_ClassStore_create_class (host : byte_order) (extends : ptr)
    (name : text_t) (is_abstract : Z) (status : ptr) : M (ptr * error_t) :=
  '(found, st) ← Fabric_ClassStore_get_class_by_name host name status;
  if negb (bool_decide (found = NULL))
  then store_status status;; mret (NULL, FABRIC_DUPLICATE_CLASSNAME)
  else if negb (FABRIC_CLASS_DOESNT_EXIST =? st) then mret (NULL, st)
  else ClassStore_create_class_allocate host extends name is_abstract status.

(** The [while] loop of [Fabric_ClassStore_delete_class] that walks the
    sibling chain to the node in front of [class_id].  Next-sibling ids are
    16 bits wide and the loop changes none of them, so a walk of more than
    2^16 steps has come back to a node it has seen and is never left. *)
Definition class_id_space : nat := Z.to_nat 65536.

Fixpoint ClassStore_delete_class_walk (fuel : nat) (host : byte_order)
    (class_id : Z) (child_class : ptr) : M (error_t + ptr) :=
  match fuel with
  | O => crash
  | S fuel' =>
      v ← deref child_class;
      if negb (Fabric_Class_get_next_child_class_id v =? class_id)
      then
        '(child_class, status) ←
          Fabric_Class_get_next_child_class host child_class local_status;
        if negb (FABRIC_OK =? status) then mret (inl status)
        else ClassStore_delete_class_walk fuel' host class_id child_class
      else mret (inr child_class)
  end.

(** The hierarchy update of [Fabric_ClassStore_delete_class]: [inl] is a
    status the function returns with at once, [inr] carries [child_class]
    and [status] on to the rest of the function. *)
Definition ClassStore_delete_class_unlink (host : byte_order) (c : ptr)
    (class_id : Z) (parent_class : ptr) : M (error_t + ptr * error_t) :=
  let child_class := NULL in
  pv ← deref parent_class;
  if Fabric_Class_get_first_child_class_id pv =? class_id
  then
    cv ← deref c;
    update parent_class
      (λ v, Fabric_Class_set_first_child_class_id v
              (Fabric_Class_get_next_child_class_id cv));;
    pv ← deref parent_class;
    status ← cache_set host (Fabric_Class_get_id pv) child_class;
    status ←
      (if FABRIC_OK =? status
       then pv ← deref parent_class; changed_add host (Fabric_Class_get_id pv)
       else mret status);
    mret (inr (child_class, status))
  else
    '(child_class, status) ←
      Fabric_Class_get_first_child_class host parent_class local_status;
    if negb (FABRIC_OK =? status) then mret (inl status)
    else
      walked ← ClassStore_delete_class_walk (S class_id_space) host class_id
                 child_class;
      match walked with
      | inl status => mret (inl status)
      | inr child_class =>
          update child_class
            (λ v, Fabric_Class_set_next_child_class_id v class_id);;
          chv ← deref child_class;
          status ← cache_set host (Fabric_Class_get_id chv) child_class;
          status ←
            (if FABRIC_OK =? status
             then chv ← deref child_class;
                  changed_add host (Fabric_Class_get_id chv)
             else mret status);
          mret (inr (child_class, status))
      end.

Definition Fabric_ClassStore_delete_class (host : byte_order) (c : ptr)
  : M error_t :=
  cv ← deref c;
  if negb (Fabric_Class_is_in_use cv) then mret FABRIC_OK
  else if Fabric_Class_has_child_classes cv
  then mret FABRIC_CANT_DELETE_CLASS_HAS_CHILDREN
  else if Fabric_Class_has_members cv
  then mret FABRIC_CANT_DELETE_CLASS_HAS_MEMBERS
  else
    let class_id := Fabric_Class_get_id cv in
    '(parent_class, status) ←
      Fabric_Class_get_parent_class host c local_status;
    if negb (FABRIC_OK =? status) then mret status
    else
      unlinked ← ClassStore_delete_class_unlink host c class_id parent_class;
      match unlinked with
      | inl status => mret status
      | inr (child_class, status) =>
          cv ← deref c;
          let label_id := Fabric_Class_get_label_id cv in
          status ← or_else status (Fabric_IndexStore_remove_class_from_index c);
          status ← or_else status (changed_add host class_id);
          status ← or_else status (cache_set host class_id c);
          status ← or_else status (changed_add host class_id);
          status ← or_else status (Fabric_LabelStore_remove_label label_id);
          if negb (FABRIC_OK =? status)
          then
            (if decide (child_class = NULL)
             then update parent_class
                    (λ v, Fabric_Class_set_first_child_class_id v class_id)
             else update child_class
                    (λ v, Fabric_Class_set_next_child_class_id v class_id));;
            Fabric_IndexStore_add_class_to_index_if_not_exists c;;
            mret status
          else
            Fabric_ClassStore__add_free_id c;;
            self ← get_class_store;
            put_num_classes (uint16 (ClassStore.num_classes self - 1));;
            mret FABRIC_OK
      end.

(** ** The other stores' initialisation, Graph.c and Fabric.c *)

(** [Fabric_LabelStore_get_graph] subtracts [offsetof(Graph, class_store)]
    from the address of the label store, where the other stores' functions
    subtract the offset of their own field: the address it returns lies
    [sizeof(ClassStore)] bytes inside the graph object.  No [Graph] lives
    there; read as one, its [graph_file] is made of the last bytes of
    [application_header_string], and no stream is open at that address.
    The model has no such object, and every use of it is a crash. *)
Definition Fabric_LabelStore_get_graph (self : LabelStore.t)
  : option Graph.t := None.

(** [Fabric_LabelStore_init]: the size and the three header reads go
    through the graph of [Fabric_LabelStore_get_graph]; [owner] is the
    graph that holds the label store, which receives the fields. *)
Definition Fabric_LabelStore_init (host : byte_order) (owner : Graph.t)
  : option (Graph.t * error_t) :=
  let self := Graph.label_store owner in
  graph ← Fabric_LabelStore_get_graph self;
  let size :=
    uint32 (VertexStore.offset (Graph.vertex_store graph)
            - LabelStore.offset self) in
  let '(num_labels, graph) :=
    Fabric_Graph_read_uint16 host graph (LabelStore.offset self) in
  let '(next_free_id, graph) :=
    Fabric_Graph_read_uint16 host graph (uint32 (LabelStore.offset self + 4)) in
  let '(last_free_id, graph) :=
    Fabric_Graph_read_uint16 host graph (uint32 (LabelStore.offset self + 8)) in
  let '(cache, status) := Fabric_EntityMap_new in
  if negb (FABRIC_OK =? status)
  then Some (Graph.with_label_store owner
               (LabelStore.mk (LabelStore.offset self) size num_labels
                  next_free_id last_free_id cache (LabelStore.changed self)),
             status)
  else
    let '(changed, status) := Fabric_IdSet_new in
    Some (Graph.with_label_store owner
            (LabelStore.mk (LabelStore.offset self) size num_labels
               next_free_id last_free_id cache changed), status).

Definition Fabric_VertexStore_init (graph : Graph.t) : VertexStore.t :=
  let self := Graph.vertex_store graph in
  VertexStore.mk (VertexStore.offset self)
    (uint32 (EdgeStore.offset (Graph.edge_store graph) - VertexStore.offset self)).

Definition Fabric_EdgeStore_init (graph : Graph.t) : EdgeStore.t :=
  let self := Graph.edge_store graph in
  EdgeStore.mk (EdgeStore.offset self)
    (uint32 (PropertyStore.offset (Graph.property_store graph)
             - EdgeStore.offset self)).

Definition Fabric_PropertyStore_init (graph : Graph.t) : PropertyStore.t :=
  let self := Graph.property_store graph in
  PropertyStore.mk (PropertyStore.offset self)
    (uint32 (TextStore.offset (Graph.text_store graph)
             - PropertyStore.offset self)).

Definition Fabric_TextStore_init (graph : Graph.t) : TextStore.t :=
  let self := Graph.text_store graph in
  TextStore.mk (TextStore.offset self)
    (uint32 (IndexStore.offset (Graph.index_store graph)
             - TextStore.offset self))
    (TextStore.block_size self).

Definition Fabric_IndexStore_init (self : IndexStore.t) : IndexStore.t :=
  IndexStore.mk (IndexStore.offset self)
    (uint32 (IndexStore.page_size self * IndexStore.page_count self))
    (IndexStore.page_size self) (IndexStore.page_count self).

(** [Fabric_Graph_write_header]. *)
Definition Fabric_Graph_write_header (host : byte_order) (self : Graph.t)
  : Graph.t * Z :=
  let u32 (value : Z) (g : Graph.t) :=
    Fabric_Graph_write_uint32 host g value (-1) in
  let g := Graph.with_file self (fseek (Graph.graph_file self) 0) in
  let g := Fabric_Graph_write_bytes g (Graph.fabric_header_string self) 16 0 in
  let g :=
    Fabric_Graph_write_bytes g (Graph.application_header_string self) 16 (-1) in
  let g := u32 (Graph.fabric_version_number self) g in
  let g := u32 (Graph.application_version_number self) g in
  let g := u32 (Graph.file_change_counter self) g in
  let g := u32 (ClassStore.offset (Graph.class_store self)) g in
  let g := u32 (LabelStore.offset (Graph.label_store self)) g in
  let g := u32 (VertexStore.offset (Graph.vertex_store self)) g in
  let g := u32 (EdgeStore.offset (Graph.edge_store self)) g in
  let g := u32 (PropertyStore.offset (Graph.property_store self)) g in
  let g := u32 (TextStore.offset (Graph.text_store self)) g in
  let g := u32 (TextStore.block_size (Graph.text_store self)) g in
  let g := u32 (IndexStore.offset (Graph.index_store self)) g in
  let g := u32 (IndexStore.page_size (Graph.index_store self)) g in
  let g := u32 (IndexStore.page_count (Graph.index_store self)) g in
  (g, 0).

(** The first half of [Fabric_Graph_init]: the file is attached and the
    header is read into the fields of [self], the two strings and then
    thirteen numbers, each where the one before it ended. *)
Definition Graph_init_header (host : byte_order) (self : Graph.t)
    (graph_file : FILE.t) : Graph.t :=
  let g := Graph.with_file self graph_file in
  let '(fabric_header_string, g) := Fabric_Graph_read_bytes g 16 0 in
  let '(application_header_string, g) := Fabric_Graph_read_bytes g 16 (-1) in
  let '(fabric_version_number, g) := Fabric_Graph_read_uint32 host g (-1) in
  let '(application_version_number, g) := Fabric_Graph_read_uint32 host g (-1) in
  let '(file_change_counter, g) := Fabric_Graph_read_uint32 host g (-1) in
  let '(class_store_offset, g) := Fabric_Graph_read_uint32 host g (-1) in
  let '(label_store_offset, g) := Fabric_Graph_read_uint32 host g (-1) in
  let '(vertex_store_offset, g) := Fabric_Graph_read_uint32 host g (-1) in
  let '(edge_store_offset, g) := Fabric_Graph_read_uint32 host g (-1) in
  let '(property_store_offset, g) := Fabric_Graph_read_uint32 host g (-1) in
  let '(text_store_offset, g) := Fabric_Graph_read_uint32 host g (-1) in
  let '(text_store_block_size, g) := Fabric_Graph_read_uint32 host g (-1) in
  let '(index_store_offset, g) := Fabric_Graph_read_uint32 host g (-1) in
  let '(index_store_page_size, g) := Fabric_Graph_read_uint32 host g (-1) in
  let '(index_store_page_count, g) := Fabric_Graph_read_uint32 host g (-1) in
  let cs := Graph.class_store self in
  let ls := Graph.label_store self in
  Graph.mk (Graph.graph_file g) fabric_header_string
    application_header_string fabric_version_number
    application_version_number file_change_counter
    (ClassStore.mk class_store_offset (ClassStore.num_classes cs)
       (ClassStore.next_free_id cs) (ClassStore.last_free_id cs)
       (ClassStore.size cs) (ClassStore.cache cs) (ClassStore.changed cs))
    (LabelStore.mk label_store_offset (LabelStore.size ls)
       (LabelStore.num_labels ls) (LabelStore.next_free_id ls)
       (LabelStore.last_free_id ls) (LabelStore.cache ls)
       (LabelStore.changed ls))
    (VertexStore.mk vertex_store_offset
       (VertexStore.size (Graph.vertex_store self)))
    (EdgeStore.mk edge_store_offset (EdgeStore.size (Graph.edge_store self)))
    (PropertyStore.mk property_store_offset
       (PropertyStore.size (Graph.property_store self)))
    (TextStore.mk text_store_offset (TextStore.size (Graph.text_store self))
       text_store_block_size)
    (IndexStore.mk index_store_offset
       (IndexStore.size (Graph.index_store self)) index_store_page_size
       index_store_page_count).

(** [Fabric_Graph_init]: read the header, then initialise every store.
    The header strings are stored as they are read and compared with
    nothing; the function has one [return], of 0, which lies behind the
    call of [Fabric_LabelStore_init]. *)
Definition Fabric_Graph_init (host : byte_order) (self : Graph.t)
    (graph_file : FILE.t) : option (Graph.t * Z) :=
  let g := Graph_init_header host self graph_file in
  let '(g, _) := Fabric_ClassStore_init host g in
  '(g, _) ← Fabric_LabelStore_init host g;
  let g :=
    Graph.mk (Graph.graph_file g) (Graph.fabric_header_string g)
      (Graph.application_header_string g) (Graph.fabric_version_number g)
      (Graph.application_version_number g) (Graph.file_change_counter g)
      (Graph.class_store g) (Graph.label_store g)
      (Fabric_VertexStore_init g) (Fabric_EdgeStore_init g)
      (Fabric_PropertyStore_init g) (Fabric_TextStore_init g)
      (Fabric_IndexStore_init (Graph.index_store g)) in
  Some (g, 0).

(** Fabric.c: [Fabric_create_graph] and [Fabric_load_graph]. *)
Definition Fabric_create_graph (host : byte_order) (graph_file : FILE.t)
    (new_graph : Graph.t) : Graph.t :=
  let cs := Graph.class_store new_graph in
  let ls := Graph.label_store new_graph in
  let class_offset := FABRIC_HEADER_SIZE in
  let label_offset := uint32 (class_offset + MIN_PAGE_SIZE) in
  let vertex_offset := uint32 (label_offset + MIN_PAGE_SIZE) in
  let edge_offset := uint32 (vertex_offset + MIN_PAGE_SIZE) in
  let property_offset := uint32 (edge_offset + MIN_PAGE_SIZE) in
  let text_offset := uint32 (property_offset + MIN_PAGE_SIZE) in
  let index_offset := uint32 (text_offset + MIN_PAGE_SIZE) in
  let g :=
    Graph.mk graph_file FABRIC_HEADER_STRING (replicate 16 0)
      FABRIC_VERSION_NUMBER 0 1
      (ClassStore.mk class_offset (ClassStore.num_classes cs)
         (ClassStore.next_free_id cs) (ClassStore.last_free_id cs)
         (ClassStore.size cs) (ClassStore.cache cs) (ClassStore.changed cs))
      (LabelStore.mk label_offset (LabelStore.size ls)
         (LabelStore.num_labels ls) (LabelStore.next_free_id ls)
         (LabelStore.last_free_id ls) (LabelStore.cache ls)
         (LabelStore.changed ls))
      (VertexStore.mk vertex_offset
         (VertexStore.size (Graph.vertex_store new_graph)))
      (EdgeStore.mk edge_offset (EdgeStore.size (Graph.edge_store new_graph)))
      (PropertyStore.mk property_offset
         (PropertyStore.size (Graph.property_store new_graph)))
      (TextStore.mk text_offset (TextStore.size (Graph.text_store new_graph))
         FABRIC_TEXT_BLOCK_SIZE)
      (IndexStore.mk index_offset
         (IndexStore.size (Graph.index_store new_graph)) INDEX_PAGE_SIZE 0) in
  fst (Fabric_Graph_write_header host g).

Definition Fabric_load_graph (host : byte_order) (graph_file : FILE.t)
    (graph : Graph.t) : option Graph.t :=
  fst <$> Fabric_Graph_init host graph graph_file.

(** ** Concrete graphs and stores for the examples *)

Definition blank_class : Class.t := Class.mk 0 0 0 0 0 0 0 0 0.

Definition blank_graph : Graph.t :=
  Graph.mk (FILE.mk [] 0) [] [] 0 0 0
    (ClassStore.mk 0 0 0 0 0 (fst Fabric_EntityMap_new) (fst Fabric_IdSet_new))
    (LabelStore.mk 0 0 0 0 0 (fst Fabric_EntityMap_new) (fst Fabric_IdSet_new))
    (VertexStore.mk 0 0) (EdgeStore.mk 0 0) (PropertyStore.mk 0 0)
    (TextStore.mk 0 0 0) (IndexStore.mk 0 0 0 0).

(** The cache after [Fabric_EntityMap_set] for each pair, in order. *)
Definition cache_of (host : byte_order) (pairs : list (Z * ptr))
  : EntityMap.t :=
  foldl (λ m kv,
           match Fabric_EntityMap_set host m (fst kv) (snd kv) with
           | Some (m', _) => m'
           | None => m
           end)
    (fst Fabric_EntityMap_new) pairs.

(** The id set after [Fabric_IdSet_add] for each id, in order. *)
Definition idset_of (host : byte_order) (ids : list Z) : IdSet.t :=
  foldl (λ s id,
           match Fabric_IdSet_add host s id with
           | Some (s', _) => s'
           | None => s
           end)
    (fst Fabric_IdSet_new) ids.

(** A table of five slots that holds the keys 1 and 2, and a set of five
    slots that holds the ids 1 and 2: one entry more brings either to a
    load of exactly 3/5. *)
Definition small_map (host : byte_order) : EntityMap.t :=
  foldl (λ m kv,
           match Fabric_EntityMap_set host m (fst kv) (snd kv) with
           | Some (m', _) => m'
           | None => m
           end)
    (fst (Fabric_EntityMap_new_with_capacity 5)) [(1, 1%nat); (2, 2%nat)].

Definition small_set (host : byte_order) : IdSet.t :=
  foldl (λ s id,
           match Fabric_IdSet_add host s id with
           | Some (s', _) => s'
           | None => s
           end)
    (fst (Fabric_IdSet_new_with_capacity 5)) [1; 2].

(** The graph [Fabric_create_graph] makes over an empty file. *)
Definition created_graph (host : byte_order) : Graph.t :=
  Fabric_create_graph host (FILE.mk [] 0) blank_graph.

(** A class store over [created_graph] with the given counters, cache and
    changed set; its region is the 65536 bytes from offset 84. *)
Definition store_world (host : byte_order) (heap : list Class.t)
    (num_classes next_free_id last_free_id : Z) (cached : list (Z * ptr))
    (changed : list Z) : World.t :=
  World.mk heap blank_class
    (Graph.with_class_store (created_graph host)
       (ClassStore.mk 84 num_classes next_free_id last_free_id 65536
          (cache_of host cached) (idset_of host changed))).

(** The root class "Vertex" (id 1) with two children: its first child is
    class 3, whose next sibling is class 2.  Objects 1, 2, 3 of the heap
    are the classes 1, 2, 3, all cached. *)
Definition family (host : byte_order) : World.t :=
  store_world host
    [Class.mk 1 1 0 3 0 0 0 0 1;
     Class.mk 2 2 1 0 0 0 0 0 1;
     Class.mk 3 3 1 0 2 0 0 0 1]
    3 4 4 [(1, 1%nat); (2, 2%nat); (3, 3%nat)] [].

(** A childless class 2 with 35 members under the root. *)
Definition populated (host : byte_order) : World.t :=
  store_world host
    [Class.mk 1 1 0 2 0 0 0 0 1;
     Class.mk 2 9 1 0 0 16 35 0 37]
    2 3 3 [(1, 1%nat); (2, 2%nat)] [].

(** The class of scenario S2 of the design document and its stored form. *)
Definition S2_class : Class.t := Class.mk 2 9 1 4 0 16 35 0 37.

Definition S2_bytes : list Z :=
  [0x00; 0x00; 0x00; 0x09; 0x00; 0x01; 0x00; 0x04; 0x00; 0x00; 0x00; 0x10;
   0x00; 0x00; 0x00; 0x23; 0x00; 0x00; 0x00; 0x00; 0x25].

(** The sibling chain of a class as [Fabric_Class_load_descendent_classes]
    enumerates it at depth 1: from the first child along the next-sibling
    ids until one is 0, each class fetched through the store. *)
Fixpoint sibling_chain_from (fuel : nat) (host : byte_order) (id : Z)
  : M (list Z) :=
  match fuel with
  | O => crash
  | S fuel' =>
      if id =? 0 then mret []
      else
        '(c, status) ← Fabric_ClassStore_get_class host id local_status;
        if negb (FABRIC_OK =? status) then crash
        else
          v ← deref c;
          rest ← sibling_chain_from fuel' host (Class.next_child_id v);
          mret (id :: rest)
  end.

Definition child_ids (host : byte_order) (parent : ptr) : M (list Z) :=
  v ← deref parent;
  sibling_chain_from (S class_id_space) host (Class.first_child_id v).

(** The root and a class 2 whose slot has been released: label id 0, the
    free-list link in the parent field, the id at the head of the free
    list. *)
Definition released (host : byte_order) : World.t :=
  store_world host
    [Class.mk 1 1 0 0 0 0 0 0 1;
     Class.mk 2 0 3 0 0 0 0 0 1]
    1 2 3 [(1, 1%nat); (2, 2%nat)] [2].

(** [family] once class 2, the second child, has been deleted: what
    [Fabric_ClassStore_delete_class] leaves behind. *)
Definition family_less_2 (host : byte_order) : World.t :=
  store_world host
    [Class.mk 1 1 0 3 0 0 0 0 1;
     Class.mk 2 2 4 0 0 0 0 0 1;
     Class.mk 3 3 1 0 2 0 0 0 1]
    2 2 4 [(1, 1%nat); (2, 2%nat); (3, 3%nat)] [3; 2].


(** A file of 84 zero bytes: a header without the signature. *)
Definition unsigned_file : FILE.t := FILE.mk (replicate 84 0) 0.

(** ** Ranges *)

Definition is_byte (b : Z) : Prop := 0 ≤ b < 256.

(** A class record whose fields hold values of their C types and whose id
    is a class id (ids start at 1). *)
Definition Class_in_range (r : Class.t) : Prop :=
  1 ≤ Class.id r < 2 ^ 16
  ∧ 0 ≤ Class.label_id r < 2 ^ 32
  ∧ 0 ≤ Class.parent_id r < 2 ^ 16
  ∧ 0 ≤ Class.first_child_id r < 2 ^ 16
  ∧ 0 ≤ Class.next_child_id r < 2 ^ 16
  ∧ 0 ≤ Class.first_index_id r < 2 ^ 16
  ∧ 0 ≤ Class.count r < 2 ^ 32
  ∧ 0 ≤ Class.is_abstract r < 2 ^ 8
  ∧ 0 ≤ Class.incrementer r < 2 ^ 32.

(** ** Observations on a state *)

Definition class_store_of (w : World.t) : ClassStore.t :=
  Graph.class_store (World.graph w).

(** Membership in the dirty set, asked the way the code asks. *)
Definition dirty (host : byte_order) (w : World.t) (id : Z) : option bool :=
  Fabric_IdSet_has host (ClassStore.changed (class_store_of w)) id.

(** [s'] is [s] with some ids up to [max_id] taken out: every id found in
    [s'] is found in [s], and the ids beyond [max_id] are found in the one
    exactly when they are found in the other.  (The tombstone value is not
    an id: a removal leaves it in the table.) *)
Definition shrinks_below (host : byte_order) (max_id : Z) (s s' : IdSet.t)
  : Prop :=
  ∀ id : Z, id ≠ FABRIC_IDSET_TOMBSTONE →
    (Fabric_IdSet_has host s' id = Some true →
     Fabric_IdSet_has host s id = Some true)
    ∧ (max_id < id →
       Fabric_IdSet_has host s' id = Fabric_IdSet_has host s id).

(** ** Well-formed class caches *)

(** The number of occupied slots. *)
Definition EntityMap_used (m : EntityMap.t) : nat :=
  length (filter (λ e, EntityMapEntry.key e ≠ 0) (EntityMap.entries m)).

(** [key] is stored in the table with [entity]. *)
Definition EntityMap_bound (m : EntityMap.t) (key : Z) (entity : ptr) : Prop :=
  key ≠ 0 ∧ EntityMapEntry.mk key entity ∈ EntityMap.entries m.

(** The entry the probe from [pos] sees after [d] steps. *)
Definition probed (m : EntityMap.t) (pos : Z) (d : nat)
  : option EntityMapEntry.t :=
  EntityMap.entries m !! Z.to_nat ((pos + Z.of_nat d) mod EntityMap.cap m).

(** [d] steps of the probe from [pos] pass over occupied slots that do not
    hold [key]. *)
Definition passes (m : EntityMap.t) (key pos : Z) (d : nat) : Prop :=
  ∀ d' : nat, (d' < d)%nat →
    ∃ e, probed m pos d' = Some e
         ∧ EntityMapEntry.key e ≠ 0 ∧ EntityMapEntry.key e ≠ key.

(** A table nothing has been unset from: it is as long as its capacity,
    which stays below the value that doubles as "not found", [count]
    counts the occupied slots, the keys are class ids (so none is the
    tombstone), and every key is found by the probe of
    [Fabric_EntityMap__pos_of_key] in the slot that holds it. *)
Record EntityMap_wf (host : byte_order) (m : EntityMap.t) : Prop := {
  wf_cap : 0 < EntityMap.cap m;
  wf_length : Z.of_nat (length (EntityMap.entries m)) = EntityMap.cap m;
  wf_small : EntityMap.cap m < FABRIC_ENTITYMAP_TOMBSTONE;
  wf_count : EntityMap.count m = Z.of_nat (EntityMap_used m);
  wf_keys : ∀ e, e ∈ EntityMap.entries m → 0 ≤ EntityMapEntry.key e < 2 ^ 16;
  wf_reach : ∀ (i : nat) e,
    EntityMap.entries m !! i = Some e → EntityMapEntry.key e ≠ 0 →
    Fabric_EntityMap__pos_of_key host m (EntityMapEntry.key e)
    = Some (Z.of_nat i)
}.

(** Well-formedness of a given table, as a test. *)
Definition EntityMap_wf_check (host : byte_order) (m : EntityMap.t) : bool :=
  bool_decide (0 < EntityMap.cap m)
  && bool_decide (Z.of_nat (length (EntityMap.entries m)) = EntityMap.cap m)
  && bool_decide (EntityMap.cap m < FABRIC_ENTITYMAP_TOMBSTONE)
  && bool_decide (EntityMap.count m = Z.of_nat (EntityMap_used m))
  && forallb (λ e, bool_decide (0 ≤ EntityMapEntry.key e < 2 ^ 16))
       (EntityMap.entries m)
  && forallb
       (λ ie : nat * EntityMapEntry.t,
          bool_decide (EntityMapEntry.key (snd ie) = 0)
          || bool_decide
               (Fabric_EntityMap__pos_of_key host m (EntityMapEntry.key (snd ie))
                = Some (Z.of_nat (fst ie))))
       (imap pair (EntityMap.entries m)).

(** The cache of a class store between two calls: a well-formed table
    within the maximal load, whose capacity is 32 or what doubling on
    overflow has made of it. *)
Definition ClassCache_wf (host : byte_order) (m : EntityMap.t) : Prop :=
  EntityMap_wf host m
  ∧ 5 * EntityMap.count m ≤ 3 * EntityMap.cap m
  ∧ (EntityMap.cap m ≤ 32 ∨ 3 * EntityMap.cap m < 10 * EntityMap.count m).

(** ** Tables after use *)

(** The ids a set holds: the slots that are neither empty nor marked as
    removed, in the order of the table. *)
Definition IdSet_live (self : IdSet.t) : list Z :=
  filter (λ x, x ≠ 0 ∧ x ≠ FABRIC_IDSET_TOMBSTONE) (IdSet.ids self).

(** [count] is the number of ids held. *)
Definition IdSet_counted (self : IdSet.t) : Prop :=
  IdSet.count self = Z.of_nat (length (IdSet_live self)).

(** A key set and unset again, an id added and removed again. *)
Definition EntityMap_set_unset (host : byte_order) (m : option EntityMap.t)
    (key : Z) : option EntityMap.t :=
  m ← m;
  r ← Fabric_EntityMap_set host m key 1%nat;
  Fabric_EntityMap_unset host (fst r) key.

Definition IdSet_add_remove (host : byte_order) (s : option IdSet.t)
    (id : Z) : option IdSet.t :=
  s ← s;
  r ← Fabric_IdSet_add host s id;
  Fabric_IdSet_remove host (fst r) id.

(** A new map after the keys 1 to 59 have each been set and unset again,
    and a new set after the ids 1 to 59 have each been added and removed
    again, on a big-endian host. *)
Definition worn_out_map : option EntityMap.t :=
  foldl (EntityMap_set_unset BigEndian) (Some (fst Fabric_EntityMap_new))
    (seqZ 1 59).

Definition worn_out_set : option IdSet.t :=
  foldl (IdSet_add_remove BigEndian) (Some (fst Fabric_IdSet_new))
    (seqZ 1 59).

(** ** The header of a graph file *)

(** The thirteen numbers [Fabric_Graph_write_header] writes after the two
    header strings, in the order of the file. *)
Definition Graph_header_numbers (g : Graph.t) : list Z :=
  [Graph.fabric_version_number g;
   Graph.application_version_number g;
   Graph.file_change_counter g;
   ClassStore.offset (Graph.class_store g);
   LabelStore.offset (Graph.label_store g);
   VertexStore.offset (Graph.vertex_store g);
   EdgeStore.offset (Graph.edge_store g);
   PropertyStore.offset (Graph.property_store g);
   TextStore.offset (Graph.text_store g);
   TextStore.block_size (Graph.text_store g);
   IndexStore.offset (Graph.index_store g);
   IndexStore.page_size (Graph.index_store g);
   IndexStore.page_count (Graph.index_store g)].

(** The header fields hold values of their C types: two strings of 16
    bytes and thirteen [uint32_t]. *)
Definition Graph_header_in_range (g : Graph.t) : Prop :=
  length (Graph.fabric_header_string g) = 16%nat
  ∧ Forall is_byte (Graph.fabric_header_string g)
  ∧ length (Graph.application_header_string g) = 16%nat
  ∧ Forall is_byte (Graph.application_header_string g)
  ∧ Forall (λ v, 0 ≤ v < 2 ^ 32) (Graph_header_numbers g).

(** ** DynamicList.c: a growing array of pointers *)

Definition FABRIC_DYNAMIC_LIST_MIN_CAP : Z := 16.

(** [count] and [cap] are [int]; [list] is the array behind the pointer,
    as long as the last allocation made it. *)
Module DynamicList.
Record t := mk { count : Z; cap : Z; list : list ptr }.
End DynamicList.

(** The array comes from [Fabric_memalloc], which does not clear it:
    [junk] is what the fresh memory happens to hold. *)
Definition Fabric_DynamicList_init_with_capacity (junk : ptr) (capacity : Z)
  : DynamicList.t * error_t :=
  let cap :=
    if FABRIC_DYNAMIC_LIST_MIN_CAP <? capacity then capacity
    else FABRIC_DYNAMIC_LIST_MIN_CAP in
  (DynamicList.mk 0 cap (replicate (Z.to_nat cap) junk), FABRIC_OK).

Definition Fabric_DynamicList_init (junk : ptr) : DynamicList.t * error_t :=
  Fabric_DynamicList_init_with_capacity junk FABRIC_DYNAMIC_LIST_MIN_CAP.

(** [Fabric_DynamicList_new]: the status is stored through [status]. *)
Definition Fabric_DynamicList_new (junk : ptr) (status : ptr)
  : option (DynamicList.t * error_t) :=
  match status with
  | O => None
  | S _ => Some (Fabric_DynamicList_init junk)
  end.

(** [Fabric_memrealloc] keeps the slots both arrays have and leaves the
    new ones as the memory has them. *)
Definition Fabric_DynamicList_change_capacity (junk : ptr)
    (self : DynamicList.t) (new_capacity : Z) : DynamicList.t * error_t :=
  if new_capacity <? FABRIC_DYNAMIC_LIST_MIN_CAP then (self, FABRIC_OK)
  else
    let old := DynamicList.list self in
    (DynamicList.mk (DynamicList.count self) new_capacity
       (take (Z.to_nat new_capacity) old
        ++ replicate (Z.to_nat new_capacity - length old) junk),
     FABRIC_OK).

Definition Fabric_DynamicList_at (self : DynamicList.t) (pos : Z)
  : option ptr :=
  if (DynamicList.count self <=? pos) || (pos <? 0) then Some NULL
  else DynamicList.list self !! Z.to_nat pos.

(** [self->cap * 2] is an [int] product: beyond [INT_MAX] it is undefined.
    The store to [list[count]] outside the array has no result either. *)
Definition Fabric_DynamicList_append (junk : ptr) (self : DynamicList.t)
    (item : ptr) : option (DynamicList.t * error_t) :=
  resized ←
    (if DynamicList.cap self <=? DynamicList.count self
     then
       if 2 ^ 31 <=? DynamicList.cap self * 2 then None
       else Some (Fabric_DynamicList_change_capacity junk self
                    (DynamicList.cap self * 2))
     else Some (self, FABRIC_OK));
  let '(self, status) := resized in
  if negb (FABRIC_OK =? status) then Some (self, status)
  else
    _ ← DynamicList.list self !! Z.to_nat (DynamicList.count self);
    Some (DynamicList.mk (DynamicList.count self + 1) (DynamicList.cap self)
            (<[Z.to_nat (DynamicList.count self) := item]>
               (DynamicList.list self)),
          FABRIC_OK).

Definition Fabric_DynamicList_remove_last (self : DynamicList.t)
  : DynamicList.t * error_t :=
  if DynamicList.count self <=? 0 then (self, FABRIC_OK)
  else
    (DynamicList.mk (DynamicList.count self - 1) (DynamicList.cap self)
       (DynamicList.list self),
     FABRIC_OK).

Definition Fabric_DynamicList_count (self : DynamicList.t) : Z :=
  DynamicList.count self.

Definition Fabric_DynamicList_capacity (self : DynamicList.t) : Z :=
  DynamicList.cap self.

(** The items a list holds: the first [count] slots of the array. *)
Definition DynamicList_items (self : DynamicList.t) : list ptr :=
  take (Z.to_nat (DynamicList.count self)) (DynamicList.list self).

(** A list between two calls: the array is [cap] slots long, [count] of
    them are in use, and the capacity is not below the minimum. *)
Definition DynamicList_wf (self : DynamicList.t) : Prop :=
  0 ≤ DynamicList.count self ≤ DynamicList.cap self
  ∧ FABRIC_DYNAMIC_LIST_MIN_CAP ≤ DynamicList.cap self
  ∧ Z.of_nat (length (DynamicList.list self)) = DynamicList.cap self.

(** ** What a flush may change *)

(** [w'] is [w] but for the file and the changed set of the class store. *)
Definition flush_frame (w w' : World.t) : Prop :=
  World.heap w' = World.heap w
  ∧ World.junk w' = World.junk w
  ∧ ∃ (file : FILE.t) (changed : IdSet.t),
      let self := class_store_of w in
      World.graph w'
      = Graph.with_class_store (Graph.with_file (World.graph w) file)
          (ClassStore.mk (ClassStore.offset self) (ClassStore.num_classes self)
             (ClassStore.next_free_id self) (ClassStore.last_free_id self)
             (ClassStore.size self) (ClassStore.cache self) changed).

(** ** The free list of the class store *)

(** The free list as the store threads it through the records it has
    released: [next] is the id at the head, every id of [freed] is cached
    with a record of that id, the parent id of the record is the next id
    of the list, and behind the last record comes [last], the first id
    that has never been handed out. *)
Fixpoint free_chain (host : byte_order) (w : World.t) (next : Z)
    (freed : list Z) (last : Z) : Prop :=
  match freed with
  | [] => next = last
  | id :: rest =>
      next = id ∧ id ≠ last
      ∧ ∃ (c : nat) (v : Class.t),
          Fabric_EntityMap_has_key host (ClassStore.cache (class_store_of w)) id
          = Some true
          ∧ Fabric_EntityMap_get host (ClassStore.cache (class_store_of w)) id
            = Some (S c)
          ∧ World.heap w !! c = Some v
          ∧ Class.id v = id
          ∧ free_chain host w (Class.parent_id v) rest last
  end.

(** The free list of a state. *)
Definition free_list (host : byte_order) (w : World.t) (freed : list Z)
  : Prop :=
  free_chain host w (ClassStore.next_free_id (class_store_of w)) freed
    (ClassStore.last_free_id (class_store_of w)).


(** * Properties *)

(** ** Deletion: the guards in front of the hierarchy update *)

Lemma bind_deref {A : Type} (c : ptr) (cv : Class.t) (k : Class.t → M A)
    (w : World.t) :
  deref c w = Some (cv, w) → (deref c ≫= k) w = k cv w.
Proof. intros H. unfold mbind, M_bind. by rewrite H. Qed.

(** C4.  A live class with a first child is refused with
    FABRIC_CANT_DELETE_CLASS_HAS_CHILDREN, a live childless class with
    members with FABRIC_CANT_DELETE_CLASS_HAS_MEMBERS, and in both cases
    the whole state (heap, store counters, cache, changed set, file) is the
    one before the call. *)
Theorem delete_class_rejects (host : byte_order) (w : World.t) (c : ptr)
    (cv : Class.t) :
  deref c w = Some (cv, w) →
  Class.label_id cv ≠ 0 →
  (Class.first_child_id cv ≠ 0 →
   Fabric_ClassStore_delete_class host c w
   = Some (FABRIC_CANT_DELETE_CLASS_HAS_CHILDREN, w))
  ∧ (Class.first_child_id cv = 0 → 0 < Class.count cv →
     Fabric_ClassStore_delete_class host c w
     = Some (FABRIC_CANT_DELETE_CLASS_HAS_MEMBERS, w)).
Proof.
  intros Hc Hlabel.
  unfold Fabric_ClassStore_delete_class.
  rewrite (bind_deref _ _ _ _ Hc).
  unfold Fabric_Class_is_in_use, Fabric_Class_has_child_classes,
    Fabric_Class_has_members.
  destruct (Z.eqb_spec (Class.label_id cv) 0) as [|_]; [done|]. simpl.
  split.
  - intros Hchild.
    destruct (Z.eqb_spec (Class.first_child_id cv) 0) as [|_]; [done|].
    reflexivity.
  - intros Hchild Hcount. rewrite Hchild. simpl.
    destruct (Z.ltb_spec 0 (Class.count cv)); [reflexivity | lia].
Qed.

Lemma delete_class_rejects_witness :
  Fabric_ClassStore_delete_class LittleEndian 1%nat (family LittleEndian)
  = Some (FABRIC_CANT_DELETE_CLASS_HAS_CHILDREN, family LittleEndian)
  ∧ Fabric_ClassStore_delete_class LittleEndian 2%nat (populated LittleEndian)
    = Some (FABRIC_CANT_DELETE_CLASS_HAS_MEMBERS, populated LittleEndian).
Proof.
  split.
  - apply (proj1 (delete_class_rejects LittleEndian (family LittleEndian) 1%nat
                    (Class.mk 1 1 0 3 0 0 0 0 1) eq_refl ltac:(simpl; lia))).
    simpl; lia.
  - apply (proj2 (delete_class_rejects LittleEndian (populated LittleEndian)
                    2%nat (Class.mk 2 9 1 0 0 16 35 0 37) eq_refl
                    ltac:(simpl; lia))).
    + reflexivity.
    + simpl; lia.
Defined.

(** C10.  Deleting a record that is not in use (label id 0) reports
    FABRIC_OK and changes nothing. *)
Theorem delete_class_not_in_use (host : byte_order) (w : World.t) (c : ptr)
    (cv : Class.t) :
  deref c w = Some (cv, w) →
  Class.label_id cv = 0 →
  Fabric_ClassStore_delete_class host c w = Some (FABRIC_OK, w).
Proof.
  intros Hc Hlabel.
  unfold Fabric_ClassStore_delete_class.
  rewrite (bind_deref _ _ _ _ Hc).
  unfold Fabric_Class_is_in_use. rewrite Hlabel. reflexivity.
Qed.

Lemma delete_class_not_in_use_witness :
  Fabric_ClassStore_delete_class BigEndian 2%nat (released BigEndian)
  = Some (FABRIC_OK, released BigEndian).
Proof.
  apply (delete_class_not_in_use BigEndian (released BigEndian) 2%nat
           (Class.mk 2 0 3 0 0 0 0 0 1)); reflexivity.
Defined.

(** ** Deletion of a class that is not the first child *)

(** C1.  Deleting class 2 of [family], the second child behind class 3,
    succeeds and puts class 2 on the free list, but class 3 keeps class 2
    as its next sibling: the store writes the id of the deleted class
    where the id of its successor belongs, and the children of the root
    still read 3, 2. *)
Theorem delete_class_second_child_stays_linked (host : byte_order) :
  Fabric_ClassStore_delete_class host 2%nat (family host)
  = Some (FABRIC_OK, family_less_2 host)
  ∧ fst <$> child_ids host 1%nat (family host) = Some [3; 2]
  ∧ fst <$> child_ids host 1%nat (family_less_2 host) = Some [3; 2]
  ∧ fst <$> deref 3%nat (family_less_2 host)
    = Some (Class.mk 3 3 1 0 2 0 0 0 1)
  ∧ ClassStore.next_free_id (Graph.class_store (World.graph (family_less_2 host)))
    = 2.
Proof. destruct host; vm_compute; repeat split; reflexivity. Qed.

(** ** Creation under a name that is taken *)

(** C3.  Whatever the store holds and whatever the name,
    [Fabric_ClassStore_create_class] returns NULL with the status
    FABRIC_OK that [Fabric_IndexStore_get_class_index] stored, and leaves
    the state alone: the lookup by name returns before it asks the index,
    so FABRIC_DUPLICATE_CLASSNAME is never reported. *)
Theorem create_class_never_reports_duplicate (host : byte_order)
    (extends : ptr) (name : text_t) (is_abstract : Z) (status : nat)
    (w : World.t) :
  Fabric_ClassStore_create_class host extends name is_abstract (S status) w
  = Some ((NULL, FABRIC_OK), w).
Proof. reflexivity. Qed.

(** ** The byte codec *)


Lemma le_bytes_length (n : nat) (v : Z) : length (le_bytes n v) = n.
Proof. revert v; induction n as [|n IH]; intros v; simpl; [done|]. by rewrite IH. Qed.

Lemma le_bytes_is_byte (n : nat) (v : Z) : Forall is_byte (le_bytes n v).
Proof.
  revert v; induction n as [|n IH]; intros v; simpl; constructor; [|apply IH].
  unfold is_byte. apply Z.mod_pos_bound. lia.
Qed.

Lemma le_value_le_bytes (n : nat) (v : Z) :
  le_value (le_bytes n v) = v mod 256 ^ Z.of_nat n.
Proof.
  revert v; induction n as [|n IH]; intros v.
  - simpl. by rewrite Z.mod_1_r.
  - cbn [le_bytes le_value]. rewrite IH.
    rewrite Nat2Z.inj_succ, Z.pow_succ_r by lia.
    rewrite Z.rem_mul_r by lia. reflexivity.
Qed.

Lemma le_bytes_le_value (bs : list Z) :
  Forall is_byte bs → le_bytes (length bs) (le_value bs) = bs.
Proof.
  induction 1 as [|b bs Hb _ IH]; [done|].
  cbn [length le_bytes le_value]. unfold is_byte in Hb.
  f_equal.
  - rewrite (Z.mul_comm 256), Z.mod_add by lia. apply Z.mod_small. lia.
  - rewrite (Z.mul_comm 256), Z.div_add by lia.
    rewrite (Z.div_small b) by lia. exact IH.
Qed.

Lemma bswap_involutive (n : nat) (v : Z) :
  0 ≤ v < 256 ^ Z.of_nat n → bswap n (bswap n v) = v.
Proof.
  intros Hv. unfold bswap.
  pose proof (le_bytes_le_value (reverse (le_bytes n v))) as H.
  rewrite length_reverse, le_bytes_length in H.
  rewrite H by (apply Forall_reverse, le_bytes_is_byte).
  rewrite reverse_involutive, le_value_le_bytes. apply Z.mod_small. lia.
Qed.

Lemma object_value_object_bytes (host : byte_order) (n : nat) (v : Z) :
  object_value host (object_bytes host n v) = v mod 256 ^ Z.of_nat n.
Proof.
  destruct host; simpl; [|rewrite reverse_involutive]; apply le_value_le_bytes.
Qed.

Lemma object_bytes_is_byte (host : byte_order) (n : nat) (v : Z) :
  Forall is_byte (object_bytes host n v).
Proof.
  destruct host; simpl; [|apply Forall_reverse]; apply le_bytes_is_byte.
Qed.

Lemma object_bytes_length (host : byte_order) (n : nat) (v : Z) :
  length (object_bytes host n v) = n.
Proof.
  destruct host; simpl; [|rewrite length_reverse]; apply le_bytes_length.
Qed.

Lemma bswap_range (n : nat) (v : Z) : 0 ≤ bswap n v < 256 ^ Z.of_nat n.
Proof.
  unfold bswap.
  pose proof (le_bytes_le_value (reverse (le_bytes n v))
                (proj2 (Forall_reverse _ _) (le_bytes_is_byte n v))) as H.
  rewrite length_reverse, le_bytes_length in H.
  pose proof (le_value_le_bytes n (le_value (reverse (le_bytes n v)))) as H'.
  rewrite H in H'. rewrite H'. apply Z.mod_pos_bound. lia.
Qed.

(** What [htobe32] puts in memory are the big-endian bytes of the value,
    and [betoh32] reads them back, on either host. *)
Lemma betoh32_htobe32 (host : byte_order) (v : Z) :
  0 ≤ v < 2 ^ 32 →
  betoh32 host (object_value host (object_bytes host 4 (htobe32 host v))) = v.
Proof.
  intros Hv. rewrite object_value_object_bytes.
  change (256 ^ Z.of_nat 4) with (2 ^ 32).
  destruct host; unfold htobe32, betoh32, uint32.
  - pose proof (bswap_range 4 v) as Hr. change (256 ^ Z.of_nat 4) with (2 ^ 32) in Hr.
    rewrite (Z.mod_small (bswap 4 v)) by lia. apply bswap_involutive.
    change (256 ^ Z.of_nat 4) with (2 ^ 32). lia.
  - rewrite !Z.mod_mod by lia. apply Z.mod_small. lia.
Qed.

Lemma object_bytes_big_endian_32 (host : byte_order) (v : Z) :
  0 ≤ v < 2 ^ 32 →
  object_bytes host 4 (htobe32 host v) = reverse (le_bytes 4 v).
Proof.
  intros Hv. destruct host; unfold object_bytes, htobe32.
  - unfold bswap.
    pose proof (le_bytes_le_value (reverse (le_bytes 4 v))
                  (proj2 (Forall_reverse _ _) (le_bytes_is_byte 4 v))) as H.
    rewrite length_reverse, le_bytes_length in H. exact H.
  - unfold uint32. rewrite Z.mod_small by lia. reflexivity.
Qed.

(** ** The file surface: what is written at an offset is read back there *)

Lemma uint8_is_byte (b : Z) : is_byte b → uint8 b = b.
Proof. unfold is_byte, uint8. intros H. apply Z.mod_small. lia. Qed.

Lemma fmap_uint8_bytes (bs : list Z) : Forall is_byte bs → uint8 <$> bs = bs.
Proof.
  induction 1 as [|b bs Hb _ IH]; [done|].
  rewrite fmap_cons, IH, uint8_is_byte; done.
Qed.

Lemma fputc_position (c : Z) (f : FILE.t) :
  FILE.position (fputc c f) = FILE.position f + 1.
Proof. reflexivity. Qed.

Lemma fputc_length (c : Z) (f : FILE.t) :
  (length (FILE.contents f) ≤ length (FILE.contents (fputc c f)))%nat
  ∧ (Z.to_nat (FILE.position f) < length (FILE.contents (fputc c f)))%nat.
Proof.
  unfold fputc. cbn [FILE.contents].
  rewrite length_insert, length_app, length_replicate. lia.
Qed.

Lemma fputc_lookup_same (c : Z) (f : FILE.t) :
  FILE.contents (fputc c f) !! Z.to_nat (FILE.position f) = Some (uint8 c).
Proof.
  unfold fputc. cbn [FILE.contents].
  apply list_lookup_insert_eq.
  rewrite length_app, length_replicate. lia.
Qed.

Lemma fputc_lookup_other (c : Z) (f : FILE.t) (j : nat) :
  j ≠ Z.to_nat (FILE.position f) →
  (j < length (FILE.contents f))%nat →
  FILE.contents (fputc c f) !! j = FILE.contents f !! j.
Proof.
  intros Hne Hlt. unfold fputc. cbn [FILE.contents].
  rewrite list_lookup_insert_ne by done.
  by apply lookup_app_l.
Qed.

(** The bytes below the position survive a run of [fputc]. *)
Lemma fputc_run_below (bytes : list Z) (f : FILE.t) (j : nat) :
  0 ≤ FILE.position f →
  (j < Z.to_nat (FILE.position f))%nat →
  (j < length (FILE.contents f))%nat →
  FILE.contents (foldl (λ file byte, fputc byte file) f bytes) !! j
  = FILE.contents f !! j.
Proof.
  revert f. induction bytes as [|b bytes IH]; intros f Hpos Hj Hlen; [done|].
  cbn [foldl]. rewrite IH.
  - apply fputc_lookup_other; [lia | done].
  - rewrite fputc_position. lia.
  - rewrite fputc_position. lia.
  - pose proof (fputc_length b f). lia.
Qed.

Lemma fputc_run (bytes : list Z) (f : FILE.t) :
  0 ≤ FILE.position f →
  let f' := foldl (λ file byte, fputc byte file) f bytes in
  FILE.position f' = FILE.position f + Z.of_nat (length bytes)
  ∧ ∀ (i : nat) (b : Z), bytes !! i = Some b →
      FILE.contents f' !! (Z.to_nat (FILE.position f) + i)%nat = Some (uint8 b).
Proof.
  revert f. induction bytes as [|b bytes IH]; intros f Hpos; cbn zeta.
  - split; [simpl; lia | intros i c H; by destruct i].
  - cbn [foldl].
    destruct (IH (fputc b f)) as [IHpos IHget];
      [rewrite fputc_position; lia|].
    split.
    + rewrite IHpos, fputc_position. cbn [length]. lia.
    + intros [|i] c Hc.
      * injection Hc as <-. rewrite Nat.add_0_r.
        rewrite fputc_run_below.
        -- apply fputc_lookup_same.
        -- rewrite fputc_position. lia.
        -- rewrite fputc_position. lia.
        -- apply fputc_length.
      * specialize (IHget i c Hc). rewrite fputc_position in IHget.
        replace (Z.to_nat (FILE.position f) + S i)%nat
          with (Z.to_nat (FILE.position f + 1) + i)%nat by lia.
        exact IHget.
Qed.

Lemma Graph_read_loop_spec (bs : list Z) (f : FILE.t) :
  0 ≤ FILE.position f →
  (∀ (i : nat) (b : Z), bs !! i = Some b →
     FILE.contents f !! (Z.to_nat (FILE.position f) + i)%nat = Some b) →
  fst (Graph_read_loop (length bs) f) = uint8 <$> bs.
Proof.
  revert f. induction bs as [|b bs IH]; intros f Hpos Hget; [done|].
  cbn [length Graph_read_loop]. unfold fgetc.
  pose proof (Hget 0%nat b eq_refl) as H0. rewrite Nat.add_0_r in H0.
  rewrite H0.
  specialize (IH (FILE.mk (FILE.contents f) (FILE.position f + 1))).
  destruct (Graph_read_loop (length bs) _) as [rest f'].
  cbn [fst] in *. rewrite fmap_cons. f_equal.
  apply IH; cbn [FILE.position FILE.contents]; [lia|].
  intros i c Hc.
  replace (Z.to_nat (FILE.position f + 1) + i)%nat
    with (Z.to_nat (FILE.position f) + S i)%nat by lia.
  by apply Hget.
Qed.

Lemma read_bytes_write_bytes (self : Graph.t) (bytes : list Z) (offset : Z) :
  0 ≤ offset →
  Forall is_byte bytes →
  fst (Fabric_Graph_read_bytes
         (Fabric_Graph_write_bytes self bytes (Z.of_nat (length bytes)) offset)
         (Z.of_nat (length bytes)) offset)
  = bytes.
Proof.
  intros Hoff Hbytes.
  unfold Fabric_Graph_read_bytes, Fabric_Graph_write_bytes.
  rewrite Nat2Z.id, firstn_all.
  destruct (Z.eqb_spec offset (-1)) as [|_]; [lia|]. cbn [negb].
  unfold fseek. destruct (Z.ltb_spec offset 0) as [|_]; [lia|].
  cbn [Graph.graph_file Graph.with_file FILE.contents].
  set (f0 := FILE.mk (FILE.contents (Graph.graph_file self)) offset).
  destruct (fputc_run bytes f0 Hoff) as [_ Hget].
  set (f1 := FILE.mk _ offset).
  pose proof (Graph_read_loop_spec (uint8 <$> bytes) f1 Hoff) as Hread.
  rewrite length_fmap in Hread.
  destruct (Graph_read_loop (length bytes) f1) as [bs f2].
  cbn [fst] in *. rewrite Hread.
  - by rewrite !(fmap_uint8_bytes bytes Hbytes).
  - intros i b Hb. subst f1. cbn [FILE.contents FILE.position].
    rewrite list_lookup_fmap in Hb.
    destruct (bytes !! i) as [c|] eqn:Hc; [|done].
    injection Hb as <-. by apply Hget.
Qed.

Lemma read_uint32_write_uint32 (host : byte_order) (self : Graph.t)
    (value offset : Z) :
  0 ≤ offset → 0 ≤ value < 2 ^ 32 →
  fst (Fabric_Graph_read_uint32 host
         (Fabric_Graph_write_uint32 host self value offset) offset)
  = value.
Proof.
  intros Hoff Hv. unfold Fabric_Graph_read_uint32, Fabric_Graph_write_uint32.
  pose proof (read_bytes_write_bytes self
                (object_bytes host 4 (htobe32 host value)) offset Hoff
                (object_bytes_is_byte _ _ _)) as H.
  rewrite object_bytes_length in H. change (Z.of_nat 4) with 4 in H.
  destruct (Fabric_Graph_read_bytes _ 4 offset) as [bytes g].
  cbn [fst] in *. subst bytes. by apply betoh32_htobe32.
Qed.

Lemma read_uint16_write_uint16_big_endian (self : Graph.t) (value offset : Z) :
  0 ≤ offset → 0 ≤ value < 2 ^ 16 →
  fst (Fabric_Graph_read_uint16 BigEndian
         (Fabric_Graph_write_uint16 BigEndian self value offset) offset)
  = value.
Proof.
  intros Hoff Hv. unfold Fabric_Graph_read_uint16, Fabric_Graph_write_uint16.
  pose proof (read_bytes_write_bytes self
                (object_bytes BigEndian 2 (uint16 (htobe32 BigEndian value)))
                offset Hoff (object_bytes_is_byte _ _ _)) as H.
  rewrite object_bytes_length in H. change (Z.of_nat 2) with 2 in H.
  destruct (Fabric_Graph_read_bytes _ 2 offset) as [bytes g].
  cbn [fst] in *. subst bytes.
  rewrite object_value_object_bytes.
  unfold betoh16, htobe32, uint16, uint32.
  change (256 ^ Z.of_nat 2) with (2 ^ 16).
  rewrite (Z.mod_small value (2 ^ 32)) by lia.
  rewrite !Z.mod_mod by lia. apply Z.mod_small. lia.
Qed.

Lemma htobe32_little_endian_low_half (value : Z) :
  0 ≤ value < 2 ^ 16 → uint16 (htobe32 LittleEndian value) = 0.
Proof.
  intros Hv. unfold htobe32, bswap, uint16. cbn [le_bytes].
  change (reverse [?a; ?b; ?c; ?d]) with [d; c; b; a].
  cbn [le_value].
  change (2 ^ 16) with 65536 in *.
  Z.div_mod_to_equations. lia.
Qed.

(** C6.  On a little-endian host [Fabric_Graph_write_uint16] narrows
    [htobe32(value)] to 16 bits, which keeps the half that is zero: two
    zero bytes reach the file whatever the value, and
    [Fabric_Graph_read_uint16] at the same offset returns 0, not the value
    written.  (The 32-bit pair reads back what was written on either host,
    and so does the 16-bit pair on a big-endian host: the three lemmas
    above.) *)
Theorem read_uint16_write_uint16_little_endian (self : Graph.t)
    (value offset : Z) :
  0 ≤ offset → 0 ≤ value < 2 ^ 16 →
  fst (Fabric_Graph_read_uint16 LittleEndian
         (Fabric_Graph_write_uint16 LittleEndian self value offset) offset)
  = 0.
Proof.
  intros Hoff Hv. unfold Fabric_Graph_read_uint16, Fabric_Graph_write_uint16.
  rewrite htobe32_little_endian_low_half by done.
  pose proof (read_bytes_write_bytes self (object_bytes LittleEndian 2 0)
                offset Hoff (object_bytes_is_byte _ _ _)) as H.
  rewrite object_bytes_length in H. change (Z.of_nat 2) with 2 in H.
  destruct (Fabric_Graph_read_bytes _ 2 offset) as [bytes g].
  cbn [fst] in *. subst bytes. reflexivity.
Qed.


Lemma read_uint16_write_uint16_little_endian_witness :
  fst (Fabric_Graph_read_uint16 LittleEndian
         (Fabric_Graph_write_uint16 LittleEndian blank_graph 1 0) 0)
  = 0.
Proof.
  apply (read_uint16_write_uint16_little_endian blank_graph 1 0); lia.
Defined.

(** ** The stored form of a class *)

Lemma slice_app_ge (a rest : list Z) (off n : nat) :
  (length a ≤ off)%nat → slice (a ++ rest) off n = slice rest (off - length a) n.
Proof. intros H. unfold slice. by rewrite drop_app_ge. Qed.

Lemma slice_app_exact (a rest : list Z) (n : nat) :
  length a = n → slice (a ++ rest) 0 n = a.
Proof. intros <-. unfold slice. rewrite drop_0. apply take_app_length. Qed.

Lemma slice_exact (a : list Z) (n : nat) : length a = n → slice a 0 n = a.
Proof. intros <-. unfold slice. rewrite drop_0. apply firstn_all. Qed.

(** Where [Fabric_Class_load_bytes] puts each field. *)
Lemma load_bytes_layout (host : byte_order) (r : Class.t) :
  let data := Fabric_Class_load_bytes host r in
  slice data 0 4 = object_bytes host 4 (Class.label_id r)
  ∧ slice data 4 2 = object_bytes host 2 (Class.parent_id r)
  ∧ slice data 6 2 = object_bytes host 2 (Class.first_child_id r)
  ∧ slice data 8 2 = object_bytes host 2 (Class.next_child_id r)
  ∧ slice data 10 2 = object_bytes host 2 (Class.first_index_id r)
  ∧ slice data 12 4 = object_bytes host 4 (Class.count r)
  ∧ nth 16 data 0 = uint8 (Class.is_abstract r)
  ∧ slice data 17 4 = object_bytes host 4 (Class.incrementer r).
Proof.
  cbn zeta. unfold Fabric_Class_load_bytes.
  repeat split;
    repeat (rewrite slice_app_ge by (rewrite object_bytes_length; lia);
            rewrite object_bytes_length; cbn [Nat.sub]);
    try (apply slice_app_exact, object_bytes_length).
  - repeat (rewrite app_nth2 by (rewrite object_bytes_length; lia);
            rewrite object_bytes_length; cbn [Nat.sub]).
    reflexivity.
  - rewrite slice_app_ge by (cbn [length]; lia). cbn [length Nat.sub].
    apply slice_exact, object_bytes_length.
Qed.

Lemma betoh16_object_big_endian (v : Z) :
  0 ≤ v < 2 ^ 16 →
  betoh16 BigEndian (object_value BigEndian (object_bytes BigEndian 2 v)) = v.
Proof.
  intros Hv. rewrite object_value_object_bytes. unfold betoh16, uint16.
  change (256 ^ Z.of_nat 2) with (2 ^ 16).
  rewrite Z.mod_mod by lia. apply Z.mod_small. lia.
Qed.

Lemma betoh32_object_big_endian (v : Z) :
  0 ≤ v < 2 ^ 32 →
  betoh32 BigEndian (object_value BigEndian (object_bytes BigEndian 4 v)) = v.
Proof.
  intros Hv. rewrite object_value_object_bytes. unfold betoh32, uint32.
  change (256 ^ Z.of_nat 4) with (2 ^ 32).
  rewrite Z.mod_mod by lia. apply Z.mod_small. lia.
Qed.

(** X18: on a big-endian host the stored form decodes to the record it
    was made from. *)
Lemma class_round_trip_big_endian (r : Class.t) :
  Class_in_range r →
  Fabric_Class_init BigEndian r (Fabric_Class_load_bytes BigEndian r)
  = (r, FABRIC_OK).
Proof.
  intros (Hid & Hlabel & Hparent & Hfirst & Hnext & Hindex & Hcount & Habs & Hinc).
  unfold Fabric_Class_init.
  destruct (Z.ltb_spec (Class.id r) 1); [lia|].
  destruct (load_bytes_layout BigEndian r)
    as (-> & -> & -> & -> & -> & -> & -> & ->).
  rewrite !betoh16_object_big_endian, !betoh32_object_big_endian by done.
  unfold uint8. rewrite Z.mod_small by lia.
  by destruct r.
Qed.

(** On a little-endian host every field wider than a byte comes back
    with its bytes swapped. *)
Lemma class_round_trip_little_endian (r : Class.t) :
  1 ≤ Class.id r →
  Fabric_Class_init LittleEndian r (Fabric_Class_load_bytes LittleEndian r)
  = (Class.mk (Class.id r)
       (bswap 4 (Class.label_id r mod 2 ^ 32))
       (bswap 2 (Class.parent_id r mod 2 ^ 16))
       (bswap 2 (Class.first_child_id r mod 2 ^ 16))
       (bswap 2 (Class.next_child_id r mod 2 ^ 16))
       (bswap 2 (Class.first_index_id r mod 2 ^ 16))
       (bswap 4 (Class.count r mod 2 ^ 32))
       (uint8 (Class.is_abstract r))
       (bswap 4 (Class.incrementer r mod 2 ^ 32)),
     FABRIC_OK).
Proof.
  intros Hid. unfold Fabric_Class_init.
  destruct (Z.ltb_spec (Class.id r) 1); [lia|].
  destruct (load_bytes_layout LittleEndian r)
    as (-> & -> & -> & -> & -> & -> & -> & ->).
  rewrite !object_value_object_bytes. reflexivity.
Qed.

(** The stored form of scenario S2 decodes to the class of S2 on either
    host, and on a big-endian host the class encodes to it. *)
Example class_init_S2 (host : byte_order) :
  Fabric_Class_init host (Class.mk 2 0 0 0 0 0 0 0 0) S2_bytes
  = (S2_class, FABRIC_OK).
Proof. destruct host; reflexivity. Qed.

Example load_bytes_S2_big_endian :
  Fabric_Class_load_bytes BigEndian S2_class = S2_bytes.
Proof. reflexivity. Qed.

(** C5.  On a little-endian host [Fabric_Class_load_bytes] stores every
    field in host order: the class of S2 starts 09 00 00 00 | 01 00 |
    04 00, not 00 00 00 09 | 00 01 | 00 04, and decoding these bytes does
    not give the class back (label id 0x09000000 for 9, parent 0x0100 for
    1, ...). *)
Theorem class_codec_S2_little_endian :
  Fabric_Class_load_bytes LittleEndian S2_class
  = [0x09; 0x00; 0x00; 0x00; 0x01; 0x00; 0x04; 0x00; 0x00; 0x00; 0x10; 0x00;
     0x23; 0x00; 0x00; 0x00; 0x00; 0x25; 0x00; 0x00; 0x00]
  ∧ Fabric_Class_init LittleEndian S2_class
      (Fabric_Class_load_bytes LittleEndian S2_class)
    = (Class.mk 2 0x09000000 0x0100 0x0400 0 0x1000 0x23000000 0 0x25000000,
       FABRIC_OK).
Proof. split; reflexivity. Qed.

(** ** Loading a graph *)

Lemma read_bytes_header (self : Graph.t) (num_bytes offset : Z) :
  Graph.fabric_header_string (snd (Fabric_Graph_read_bytes self num_bytes offset))
  = Graph.fabric_header_string self.
Proof.
  unfold Fabric_Graph_read_bytes.
  by destruct (Graph_read_loop _ _).
Qed.

Lemma read_uint16_header (host : byte_order) (self : Graph.t) (offset : Z) :
  Graph.fabric_header_string (snd (Fabric_Graph_read_uint16 host self offset))
  = Graph.fabric_header_string self.
Proof.
  unfold Fabric_Graph_read_uint16.
  pose proof (read_bytes_header self 2 offset) as H.
  by destruct (Fabric_Graph_read_bytes self 2 offset).
Qed.

Lemma ClassStore_init_header (host : byte_order) (graph : Graph.t) :
  Graph.fabric_header_string (fst (Fabric_ClassStore_init host graph))
  = Graph.fabric_header_string graph.
Proof.
  unfold Fabric_ClassStore_init.
  pose proof (read_uint16_header host graph
                (ClassStore.offset (Graph.class_store graph))) as H1.
  destruct (Fabric_Graph_read_uint16 host graph _) as [n1 g1].
  pose proof (read_uint16_header host g1
                (uint32 (ClassStore.offset (Graph.class_store graph) + 2)))
    as H2.
  destruct (Fabric_Graph_read_uint16 host g1 _) as [n2 g2].
  pose proof (read_uint16_header host g2
                (uint32 (ClassStore.offset (Graph.class_store graph) + 4)))
    as H3.
  destruct (Fabric_Graph_read_uint16 host g2 _) as [n3 g3].
  cbn in *. congruence.
Qed.

Lemma ClassStore_init_status (host : byte_order) (graph : Graph.t) :
  snd (Fabric_ClassStore_init host graph) = FABRIC_OK.
Proof.
  unfold Fabric_ClassStore_init.
  repeat
    match goal with
    | |- context [let '(_, _) := Fabric_Graph_read_uint16 ?h ?g ?o in _] =>
        destruct (Fabric_Graph_read_uint16 h g o) as [? ?]
    end.
  reflexivity.
Qed.

(** C9.  [Fabric_Graph_init] reports nothing, for any file at all: it
    reads the header, keeps as signature whatever the first 16 bytes of
    the file were without comparing them with [FABRIC_HEADER_STRING],
    initialises the class store of the graph with success, and then does
    not come back from [Fabric_LabelStore_init].  So neither it nor
    [Fabric_load_graph] has a result, a rejection least of all. *)
Theorem graph_init_rejects_no_file (host : byte_order) (self : Graph.t)
    (graph_file : FILE.t) :
  Graph.fabric_header_string (Graph_init_header host self graph_file)
  = fst (Fabric_Graph_read_bytes (Graph.with_file self graph_file) 16 0)
  ∧ snd (Fabric_ClassStore_init host
           (Graph_init_header host self graph_file)) = FABRIC_OK
  ∧ Fabric_Graph_init host self graph_file = None
  ∧ Fabric_load_graph host graph_file self = None.
Proof.
  assert (Fabric_Graph_init host self graph_file = None) as Hinit.
  { unfold Fabric_Graph_init.
    by destruct (Fabric_ClassStore_init host _) as [g1 ?]. }
  split; [|split; [apply ClassStore_init_status|split; [done|]]].
  - unfold Graph_init_header.
    destruct (Fabric_Graph_read_bytes (Graph.with_file self graph_file) 16 0)
      as [signature g0].
    repeat
      match goal with
      | |- context [let '(_, _) := Fabric_Graph_read_bytes ?g ?n ?o in _] =>
          destruct (Fabric_Graph_read_bytes g n o) as [? ?]
      | |- context [let '(_, _) := Fabric_Graph_read_uint32 ?h ?g ?o in _] =>
          destruct (Fabric_Graph_read_uint32 h g o) as [? ?]
      end.
    reflexivity.
  - unfold Fabric_load_graph. by rewrite Hinit.
Qed.

(** A file of 84 zero bytes is treated like any other: its 16 zero bytes
    become the signature of the graph and the class store is set up with
    its two tables, before the label store stops the load. *)
Example load_graph_unsigned_file (host : byte_order) :
  let g :=
    fst (Fabric_ClassStore_init host
           (Graph_init_header host blank_graph unsigned_file)) in
  Graph.fabric_header_string g = replicate 16 0
  ∧ Graph.fabric_header_string g ≠ FABRIC_HEADER_STRING
  ∧ EntityMap.cap (ClassStore.cache (Graph.class_store g)) = 32
  ∧ IdSet.cap (ClassStore.changed (Graph.class_store g)) = 32
  ∧ Fabric_load_graph host unsigned_file blank_graph = None.
Proof. destruct host; vm_compute; repeat split; discriminate. Qed.

(** The header of a created file, read again by the first half of
    [Fabric_Graph_init], has the signature and the fields
    [Fabric_create_graph] wrote (scenario S1). *)
Example read_created_header (host : byte_order) :
  let g :=
    Graph_init_header host blank_graph
      (Graph.graph_file (created_graph host)) in
  Graph.fabric_header_string g = FABRIC_HEADER_STRING
  ∧ Graph.fabric_version_number g = 1
  ∧ Graph.application_version_number g = 0
  ∧ Graph.file_change_counter g = 1
  ∧ ClassStore.offset (Graph.class_store g) = 84
  ∧ LabelStore.offset (Graph.label_store g) = 84 + 65536
  ∧ IndexStore.offset (Graph.index_store g) = 84 + 6 * 65536
  ∧ TextStore.block_size (Graph.text_store g) = 32
  ∧ IndexStore.page_size (Graph.index_store g) = 65536
  ∧ IndexStore.page_count (Graph.index_store g) = 0.
Proof. destruct host; vm_compute; repeat split; reflexivity. Qed.

(** ** Flushing the class store *)

(** C7.  After class 2 of [family] has been deleted the store holds
    next_free_id = 2 and last_free_id = 4.  The flush succeeds, and a
    [Fabric_ClassStore_init] on the flushed file reads last_free_id = 2 on
    a big-endian host: the third field of the header received
    next_free_id.  (On a little-endian host all three counters read 0,
    because of [Fabric_Graph_write_uint16].) *)
Theorem flush_header_loses_last_free_id (host : byte_order) :
  ∃ w : World.t,
    Fabric_ClassStore_flush host (family_less_2 host) = Some (FABRIC_OK, w)
    ∧ ClassStore.last_free_id
        (Graph.class_store (World.graph (family_less_2 host))) = 4
    ∧ (let reloaded :=
         Graph.class_store (fst (Fabric_ClassStore_init host (World.graph w))) in
       (ClassStore.num_classes reloaded, ClassStore.next_free_id reloaded,
        ClassStore.last_free_id reloaded)
       = match host with
         | BigEndian => (2, 2, 2)
         | LittleEndian => (0, 0, 0)
         end).
Proof.
  destruct host; eexists;
    (split; [vm_compute; reflexivity | split; vm_compute; reflexivity]).
Qed.


(** ** The monad of the store operations *)

Lemma bind_inv {A B : Type} (m : M A) (f : A → M B) (w : World.t)
    (r : B * World.t) :
  (m ≫= f) w = Some r → ∃ a w1, m w = Some (a, w1) ∧ f a w1 = Some r.
Proof.
  unfold mbind, M_bind. destruct (m w) as [[a w1]|]; [|done].
  intros H. by exists a, w1.
Qed.

Lemma lift_option_inv {A : Type} (o : option A) (w : World.t) (a : A)
    (w1 : World.t) :
  lift_option o w = Some (a, w1) → o = Some a ∧ w1 = w.
Proof. unfold lift_option. destruct o; [|done]. by intros [= -> ->]. Qed.

Lemma deref_inv (c : ptr) (w : World.t) (v : Class.t) (w1 : World.t) :
  deref c w = Some (v, w1) → w1 = w.
Proof.
  unfold deref. destruct c; [done|].
  destruct (World.heap w !! c); [|done]. by intros [= _ ->].
Qed.

(** ** The dirty set under removal *)

Lemma IdSet_has_loop_tombstoned (fuel : nat) (s : IdSet.t) (p : nat)
    (x id pos : Z) (n : Z) :
  IdSet.ids s !! p = Some x → x ≠ 0 → id ≠ x →
  id ≠ FABRIC_IDSET_TOMBSTONE →
  IdSet_has_loop fuel
    (IdSet.mk n (IdSet.cap s) (<[p := FABRIC_IDSET_TOMBSTONE]> (IdSet.ids s)))
    id pos
  = IdSet_has_loop fuel s id pos.
Proof.
  intros Hp Hx Hid Htomb. revert pos.
  induction fuel as [|fuel IH]; intros pos; [done|].
  cbn [IdSet_has_loop IdSet.ids IdSet.cap].
  destruct (decide (Z.to_nat pos = p)) as [->|Hne].
  - rewrite Hp, list_lookup_insert_eq by apply (lookup_lt_Some _ _ _ Hp).
    cbn [mbind option_bind].
    change (FABRIC_IDSET_TOMBSTONE =? 0) with false. cbn match.
    destruct (Z.eqb_spec FABRIC_IDSET_TOMBSTONE id); [congruence|].
    destruct (Z.eqb_spec x 0); [done|].
    destruct (Z.eqb_spec x id); [congruence|].
    apply IH.
  - rewrite list_lookup_insert_ne by done.
    destruct (IdSet.ids s !! Z.to_nat pos) as [slot|]; [|done].
    cbn [mbind option_bind].
    destruct (slot =? 0); [done|]. destruct (slot =? id); [done|].
    apply IH.
Qed.

Lemma IdSet_remove_loop_inv (fuel : nat) (s s' : IdSet.t) (x pos : Z) :
  IdSet_remove_loop fuel s x pos = Some s' →
  s' = s
  ∨ (IdSet_has_loop fuel s x pos = Some true
     ∧ x ≠ 0
     ∧ ∃ p : nat, IdSet.ids s !! p = Some x
         ∧ s' = IdSet.mk (IdSet.count s - 1) (IdSet.cap s)
                  (<[p := FABRIC_IDSET_TOMBSTONE]> (IdSet.ids s))).
Proof.
  revert pos. induction fuel as [|fuel IH]; intros pos; [done|].
  cbn [IdSet_remove_loop IdSet_has_loop].
  destruct (IdSet.ids s !! Z.to_nat pos) as [slot|] eqn:Hslot; [|done].
  cbn [mbind option_bind].
  destruct (Z.eqb_spec slot 0) as [|Hnz].
  - intros [= <-]. by left.
  - destruct (Z.eqb_spec slot x) as [->|_].
    + intros [= <-]. right. repeat split; [done|]. by exists (Z.to_nat pos).
    + apply IH.
Qed.

(** Removing [x] leaves the answer for every other id as it was, and can
    only turn the answer for [x] from yes to no. *)
Lemma IdSet_has_after_remove (host : byte_order) (s s' : IdSet.t) (x id : Z) :
  Fabric_IdSet_remove host s x = Some s' →
  id ≠ FABRIC_IDSET_TOMBSTONE →
  IdSet.cap s' = IdSet.cap s
  ∧ (Fabric_IdSet_has host s' id = Some true →
     Fabric_IdSet_has host s id = Some true)
  ∧ (id ≠ x → Fabric_IdSet_has host s' id = Fabric_IdSet_has host s id).
Proof.
  unfold Fabric_IdSet_remove, Fabric_IdSet_has. intros Hrem Htomb.
  destruct (IdSet.cap s <=? 0) eqn:Hcap; [done|].
  apply IdSet_remove_loop_inv in Hrem
    as [->|(Hhas & Hx & p & Hp & ->)].
  - by rewrite Hcap.
  - cbn [IdSet.cap]. rewrite Hcap. split; [done|].
    destruct (decide (id = x)) as [->|Hne].
    + split; [by intros _ | done].
    + rewrite (IdSet_has_loop_tombstoned _ _ p x) by done. by split.
Qed.

Lemma shrinks_below_refl (host : byte_order) (max_id : Z) (s : IdSet.t) :
  shrinks_below host max_id s s.
Proof. by intros id _. Qed.

Lemma shrinks_below_trans (host : byte_order) (max_id : Z)
    (s1 s2 s3 : IdSet.t) :
  shrinks_below host max_id s1 s2 → shrinks_below host max_id s2 s3 →
  shrinks_below host max_id s1 s3.
Proof.
  intros H12 H23 id Hid.
  destruct (H12 id Hid) as [Ha Hb], (H23 id Hid) as [Hc Hd].
  split; [auto | intros Hmax; by rewrite Hd, Hb].
Qed.

Lemma shrinks_below_remove (host : byte_order) (max_id : Z) (s s' : IdSet.t)
    (x : Z) :
  Fabric_IdSet_remove host s x = Some s' → x ≤ max_id →
  shrinks_below host max_id s s'.
Proof.
  intros Hrem Hx id Hid.
  destruct (IdSet_has_after_remove host s s' x id Hrem Hid) as (_ & Ha & Hb).
  split; [done | intros Hmax; apply Hb; lia].
Qed.

(** The loop of the flush only ever removes ids it has written, and it
    writes no id beyond [max_id]. *)
Lemma ClassStore_flush_loop_dirty (host : byte_order) (changed_ids : list Z)
    (max_id : Z) (w w' : World.t) (r : option error_t) :
  ClassStore_flush_loop host changed_ids max_id w = Some (r, w') →
  shrinks_below host max_id (ClassStore.changed (class_store_of w))
    (ClassStore.changed (class_store_of w')).
Proof.
  revert w. induction changed_ids as [|changed_id rest IH]; intros w.
  - intros [= _ <-]. apply shrinks_below_refl.
  - cbn [ClassStore_flush_loop]. intros H.
    apply bind_inv in H as (self & w1 & [= <- <-] & H).
    apply bind_inv in H as (changed_class & w1 & Hget & H).
    apply lift_option_inv in Hget as [_ ->].
    destruct (Z.ltb_spec max_id changed_id) as [|Hle].
    { injection H as _ <-. apply shrinks_below_refl. }
    apply bind_inv in H as (v & w1 & Hv & H).
    apply deref_inv in Hv as ->.
    apply bind_inv in H as (graph & w1 & [= <- <-] & H).
    apply bind_inv in H as ([] & w1 & [= <-] & H).
    apply bind_inv in H as (self' & w2 & [= <- <-] & H).
    apply bind_inv in H as (changed & w2 & Hrem & H).
    apply lift_option_inv in Hrem as [Hrem ->].
    apply bind_inv in H as ([] & w2 & [= <-] & H).
    apply IH in H.
    eapply shrinks_below_trans; [|exact H].
    eapply shrinks_below_remove; [exact Hrem | exact Hle].
Qed.





(** ** The probe of the entity map *)

Lemma probe_next (cap pos : Z) (d : nat) :
  0 < cap →
  ((pos + 1) mod cap + Z.of_nat d) mod cap = (pos + Z.of_nat (S d)) mod cap.
Proof.
  intros Hcap. rewrite Zplus_mod_idemp_l. f_equal. lia.
Qed.

Lemma probe_start (cap pos : Z) :
  0 ≤ pos < cap → (pos + Z.of_nat 0) mod cap = pos.
Proof. intros H. rewrite Z.add_0_r. by apply Z.mod_small. Qed.

Lemma passes_next (m : EntityMap.t) (key pos : Z) (d : nat) :
  0 < EntityMap.cap m →
  passes m key pos (S d) → passes m key ((pos + 1) mod EntityMap.cap m) d.
Proof.
  intros Hcap H d' Hd'. destruct (H (S d')) as (e & He & Hk); [lia|].
  exists e. split; [|done]. unfold probed in *. by rewrite probe_next.
Qed.

Lemma pos_of_key_loop_hit (m : EntityMap.t) (key : Z) (d : nat) :
  ∀ (fuel : nat) (pos : Z) (e : EntityMapEntry.t),
    (d < fuel)%nat → 0 ≤ pos < EntityMap.cap m →
    passes m key pos d →
    probed m pos d = Some e →
    EntityMapEntry.key e = 0 ∨ EntityMapEntry.key e = key →
    EntityMap_pos_of_key_loop fuel m key pos
    = Some (if EntityMapEntry.key e =? 0 then FABRIC_ENTITYMAP_TOMBSTONE
            else (pos + Z.of_nat d) mod EntityMap.cap m).
Proof.
  induction d as [|d IH]; intros fuel pos e Hfuel Hpos Hpass He Hkey;
    (destruct fuel as [|fuel]; [lia|]); cbn [EntityMap_pos_of_key_loop].
  - unfold probed in He. rewrite probe_start in He by done. rewrite He.
    cbn [mbind option_bind]. rewrite probe_start by done.
    destruct (Z.eqb_spec (EntityMapEntry.key e) 0); [done|].
    destruct Hkey as [| ->]; [done|]. by rewrite Z.eqb_refl.
  - destruct (Hpass 0%nat) as (e0 & He0 & Hz & Hk); [lia|].
    unfold probed in He0. rewrite probe_start in He0 by done. rewrite He0.
    cbn [mbind option_bind].
    destruct (Z.eqb_spec (EntityMapEntry.key e0) 0); [done|].
    destruct (Z.eqb_spec (EntityMapEntry.key e0) key); [done|].
    rewrite (IH fuel _ e).
    + by rewrite probe_next by lia.
    + lia.
    + apply Z.mod_pos_bound. lia.
    + apply passes_next; [lia | done].
    + unfold probed in *. by rewrite probe_next by lia.
    + done.
Qed.

Lemma pos_of_key_loop_inv (m : EntityMap.t) (key : Z) (fuel : nat) :
  ∀ (pos r : Z),
    0 ≤ pos < EntityMap.cap m →
    EntityMap_pos_of_key_loop fuel m key pos = Some r →
    ∃ (d : nat) (e : EntityMapEntry.t),
      (d < fuel)%nat ∧ passes m key pos d ∧ probed m pos d = Some e
      ∧ ((EntityMapEntry.key e = 0 ∧ r = FABRIC_ENTITYMAP_TOMBSTONE)
         ∨ (EntityMapEntry.key e ≠ 0 ∧ EntityMapEntry.key e = key
            ∧ r = (pos + Z.of_nat d) mod EntityMap.cap m)).
Proof.
  induction fuel as [|fuel IH]; intros pos r Hpos; [done|].
  cbn [EntityMap_pos_of_key_loop].
  destruct (EntityMap.entries m !! Z.to_nat pos) as [e0|] eqn:He0; [|done].
  cbn [mbind option_bind].
  assert (Hp0 : probed m pos 0 = Some e0)
    by (unfold probed; by rewrite probe_start).
  destruct (Z.eqb_spec (EntityMapEntry.key e0) 0) as [Hz|Hz].
  { intros [= <-]. exists 0%nat, e0. repeat split; [lia | | done | by left].
    intros d' Hd'. lia. }
  destruct (Z.eqb_spec (EntityMapEntry.key e0) key) as [Hk|Hk].
  { intros [= <-]. exists 0%nat, e0. repeat split; [lia | | done |].
    - intros d' Hd'. lia.
    - right. by rewrite probe_start. }
  intros Hloop. apply IH in Hloop as (d & e & Hd & Hpass & He & Hr);
    [|apply Z.mod_pos_bound; lia].
  exists (S d), e. repeat split; [lia | | |].
  - intros [|d'] Hd'; [by exists e0|].
    destruct (Hpass d') as (e' & He' & Hk'); [lia|].
    exists e'. split; [|done]. unfold probed in *. by rewrite <- probe_next by lia.
  - unfold probed in *. by rewrite <- probe_next by lia.
  - by rewrite <- probe_next by lia.
Qed.

Lemma probed_in_bounds (m : EntityMap.t) (pos : Z) (d : nat) :
  0 < EntityMap.cap m →
  Z.of_nat (length (EntityMap.entries m)) = EntityMap.cap m →
  is_Some (probed m pos d).
Proof.
  intros Hcap Hlen. unfold probed. apply lookup_lt_is_Some.
  pose proof (Z.mod_pos_bound (pos + Z.of_nat d) (EntityMap.cap m) Hcap). lia.
Qed.

(** Every slot lies on the probe from any position, less than [cap] steps
    away. *)
Lemma probed_reaches (m : EntityMap.t) (pos : Z) (i : nat) :
  0 < EntityMap.cap m → Z.of_nat i < EntityMap.cap m →
  ∃ d : nat, Z.of_nat d < EntityMap.cap m
    ∧ (pos + Z.of_nat d) mod EntityMap.cap m = Z.of_nat i.
Proof.
  intros Hcap Hi.
  exists (Z.to_nat ((Z.of_nat i - pos) mod EntityMap.cap m)).
  pose proof (Z.mod_pos_bound (Z.of_nat i - pos) (EntityMap.cap m) Hcap).
  rewrite Z2Nat.id by lia. split; [lia|].
  rewrite Zplus_mod_idemp_r.
  replace (pos + (Z.of_nat i - pos)) with (Z.of_nat i) by lia.
  apply Z.mod_small. lia.
Qed.

Lemma pos_of_key_loop_terminates (m : EntityMap.t) (key : Z) (d : nat) :
  0 < EntityMap.cap m →
  Z.of_nat (length (EntityMap.entries m)) = EntityMap.cap m →
  ∀ (fuel : nat) (pos : Z) (e : EntityMapEntry.t),
    (d < fuel)%nat → 0 ≤ pos < EntityMap.cap m →
    probed m pos d = Some e → EntityMapEntry.key e = 0 →
    is_Some (EntityMap_pos_of_key_loop fuel m key pos).
Proof.
  intros Hcap Hlen.
  induction d as [|d IH]; intros fuel pos e Hfuel Hpos He Hkey;
    (destruct fuel as [|fuel]; [lia|]); cbn [EntityMap_pos_of_key_loop].
  - unfold probed in He. rewrite probe_start in He by done. rewrite He.
    cbn [mbind option_bind]. rewrite Hkey. by eexists.
  - destruct (probed_in_bounds m pos 0 Hcap Hlen) as [e0 He0].
    unfold probed in He0. rewrite probe_start in He0 by done. rewrite He0.
    cbn [mbind option_bind].
    destruct (EntityMapEntry.key e0 =? 0); [by eexists|].
    destruct (EntityMapEntry.key e0 =? key); [by eexists|].
    apply (IH fuel _ e); [lia | by apply Z.mod_pos_bound | | done].
    unfold probed in *. by rewrite probe_next by lia.
Qed.

(** The same three facts for the loop of [Fabric_EntityMap__add_no_checks],
    which stops at an empty slot or a tombstone. *)
Lemma free_slot_loop_terminates (m : EntityMap.t) (d : nat) :
  0 < EntityMap.cap m →
  Z.of_nat (length (EntityMap.entries m)) = EntityMap.cap m →
  ∀ (fuel : nat) (pos : Z) (e : EntityMapEntry.t),
    (d < fuel)%nat → 0 ≤ pos < EntityMap.cap m →
    probed m pos d = Some e → EntityMapEntry.key e = 0 →
    is_Some (EntityMap_free_slot_loop fuel m pos).
Proof.
  intros Hcap Hlen.
  induction d as [|d IH]; intros fuel pos e Hfuel Hpos He Hkey;
    (destruct fuel as [|fuel]; [lia|]); cbn [EntityMap_free_slot_loop].
  - unfold probed in He. rewrite probe_start in He by done. rewrite He.
    cbn [mbind option_bind]. rewrite Hkey. by eexists.
  - destruct (probed_in_bounds m pos 0 Hcap Hlen) as [e0 He0].
    unfold probed in He0. rewrite probe_start in He0 by done. rewrite He0.
    cbn [mbind option_bind].
    destruct (negb _ && negb _); [|by eexists].
    apply (IH fuel _ e); [lia | by apply Z.mod_pos_bound | | done].
    unfold probed in *. by rewrite probe_next by lia.
Qed.

Lemma free_slot_loop_inv (m : EntityMap.t) (fuel : nat) :
  ∀ (pos r : Z),
    0 ≤ pos < EntityMap.cap m →
    EntityMap_free_slot_loop fuel m pos = Some r →
    ∃ (d : nat) (e : EntityMapEntry.t),
      (d < fuel)%nat
      ∧ (∀ d' : nat, (d' < d)%nat →
           ∃ e', probed m pos d' = Some e' ∧ EntityMapEntry.key e' ≠ 0)
      ∧ probed m pos d = Some e
      ∧ (EntityMapEntry.key e = 0
         ∨ EntityMapEntry.key e = FABRIC_ENTITYMAP_TOMBSTONE)
      ∧ r = (pos + Z.of_nat d) mod EntityMap.cap m.
Proof.
  induction fuel as [|fuel IH]; intros pos r Hpos; [done|].
  cbn [EntityMap_free_slot_loop].
  destruct (EntityMap.entries m !! Z.to_nat pos) as [e0|] eqn:He0; [|done].
  cbn [mbind option_bind].
  assert (Hp0 : probed m pos 0 = Some e0)
    by (unfold probed; by rewrite probe_start).
  destruct (Z.eqb_spec (EntityMapEntry.key e0) 0) as [Hz|Hz]; cbn [negb andb].
  { intros [= <-]. exists 0%nat, e0.
    repeat split; [lia | | done | by left | by rewrite probe_start].
    intros d' Hd'. lia. }
  destruct (Z.eqb_spec (EntityMapEntry.key e0) FABRIC_ENTITYMAP_TOMBSTONE)
    as [Ht|Ht]; cbn [negb].
  { intros [= <-]. exists 0%nat, e0.
    repeat split; [lia | | done | by right | by rewrite probe_start].
    intros d' Hd'. lia. }
  intros Hloop. apply IH in Hloop as (d & e & Hd & Hpass & He & Hk & Hr);
    [|apply Z.mod_pos_bound; lia].
  exists (S d), e. repeat split; [lia | | | done |].
  - intros [|d'] Hd'; [by exists e0|].
    destruct (Hpass d') as (e' & He' & Hk'); [lia|].
    exists e'. split; [|done]. unfold probed in *. by rewrite <- probe_next by lia.
  - unfold probed in *. by rewrite <- probe_next by lia.
  - by rewrite <- probe_next by lia.
Qed.

(** Counting the occupied slots. *)
Lemma filter_length_lt_exists {A : Type} (P : A → Prop)
    `{!∀ x, Decision (P x)} (l : list A) :
  (length (filter P l) < length l)%nat → ∃ x, x ∈ l ∧ ¬ P x.
Proof.
  induction l as [|x l IH]; cbn [length]; [lia|].
  rewrite filter_cons. destruct (decide (P x)) as [HP|HP].
  - cbn [length]. intros Hlt. destruct IH as (y & Hy & HPy); [lia|].
    exists y. split; [by right | done].
  - intros _. exists x. split; [by left | done].
Qed.

Lemma EntityMap_empty_slot (m : EntityMap.t) :
  Z.of_nat (length (EntityMap.entries m)) = EntityMap.cap m →
  Z.of_nat (EntityMap_used m) < EntityMap.cap m →
  ∃ (i : nat) e, EntityMap.entries m !! i = Some e ∧ EntityMapEntry.key e = 0.
Proof.
  intros Hlen Hused. unfold EntityMap_used in Hused.
  destruct (filter_length_lt_exists (λ e, EntityMapEntry.key e ≠ 0)
              (EntityMap.entries m)) as (e & He & Hk); [lia|].
  apply list_elem_of_lookup in He as [i Hi].
  exists i, e. split; [done|]. by destruct (decide (EntityMapEntry.key e = 0)).
Qed.

Lemma used_insert (entries : list EntityMapEntry.t) (i : nat)
    (old new : EntityMapEntry.t) :
  entries !! i = Some old →
  length (filter (λ e, EntityMapEntry.key e ≠ 0) (<[i := new]> entries))
  = (length (filter (λ e, EntityMapEntry.key e ≠ 0%Z) entries)
     + (if decide (EntityMapEntry.key new ≠ 0%Z) then 1 else 0)
     - (if decide (EntityMapEntry.key old ≠ 0%Z) then 1 else 0))%nat.
Proof.
  intros Hi.
  rewrite <- (take_drop_middle entries i old Hi) at 2.
  rewrite insert_take_drop by (by eapply lookup_lt_Some).
  rewrite !filter_app, !filter_cons, !length_app.
  destruct (decide (EntityMapEntry.key new ≠ 0)),
    (decide (EntityMapEntry.key old ≠ 0)); cbn [length]; lia.
Qed.

(** ** Lookups in a well-formed table *)

Lemma hash_position (host : byte_order) (m : EntityMap.t) (key : Z) :
  0 < EntityMap.cap m →
  0 ≤ hash_uint32 host key mod EntityMap.cap m < EntityMap.cap m.
Proof. intros H. by apply Z.mod_pos_bound. Qed.

Lemma pos_of_key_total (host : byte_order) (m : EntityMap.t) (key : Z) :
  EntityMap_wf host m →
  Z.of_nat (EntityMap_used m) < EntityMap.cap m →
  is_Some (Fabric_EntityMap__pos_of_key host m key).
Proof.
  intros Hwf Hused. destruct Hwf as [Hcap Hlen _ _ _ _].
  unfold Fabric_EntityMap__pos_of_key.
  destruct (Z.leb_spec (EntityMap.cap m) 0); [lia|].
  destruct (EntityMap_empty_slot m Hlen Hused) as (i & e & Hi & Hk).
  destruct (probed_reaches m (hash_uint32 host key mod EntityMap.cap m) i Hcap)
    as (d & Hd & Hdi).
  { apply lookup_lt_Some in Hi. lia. }
  apply (pos_of_key_loop_terminates m key d Hcap Hlen _ _ e);
    [lia | by apply hash_position | | done].
  unfold probed. by rewrite Hdi, Nat2Z.id.
Qed.

Lemma pos_of_key_found (host : byte_order) (m : EntityMap.t) (key r : Z) :
  EntityMap_wf host m →
  Fabric_EntityMap__pos_of_key host m key = Some r →
  r = FABRIC_ENTITYMAP_TOMBSTONE
  ∨ (0 ≤ r < EntityMap.cap m ∧ key ≠ 0
     ∧ ∃ e, EntityMap.entries m !! Z.to_nat r = Some e
            ∧ EntityMapEntry.key e = key).
Proof.
  intros Hwf. destruct Hwf as [Hcap Hlen _ _ _ _].
  unfold Fabric_EntityMap__pos_of_key.
  destruct (Z.leb_spec (EntityMap.cap m) 0); [lia|].
  intros Hloop.
  apply pos_of_key_loop_inv in Hloop
    as (d & e & _ & _ & He & [[_ ->]|(Hnz & Hk & ->)]);
    [by left | | by apply hash_position].
  right. split; [by apply Z.mod_pos_bound|].
  split; [congruence|]. by exists e.
Qed.

Lemma pos_of_key_bound (host : byte_order) (m : EntityMap.t) (key : Z)
    (entity : ptr) :
  EntityMap_wf host m → EntityMap_bound m key entity →
  ∃ i : nat,
    Fabric_EntityMap__pos_of_key host m key = Some (Z.of_nat i)
    ∧ EntityMap.entries m !! i = Some (EntityMapEntry.mk key entity)
    ∧ Z.of_nat i ≠ FABRIC_ENTITYMAP_TOMBSTONE.
Proof.
  intros Hwf [Hk Hin]. apply list_elem_of_lookup in Hin as [i Hi].
  exists i. split; [|split; [done|]].
  - by apply (wf_reach host m Hwf i _ Hi).
  - apply lookup_lt_Some in Hi.
    pose proof (wf_length host m Hwf). pose proof (wf_small host m Hwf). lia.
Qed.

Lemma pos_of_key_unbound (host : byte_order) (m : EntityMap.t) (key : Z) :
  EntityMap_wf host m →
  Z.of_nat (EntityMap_used m) < EntityMap.cap m →
  (∀ entity, ¬ EntityMap_bound m key entity) →
  Fabric_EntityMap__pos_of_key host m key = Some FABRIC_ENTITYMAP_TOMBSTONE.
Proof.
  intros Hwf Hused Hfree.
  destruct (pos_of_key_total host m key Hwf Hused) as [r Hr].
  rewrite Hr. f_equal.
  destruct (pos_of_key_found host m key r Hwf Hr)
    as [|(_ & Hk & [[k entity] [He Hke]])]; [done|].
  cbn in Hke. subst k. destruct (Hfree entity). split; [done|].
  by eapply list_elem_of_lookup_2.
Qed.

Lemma EntityMap_get_bound (host : byte_order) (m : EntityMap.t) (key : Z)
    (entity : ptr) :
  EntityMap_wf host m → EntityMap_bound m key entity →
  Fabric_EntityMap_get host m key = Some entity
  ∧ Fabric_EntityMap_has_key host m key = Some true.
Proof.
  intros Hwf Hb.
  destruct (pos_of_key_bound host m key entity Hwf Hb) as (i & Hpos & Hi & Hne).
  unfold Fabric_EntityMap_get, Fabric_EntityMap_has_key. rewrite Hpos.
  cbn [mbind option_bind].
  destruct (Z.eqb_spec (Z.of_nat i) FABRIC_ENTITYMAP_TOMBSTONE); [done|].
  by rewrite Nat2Z.id, Hi.
Qed.

Lemma EntityMap_get_unbound (host : byte_order) (m : EntityMap.t) (key : Z) :
  EntityMap_wf host m →
  Z.of_nat (EntityMap_used m) < EntityMap.cap m →
  (∀ entity, ¬ EntityMap_bound m key entity) →
  Fabric_EntityMap_get host m key = Some NULL
  ∧ Fabric_EntityMap_has_key host m key = Some false.
Proof.
  intros Hwf Hused Hfree.
  unfold Fabric_EntityMap_get, Fabric_EntityMap_has_key.
  by rewrite (pos_of_key_unbound host m key Hwf Hused Hfree).
Qed.

Lemma EntityMap_bound_functional (host : byte_order) (m : EntityMap.t)
    (key : Z) (p q : ptr) :
  EntityMap_wf host m →
  EntityMap_bound m key p → EntityMap_bound m key q → p = q.
Proof.
  intros Hwf Hp Hq.
  destruct (EntityMap_get_bound host m key p Hwf Hp) as [Hgp _].
  destruct (EntityMap_get_bound host m key q Hwf Hq) as [Hgq _].
  congruence.
Qed.

(** ** Insertion into a well-formed table *)

(** A probe that only sees occupied slots sees the same entries once an
    empty slot has been filled. *)
Lemma probed_fill (m : EntityMap.t) (n : Z) (i0 : nat)
    (e0 new e : EntityMapEntry.t) (pos : Z) (d : nat) :
  EntityMap.entries m !! i0 = Some e0 → EntityMapEntry.key e0 = 0 →
  probed m pos d = Some e → EntityMapEntry.key e ≠ 0 →
  probed (EntityMap.mk n (EntityMap.cap m) (<[i0 := new]> (EntityMap.entries m)))
    pos d
  = Some e.
Proof.
  intros Hi0 Hk0 He Hk. unfold probed in *. cbn [EntityMap.entries EntityMap.cap].
  rewrite list_lookup_insert_ne; [done|].
  intros Heq. rewrite Heq in Hi0. congruence.
Qed.

Lemma passes_fill (m : EntityMap.t) (n : Z) (i0 : nat)
    (e0 new : EntityMapEntry.t) (key pos : Z) (d : nat) :
  EntityMap.entries m !! i0 = Some e0 → EntityMapEntry.key e0 = 0 →
  passes m key pos d →
  passes (EntityMap.mk n (EntityMap.cap m) (<[i0 := new]> (EntityMap.entries m)))
    key pos d.
Proof.
  intros Hi0 Hk0 Hpass d' Hd'. destruct (Hpass d' Hd') as (e & He & Hz & Hk).
  exists e. split; [|done]. by eapply probed_fill.
Qed.

Lemma add_no_checks_wf (host : byte_order) (m : EntityMap.t) (key : Z)
    (entity : ptr) :
  EntityMap_wf host m → 0 < key < 2 ^ 16 →
  (∀ p, ¬ EntityMap_bound m key p) →
  Z.of_nat (EntityMap_used m) < EntityMap.cap m →
  ∃ m',
    Fabric_EntityMap__add_no_checks host m (EntityMapEntry.mk key entity)
    = Some m'
    ∧ EntityMap_wf host m'
    ∧ EntityMap.cap m' = EntityMap.cap m
    ∧ EntityMap.count m' = EntityMap.count m + 1
    ∧ ∀ k p, EntityMap_bound m' k p
             ↔ (k = key ∧ p = entity) ∨ EntityMap_bound m k p.
Proof.
  intros Hwf Hkey Hfresh Hused.
  pose proof Hwf as [Hcap Hlen Hsmall Hcount Hkeys Hreach].
  unfold Fabric_EntityMap__add_no_checks. cbn [EntityMapEntry.key].
  destruct (Z.leb_spec (EntityMap.cap m) 0); [lia|].
  set (h := hash_uint32 host key mod EntityMap.cap m).
  assert (Hh : 0 ≤ h < EntityMap.cap m) by (by apply hash_position).
  destruct (EntityMap_empty_slot m Hlen Hused) as (iz & ez & Hiz & Hkz).
  destruct (probed_reaches m h iz Hcap) as (dz & Hdz & Hdiz).
  { apply lookup_lt_Some in Hiz. lia. }
  destruct (free_slot_loop_terminates m dz Hcap Hlen
              (Z.to_nat (EntityMap.cap m)) h ez) as [r Hr];
    [lia | done | unfold probed; by rewrite Hdiz, Nat2Z.id | done |].
  rewrite Hr. cbn [mbind option_bind].
  apply free_slot_loop_inv in Hr as (d0 & e0 & Hd0 & Hprefix & He0 & Hk0 & ->);
    [|done].
  set (r := (h + Z.of_nat d0) mod EntityMap.cap m) in *.
  assert (Hrange : 0 ≤ r < EntityMap.cap m) by (by apply Z.mod_pos_bound).
  assert (Hi0 : EntityMap.entries m !! Z.to_nat r = Some e0) by exact He0.
  assert (Hz0 : EntityMapEntry.key e0 = 0).
  { destruct Hk0 as [|Ht]; [done|].
    pose proof (Hkeys e0 (list_elem_of_lookup_2 _ _ _ Hi0)) as Hb.
    rewrite Ht in Hb. unfold FABRIC_ENTITYMAP_TOMBSTONE in Hb. lia. }
  eexists. split; [reflexivity|].
  assert (Hbound : ∀ k p,
    EntityMap_bound
      (EntityMap.mk (EntityMap.count m + 1) (EntityMap.cap m)
         (<[Z.to_nat r := EntityMapEntry.mk key entity]> (EntityMap.entries m)))
      k p
    ↔ (k = key ∧ p = entity) ∨ EntityMap_bound m k p).
  { intros k p. unfold EntityMap_bound. cbn [EntityMap.entries]. split.
    - intros [Hk Hin]. apply list_elem_of_lookup in Hin as [j Hj].
      apply list_lookup_insert_Some in Hj as [(_ & Heq & _)|[Hne Hj]].
      + injection Heq as <- <-. by left.
      + right. split; [done|]. by eapply list_elem_of_lookup_2.
    - intros [[-> ->]|[Hk Hin]].
      + split; [lia|]. apply list_elem_of_lookup. exists (Z.to_nat r).
        apply list_lookup_insert_eq. by eapply lookup_lt_Some.
      + split; [done|]. apply list_elem_of_lookup in Hin as [j Hj].
        apply list_elem_of_lookup. exists j.
        rewrite list_lookup_insert_ne; [done|].
        intros <-. rewrite Hi0 in Hj. injection Hj as ->. done. }
  split; [|split; [done|split; [done|exact Hbound]]].
  constructor; cbn [EntityMap.cap EntityMap.entries EntityMap.count].
  - done.
  - by rewrite length_insert.
  - done.
  - unfold EntityMap_used. cbn [EntityMap.entries].
    rewrite (used_insert _ _ e0) by done. cbn [EntityMapEntry.key].
    destruct (decide (key ≠ 0)); [|lia].
    destruct (decide (EntityMapEntry.key e0 ≠ 0)); [done|].
    unfold EntityMap_used in Hcount. lia.
  - intros e He. apply list_elem_of_lookup in He as [j Hj].
    apply list_lookup_insert_Some in Hj as [(_ & <- & _)|[_ Hj]].
    + cbn. lia.
    + apply Hkeys. by eapply list_elem_of_lookup_2.
  - intros i e Hi Hk.
    unfold Fabric_EntityMap__pos_of_key. cbn [EntityMap.cap].
    destruct (Z.leb_spec (EntityMap.cap m) 0); [lia|].
    apply list_lookup_insert_Some in Hi as [(<- & <- & _)|[Hne Hi]].
    + cbn [EntityMapEntry.key]. fold h.
      rewrite (pos_of_key_loop_hit _ key d0 _ h (EntityMapEntry.mk key entity)).
      * cbn [EntityMapEntry.key EntityMap.cap].
        destruct (Z.eqb_spec key 0); [lia|]. fold r. f_equal. lia.
      * lia.
      * done.
      * intros d' Hd'. destruct (Hprefix d' Hd') as (e' & He' & Hk').
        exists e'. split; [by eapply probed_fill|]. split; [done|].
        intros Heq. destruct e' as [k' p']. cbn in *. subst k'.
        apply (Hfresh p'). split; [lia|]. by eapply list_elem_of_lookup_2.
      * unfold probed. cbn [EntityMap.entries EntityMap.cap]. fold r.
        apply list_lookup_insert_eq. by eapply lookup_lt_Some.
      * by right.
    + pose proof (Hreach i e Hi Hk) as Hold.
      unfold Fabric_EntityMap__pos_of_key in Hold.
      destruct (Z.leb_spec (EntityMap.cap m) 0); [lia|].
      apply pos_of_key_loop_inv in Hold
        as (d & e1 & Hd & Hpass & He1 & [[_ Hbad]|(Hnz & Hke & Hpos)]);
        [| |by apply hash_position].
      { apply lookup_lt_Some in Hi. lia. }
      rewrite (pos_of_key_loop_hit _ _ d _ _ e1).
      * cbn [EntityMap.cap]. destruct (Z.eqb_spec (EntityMapEntry.key e1) 0); [done|].
        by rewrite Hpos.
      * done.
      * exact (hash_position host m _ Hcap).
      * by eapply passes_fill.
      * by eapply probed_fill.
      * by right.
Qed.

(** Two slots of a well-formed table that hold the same key are one
    slot. *)
Lemma EntityMap_wf_slot_unique (host : byte_order) (m : EntityMap.t)
    (i j : nat) (e e' : EntityMapEntry.t) :
  EntityMap_wf host m →
  EntityMap.entries m !! i = Some e → EntityMap.entries m !! j = Some e' →
  EntityMapEntry.key e = EntityMapEntry.key e' → EntityMapEntry.key e ≠ 0 →
  i = j.
Proof.
  intros Hwf Hi Hj Heq Hk.
  pose proof (wf_reach host m Hwf i e Hi Hk) as H1.
  pose proof (wf_reach host m Hwf j e' Hj ltac:(congruence)) as H2.
  rewrite Heq in H1. rewrite H1 in H2. injection H2. lia.
Qed.

(** ** Overwriting the entity of a key that is present *)

Lemma pos_of_key_loop_same_keys (m m' : EntityMap.t) (key : Z) (fuel : nat) :
  EntityMap.cap m' = EntityMap.cap m →
  (∀ j : nat, EntityMapEntry.key <$> EntityMap.entries m' !! j
              = EntityMapEntry.key <$> EntityMap.entries m !! j) →
  ∀ pos, EntityMap_pos_of_key_loop fuel m' key pos
         = EntityMap_pos_of_key_loop fuel m key pos.
Proof.
  intros Hcap Hkeys. induction fuel as [|fuel IH]; intros pos; [done|].
  cbn [EntityMap_pos_of_key_loop]. specialize (Hkeys (Z.to_nat pos)).
  destruct (EntityMap.entries m' !! Z.to_nat pos) as [e'|],
    (EntityMap.entries m !! Z.to_nat pos) as [e|]; try done.
  cbn in Hkeys. injection Hkeys as Hk. cbn [mbind option_bind].
  rewrite Hk, Hcap. destruct (EntityMapEntry.key e =? 0); [done|].
  destruct (EntityMapEntry.key e =? key); [done | apply IH].
Qed.

Lemma set_present_wf (host : byte_order) (m : EntityMap.t) (i : nat)
    (old : EntityMapEntry.t) (entity : ptr) :
  EntityMap_wf host m →
  EntityMap.entries m !! i = Some old → EntityMapEntry.key old ≠ 0 →
  let m' :=
    EntityMap.mk (EntityMap.count m) (EntityMap.cap m)
      (<[i := EntityMapEntry.mk (EntityMapEntry.key old) entity]>
         (EntityMap.entries m)) in
  EntityMap_wf host m'
  ∧ ∀ k p, EntityMap_bound m' k p
           ↔ (k = EntityMapEntry.key old ∧ p = entity)
             ∨ (k ≠ EntityMapEntry.key old ∧ EntityMap_bound m k p).
Proof.
  intros Hwf Hi Hk m'.
  pose proof Hwf as [Hcap Hlen Hsmall Hcount Hkeys Hreach].
  assert (Hsame : ∀ j : nat,
            EntityMapEntry.key <$> EntityMap.entries m' !! j
            = EntityMapEntry.key <$> EntityMap.entries m !! j).
  { intros j. subst m'. cbn [EntityMap.entries].
    destruct (decide (j = i)) as [->|Hne].
    - rewrite list_lookup_insert_eq by (by eapply lookup_lt_Some).
      by rewrite Hi.
    - by rewrite list_lookup_insert_ne. }
  split.
  - constructor; subst m'; cbn [EntityMap.cap EntityMap.entries EntityMap.count].
    + done.
    + by rewrite length_insert.
    + done.
    + unfold EntityMap_used. cbn [EntityMap.entries].
      rewrite (used_insert _ _ old) by done. cbn [EntityMapEntry.key].
      destruct (decide (EntityMapEntry.key old ≠ 0)); [|done].
      unfold EntityMap_used in Hcount. lia.
    + intros e He. apply list_elem_of_lookup in He as [j Hj].
      apply list_lookup_insert_Some in Hj as [(_ & <- & _)|[_ Hj]].
      * cbn. apply Hkeys. by eapply list_elem_of_lookup_2.
      * apply Hkeys. by eapply list_elem_of_lookup_2.
    + intros j e Hj Hke.
      assert (∃ e0, EntityMap.entries m !! j = Some e0
                    ∧ EntityMapEntry.key e0 = EntityMapEntry.key e)
        as (e0 & Hj0 & Hk0).
      { specialize (Hsame j). cbn [EntityMap.entries] in Hsame.
        rewrite Hj in Hsame. cbn in Hsame.
        destruct (EntityMap.entries m !! j) as [e0|]; [|done].
        exists e0. split; [done|]. by injection Hsame. }
      rewrite <- Hk0. rewrite <- (Hreach j e0 Hj0) by congruence.
      unfold Fabric_EntityMap__pos_of_key. cbn [EntityMap.cap].
      destruct (EntityMap.cap m <=? 0); [done|].
      by apply pos_of_key_loop_same_keys.
  - intros k p. unfold EntityMap_bound. subst m'. cbn [EntityMap.entries].
    split.
    + intros [Hk0 Hin]. apply list_elem_of_lookup in Hin as [j Hj].
      apply list_lookup_insert_Some in Hj as [(_ & Heq & _)|[Hne Hj]].
      * injection Heq as <- <-. by left.
      * right. split; [|split; [done | by eapply list_elem_of_lookup_2]].
        intros ->. apply Hne.
        by apply (EntityMap_wf_slot_unique host m i j old _ Hwf Hi Hj).
    + intros [[-> ->]|(Hne & Hk0 & Hin)].
      * split; [done|]. apply list_elem_of_lookup. exists i.
        apply list_lookup_insert_eq. by eapply lookup_lt_Some.
      * split; [done|]. apply list_elem_of_lookup in Hin as [j Hj].
        apply list_elem_of_lookup. exists j.
        rewrite list_lookup_insert_ne; [done|].
        intros <-. rewrite Hi in Hj. injection Hj as ->. done.
Qed.

(** ** Growing a table *)

Lemma used_replicate_empty (n : nat) :
  filter (λ e, EntityMapEntry.key e ≠ 0) (replicate n (EntityMapEntry.mk 0 NULL))
  = [].
Proof.
  induction n as [|n IH]; [done|]. cbn [replicate]. rewrite filter_cons.
  destruct (decide _) as [Hne|_]; [by cbn in Hne | exact IH].
Qed.

Lemma fresh_table_wf (host : byte_order) (cap : Z) :
  0 < cap < FABRIC_ENTITYMAP_TOMBSTONE →
  let m := EntityMap.mk 0 cap (replicate (Z.to_nat cap) (EntityMapEntry.mk 0 NULL)) in
  EntityMap_wf host m ∧ ∀ k p, ¬ EntityMap_bound m k p.
Proof.
  intros Hcap m. split.
  - constructor; subst m; cbn [EntityMap.cap EntityMap.entries EntityMap.count].
    + lia.
    + rewrite length_replicate. lia.
    + lia.
    + unfold EntityMap_used. cbn [EntityMap.entries].
      by rewrite used_replicate_empty.
    + intros e He. apply elem_of_replicate_inv in He as ->. cbn. lia.
    + intros i e Hi Hk. apply lookup_replicate in Hi as [-> _]. done.
  - intros k p [Hk Hin]. subst m. cbn [EntityMap.entries] in Hin.
    apply elem_of_replicate_inv in Hin. injection Hin as -> _. done.
Qed.

(** The entries of a list that are occupied, as the copy loop sees them. *)
Lemma resize_loop_wf (host : byte_order) (old_data : list EntityMapEntry.t) :
  ∀ t : EntityMap.t,
    EntityMap_wf host t →
    (∀ e, e ∈ old_data → 0 ≤ EntityMapEntry.key e < 2 ^ 16) →
    (∀ (i j : nat) e e',
       old_data !! i = Some e → old_data !! j = Some e' →
       EntityMapEntry.key e = EntityMapEntry.key e' →
       EntityMapEntry.key e ≠ 0 → i = j) →
    (∀ e, e ∈ old_data → EntityMapEntry.key e ≠ 0 →
          ∀ p, ¬ EntityMap_bound t (EntityMapEntry.key e) p) →
    Z.of_nat (EntityMap_used t)
    + Z.of_nat (length (filter (λ e, EntityMapEntry.key e ≠ 0) old_data))
    < EntityMap.cap t →
    ∃ t',
      EntityMap_resize_loop host old_data t = Some t'
      ∧ EntityMap_wf host t'
      ∧ EntityMap.cap t' = EntityMap.cap t
      ∧ EntityMap.count t'
        = EntityMap.count t
          + Z.of_nat (length (filter (λ e, EntityMapEntry.key e ≠ 0) old_data))
      ∧ ∀ k p, EntityMap_bound t' k p
               ↔ EntityMap_bound t k p
                 ∨ (k ≠ 0 ∧ EntityMapEntry.mk k p ∈ old_data).
Proof.
  induction old_data as [|e rest IH]; intros t Hwf Hkeys Hdistinct Hfresh Hroom.
  - exists t. split; [done|]. split; [done|]. split; [done|].
    split; [rewrite filter_nil; cbn [length]; lia|].
    intros k p. split; [by left|].
    intros [|[_ Hin]]; [done | by apply elem_of_nil in Hin].
  - cbn [EntityMap_resize_loop].
    assert (Hrest_keys : ∀ e', e' ∈ rest → 0 ≤ EntityMapEntry.key e' < 2 ^ 16)
      by (intros e' He'; apply Hkeys; by right).
    assert (Hrest_distinct : ∀ (i j : nat) e1 e2,
              rest !! i = Some e1 → rest !! j = Some e2 →
              EntityMapEntry.key e1 = EntityMapEntry.key e2 →
              EntityMapEntry.key e1 ≠ 0 → i = j).
    { intros i j e1 e2 Hi Hj Heq Hk.
      by injection (Hdistinct (S i) (S j) e1 e2 Hi Hj Heq Hk). }
    rewrite filter_cons in Hroom |- *.
    destruct (decide (EntityMapEntry.key e ≠ 0)) as [Hk|Hk].
    + pose proof (Hkeys e ltac:(by left)) as Hrange.
      destruct (Z.eqb_spec (EntityMapEntry.key e) 0) as [|_]; [done|].
      destruct (Z.eqb_spec (EntityMapEntry.key e) FABRIC_ENTITYMAP_TOMBSTONE)
        as [Ht|_].
      { rewrite Ht in Hrange. unfold FABRIC_ENTITYMAP_TOMBSTONE in Hrange. lia. }
      cbn [negb andb length] in Hroom |- *.
      destruct e as [k p]. cbn [EntityMapEntry.key] in *.
      destruct (add_no_checks_wf host t k p Hwf ltac:(lia))
        as (t1 & Hadd & Hwf1 & Hcap1 & Hcount1 & Hbound1).
      { apply (Hfresh (EntityMapEntry.mk k p)); [by left | done]. }
      { lia. }
      rewrite Hadd. cbn [mbind option_bind].
      assert (Hused1 : Z.of_nat (EntityMap_used t1) = Z.of_nat (EntityMap_used t) + 1).
      { rewrite <- (wf_count host t1 Hwf1), <- (wf_count host t Hwf). done. }
      destruct (IH t1 Hwf1 Hrest_keys Hrest_distinct)
        as (t' & Hloop & Hwf' & Hcap' & Hcount' & Hbound').
      { intros e' He' Hk' q Hb. apply Hbound1 in Hb as [[Heq _]|Hb].
        - apply list_elem_of_lookup in He' as [j Hj].
          by specialize (Hdistinct 0%nat (S j) (EntityMapEntry.mk k p) e'
                           eq_refl Hj (eq_sym Heq) Hk).
        - apply (Hfresh e' ltac:(by right) Hk' q Hb). }
      { lia. }
      exists t'. split; [done|]. split; [done|].
      split; [congruence|]. split; [lia|].
      intros k' p'. rewrite Hbound', Hbound1. split.
      * intros [[[-> ->]|Hb]|[Hk' Hin]].
        -- right. split; [done | by left].
        -- by left.
        -- right. split; [done | by right].
      * intros [Hb|[Hk' Hin]].
        -- left. by right.
        -- apply elem_of_cons in Hin as [Heq|Hin].
           ++ injection Heq as -> ->. left. by left.
           ++ right. by split.
    + assert (EntityMapEntry.key e = 0) as Hz
        by (by destruct (decide (EntityMapEntry.key e = 0))).
      rewrite Hz. cbn [Z.eqb negb andb].
      destruct (IH t Hwf Hrest_keys Hrest_distinct)
        as (t' & Hloop & Hwf' & Hcap' & Hcount' & Hbound').
      { intros e' He'. apply Hfresh. by right. }
      { done. }
      exists t'. split; [done|]. split; [done|]. split; [done|]. split; [done|].
      intros k' p'. rewrite Hbound'. split.
      * intros [Hb|[Hk' Hin]]; [by left|]. right. split; [done | by right].
      * intros [Hb|[Hk' Hin]]; [by left|].
        apply elem_of_cons in Hin as [Heq|Hin].
        -- subst e. cbn in Hz. done.
        -- right. by split.
Qed.

Lemma resize_wf (host : byte_order) (m : EntityMap.t) (new_cap : Z) :
  EntityMap_wf host m →
  EntityMap.count m < new_cap → 0 < new_cap < FABRIC_ENTITYMAP_TOMBSTONE →
  ∃ m',
    Fabric_EntityMap__resize host m new_cap = Some (m', FABRIC_OK)
    ∧ EntityMap_wf host m'
    ∧ EntityMap.cap m' = new_cap
    ∧ EntityMap.count m' = EntityMap.count m
    ∧ ∀ k p, EntityMap_bound m' k p ↔ EntityMap_bound m k p.
Proof.
  intros Hwf Hroom Hcap. unfold Fabric_EntityMap__resize.
  rewrite firstn_all2 by (pose proof (wf_length host m Hwf); lia).
  destruct (fresh_table_wf host new_cap Hcap) as [Hfresh_wf Hfresh].
  destruct (resize_loop_wf host (EntityMap.entries m) _ Hfresh_wf)
    as (m' & Hloop & Hwf' & Hcap' & Hcount' & Hbound').
  - apply (wf_keys host m Hwf).
  - intros i j e e' Hi Hj Heq Hk.
    by apply (EntityMap_wf_slot_unique host m i j e e').
  - intros e _ _ p. apply Hfresh.
  - unfold EntityMap_used at 1. cbn [EntityMap.entries EntityMap.cap].
    rewrite used_replicate_empty. cbn [length].
    pose proof (wf_count host m Hwf) as Hc. unfold EntityMap_used in Hc. lia.
  - rewrite Hloop. cbn [mbind option_bind]. exists m'.
    split; [done|]. split; [done|]. split; [done|].
    split.
    + rewrite Hcount'. cbn [EntityMap.count].
      pose proof (wf_count host m Hwf) as Hc. unfold EntityMap_used in Hc. lia.
    + intros k p. rewrite Hbound'. unfold EntityMap_bound at 2. split.
      * intros [Hb|Hb]; [by apply Hfresh in Hb | done].
      * intros Hb. by right.
Qed.

(** A table keyed by class ids holds at most 65535 of them. *)
Lemma distinct_keys_NoDup (l : list EntityMapEntry.t) :
  (∀ (i j : nat) e e',
     l !! i = Some e → l !! j = Some e' →
     EntityMapEntry.key e = EntityMapEntry.key e' →
     EntityMapEntry.key e ≠ 0 → i = j) →
  NoDup (EntityMapEntry.key <$> filter (λ e, EntityMapEntry.key e ≠ 0) l).
Proof.
  induction l as [|e l IH]; intros Hdistinct; [constructor|].
  assert (Hrest : NoDup (EntityMapEntry.key
                           <$> filter (λ e, EntityMapEntry.key e ≠ 0) l)).
  { apply IH. intros i j e1 e2 Hi Hj Heq Hk.
    by injection (Hdistinct (S i) (S j) e1 e2 Hi Hj Heq Hk). }
  rewrite filter_cons. destruct (decide (EntityMapEntry.key e ≠ 0)) as [Hk|_];
    [|done].
  rewrite fmap_cons. constructor; [|done].
  intros Hin. apply list_elem_of_fmap in Hin as (e' & Heq & Hin).
  apply list_elem_of_filter in Hin as [_ Hin].
  apply list_elem_of_lookup in Hin as [j Hj].
  by specialize (Hdistinct 0%nat (S j) e e' eq_refl Hj Heq Hk).
Qed.

Lemma EntityMap_count_bounded (host : byte_order) (m : EntityMap.t) :
  EntityMap_wf host m → EntityMap.count m ≤ 65535.
Proof.
  intros Hwf. rewrite (wf_count host m Hwf). unfold EntityMap_used.
  rewrite <- (length_fmap EntityMapEntry.key).
  assert (Hsub : EntityMapEntry.key
                   <$> filter (λ e, EntityMapEntry.key e ≠ 0) (EntityMap.entries m)
                 ⊆+ seqZ 1 65535).
  { apply NoDup_submseteq.
    - apply distinct_keys_NoDup. intros i j e e' Hi Hj Heq Hk.
      by apply (EntityMap_wf_slot_unique host m i j e e').
    - intros k Hin. apply list_elem_of_fmap in Hin as (e & -> & Hin).
      apply list_elem_of_filter in Hin as [Hk Hin].
      pose proof (wf_keys host m Hwf e Hin) as Hr.
      apply elem_of_seqZ. change (2 ^ 16) with 65536 in Hr. lia. }
  apply submseteq_length in Hsub. rewrite length_seqZ in Hsub. lia.
Qed.

Lemma ClassCache_cap_bounded (host : byte_order) (m : EntityMap.t) :
  ClassCache_wf host m → 2 * EntityMap.cap m < FABRIC_ENTITYMAP_TOMBSTONE.
Proof.
  intros (Hwf & _ & Hgrown).
  pose proof (EntityMap_count_bounded host m Hwf).
  unfold FABRIC_ENTITYMAP_TOMBSTONE. lia.
Qed.

Lemma ClassCache_cap_small (host : byte_order) (m : EntityMap.t) :
  ClassCache_wf host m → 4 * EntityMap.cap m < FABRIC_ENTITYMAP_TOMBSTONE.
Proof.
  intros (Hwf & _ & Hgrown).
  pose proof (EntityMap_count_bounded host m Hwf).
  unfold FABRIC_ENTITYMAP_TOMBSTONE. lia.
Qed.

Lemma ClassCache_has_room (host : byte_order) (m : EntityMap.t) :
  ClassCache_wf host m → Z.of_nat (EntityMap_used m) < EntityMap.cap m.
Proof.
  intros (Hwf & Hload & _).
  pose proof (wf_cap host m Hwf). pose proof (wf_count host m Hwf). lia.
Qed.

(** ** [Fabric_EntityMap_set] on the cache of a class store *)

Lemma pos_of_key_tombstone_unbound (host : byte_order) (m : EntityMap.t)
    (key : Z) :
  EntityMap_wf host m →
  Fabric_EntityMap__pos_of_key host m key = Some FABRIC_ENTITYMAP_TOMBSTONE →
  ∀ p, ¬ EntityMap_bound m key p.
Proof.
  intros Hwf Hpos p Hb.
  destruct (pos_of_key_bound host m key p Hwf Hb) as (i & Hi & _ & Hne).
  congruence.
Qed.

(** [Fabric_EntityMap_set] on a well-formed table with a free slot, whatever
    the load test decides. *)
Lemma EntityMap_set_any (host : byte_order) (m : EntityMap.t) (key : Z)
    (entity : ptr) :
  EntityMap_wf host m →
  EntityMap.count m < EntityMap.cap m →
  2 * EntityMap.cap m < FABRIC_ENTITYMAP_TOMBSTONE →
  0 < key < 2 ^ 16 →
  ∃ m',
    Fabric_EntityMap_set host m key entity = Some (m', FABRIC_OK)
    ∧ EntityMap_wf host m'
    ∧ (∀ k p, EntityMap_bound m' k p
              ↔ (k = key ∧ p = entity) ∨ (k ≠ key ∧ EntityMap_bound m k p))
    ∧ EntityMap.count m'
      = EntityMap.count m
        + (if Fabric_EntityMap_has_key host m key is Some true then 0 else 1)
    ∧ EntityMap.cap m'
      = (if Fabric_EntityMap_has_key host m key is Some true
         then EntityMap.cap m
         else if load_exceeds_maxload FABRIC_ENTITYMAP_MAXLOAD
                   (EntityMap.count m) (EntityMap.cap m)
              then EntityMap.cap m * 2
              else EntityMap.cap m).
Proof.
  intros Hwf Hfree Hbig Hkey.
  pose proof (wf_cap host m Hwf) as Hcap.
  pose proof (wf_count host m Hwf) as Hcount.
  assert (Hroom : Z.of_nat (EntityMap_used m) < EntityMap.cap m) by lia.
  unfold Fabric_EntityMap_set, Fabric_EntityMap_has_key.
  destruct (pos_of_key_total host m key Hwf Hroom) as [r Hr]. rewrite Hr.
  cbn [mbind option_bind].
  destruct (pos_of_key_found host m key r Hwf Hr)
    as [->|(Hrange & Hk0 & e & He & Hke)].
  - (* the key is new *)
    pose proof (pos_of_key_tombstone_unbound host m key Hwf Hr) as Hfresh.
    rewrite Z.eqb_refl. cbn [negb fmap option_fmap option_map].
    assert (Hnew : ∀ k p, (k = key ∧ p = entity) ∨ EntityMap_bound m k p
                          ↔ (k = key ∧ p = entity) ∨ (k ≠ key ∧ EntityMap_bound m k p)).
    { intros k p. split; (intros [?|Hb]; [by left|]).
      - right. split; [|done]. intros ->. by apply Hfresh in Hb.
      - right. by destruct Hb. }
    destruct (load_exceeds_maxload _ _ _).
    + destruct (resize_wf host m (EntityMap.cap m * 2) Hwf)
        as (m1 & Hres & Hwf1 & Hcap1 & Hcount1 & Hbound1); [lia | lia |].
      rewrite Hres. cbn [mbind option_bind negb Z.eqb FABRIC_OK].
      destruct (add_no_checks_wf host m1 key entity Hwf1 Hkey)
        as (m2 & Hadd & Hwf2 & Hcap2 & Hcount2 & Hbound2).
      { intros p Hb. apply Hbound1 in Hb. by apply Hfresh in Hb. }
      { rewrite <- (wf_count host m1 Hwf1). lia. }
      rewrite Hadd. cbn [mbind option_bind]. exists m2.
      split; [done|]. split; [done|]. split; [|split; lia].
      intros k p. rewrite Hbound2, <- Hnew.
      split; (intros [?|Hb]; [by left | right; by apply Hbound1]).
    + cbn [mbind option_bind negb Z.eqb FABRIC_OK].
      destruct (add_no_checks_wf host m key entity Hwf Hkey Hfresh Hroom)
        as (m2 & Hadd & Hwf2 & Hcap2 & Hcount2 & Hbound2).
      rewrite Hadd. cbn [mbind option_bind]. exists m2.
      split; [done|]. split; [done|]. split; [|split; lia].
      intros k p. by rewrite Hbound2, <- Hnew.
  - (* the key is present: its entity is overwritten *)
    destruct (Z.eqb_spec r FABRIC_ENTITYMAP_TOMBSTONE) as [Ht|_];
      [pose proof (wf_small host m Hwf); lia|].
    cbn [negb fmap option_fmap option_map]. rewrite He.
    cbn [mbind option_bind].
    assert (Hk : EntityMapEntry.key e ≠ 0) by congruence.
    destruct (set_present_wf host m (Z.to_nat r) e entity Hwf He Hk)
      as [Hwf' Hbound'].
    eexists. split; [reflexivity|]. split; [exact Hwf'|]. split; [|split].
    + intros k p. rewrite Hbound', Hke. reflexivity.
    + cbn [EntityMap.count]. lia.
    + reflexivity.
Qed.

(** On the cache of a class store the call leaves a well-formed table with
    a free slot, of at most twice the capacity. *)
Lemma ClassCache_set (host : byte_order) (m : EntityMap.t) (key : Z)
    (entity : ptr) :
  ClassCache_wf host m → 0 < key < 2 ^ 16 →
  ∃ m',
    Fabric_EntityMap_set host m key entity = Some (m', FABRIC_OK)
    ∧ EntityMap_wf host m'
    ∧ (∀ k p, EntityMap_bound m' k p
              ↔ (k = key ∧ p = entity) ∨ (k ≠ key ∧ EntityMap_bound m k p))
    ∧ EntityMap.count m' < EntityMap.cap m'
    ∧ EntityMap.cap m' ≤ 2 * EntityMap.cap m.
Proof.
  intros Hcache Hkey. pose proof Hcache as (Hwf & Hload & Hgrown).
  pose proof (ClassCache_has_room host m Hcache) as Hroom.
  pose proof (ClassCache_cap_bounded host m Hcache) as Hbig.
  pose proof (wf_cap host m Hwf) as Hcap.
  pose proof (wf_count host m Hwf) as Hcount.
  destruct (EntityMap_set_any host m key entity Hwf) as
    (m' & Hset & Hwf' & Hbound & Hcount' & Hcap'); [lia | done | done |].
  exists m'. split; [done|]. split; [done|]. split; [done|].
  destruct (Fabric_EntityMap_has_key host m key) as [[]|]; [lia| |].
  all: destruct (load_exceeds_maxload _ _ _) eqn:Htest; [lia|].
  all: assert (EntityMap.cap m = 1 ∧ EntityMap.count m = 0
               ∨ EntityMap.cap m = 2 ∧ EntityMap.count m = 1
               ∨ EntityMap.count m + 1 < EntityMap.cap m)
         as [[Hc Hn]|[[Hc Hn]|?]] by lia;
       [by rewrite Hc, Hn in Htest | by rewrite Hc, Hn in Htest | lia].
Qed.

Lemma EntityMap_wf_check_sound (host : byte_order) (m : EntityMap.t) :
  EntityMap_wf_check host m = true → EntityMap_wf host m.
Proof.
  unfold EntityMap_wf_check. intros H.
  apply andb_prop in H as [H Hreach].
  apply andb_prop in H as [H Hkeys].
  apply andb_prop in H as [H Hcount].
  apply andb_prop in H as [H Hsmall].
  apply andb_prop in H as [Hcap Hlength].
  apply bool_decide_eq_true_1 in Hcap, Hlength, Hsmall, Hcount.
  rewrite forallb_forall in Hkeys. rewrite forallb_forall in Hreach.
  constructor; try done.
  - intros e He. apply list_elem_of_In, Hkeys in He.
    by apply bool_decide_eq_true_1 in He.
  - intros i e He Hk.
    specialize (Hreach (i, e)). cbn [fst snd] in Hreach.
    apply orb_prop in Hreach as [Hz|Hp].
    + by apply bool_decide_eq_true_1 in Hz.
    + by apply bool_decide_eq_true_1 in Hp.
    + apply list_elem_of_In, list_elem_of_lookup. exists i.
      by rewrite list_lookup_imap, He.
Qed.

(** The load test at the loads the tables are grown at: a load of exactly
    3/5 is over the limit, because the [float] nearest to 3/5 is greater
    than the [double] nearest to 0.6. *)
Example load_test_at_three_fifths :
  load_exceeds_maxload FABRIC_ENTITYMAP_MAXLOAD 2 5 = true
  ∧ load_exceeds_maxload FABRIC_ENTITYMAP_MAXLOAD 11 20 = true
  ∧ load_exceeds_maxload FABRIC_IDSET_MAXLOAD 5 10 = true
  ∧ load_exceeds_maxload FABRIC_IDSET_MAXLOAD 19 32 = true
  ∧ load_exceeds_maxload FABRIC_IDSET_MAXLOAD 18 32 = false
  ∧ load_exceeds_maxload FABRIC_ENTITYMAP_MAXLOAD 1 5 = false.
Proof. by vm_compute. Qed.

Lemma small_map_wf (host : byte_order) :
  EntityMap_wf host (small_map host)
  ∧ EntityMap.count (small_map host) = 2 ∧ EntityMap.cap (small_map host) = 5.
Proof.
  split; [|by destruct host; vm_compute].
  apply EntityMap_wf_check_sound. by destruct host; vm_compute.
Qed.

(** * Further properties of the code *)

(** ** EntityMap.c *)

Lemma pos_of_key_loop_zero (m : EntityMap.t) (fuel : nat) :
  ∀ pos : Z,
    EntityMap_pos_of_key_loop fuel m 0 pos = None
    ∨ EntityMap_pos_of_key_loop fuel m 0 pos = Some FABRIC_ENTITYMAP_TOMBSTONE.
Proof.
  induction fuel as [|fuel IH]; intros pos; [by left|].
  cbn [EntityMap_pos_of_key_loop].
  destruct (EntityMap.entries m !! Z.to_nat pos) as [e|]; [|by left].
  cbn [mbind option_bind].
  destruct (EntityMapEntry.key e =? 0) eqn:Hz; [by right|].
  apply IH.
Qed.

Lemma pos_of_key_loop_full (m : EntityMap.t) (key : Z) (fuel : nat) :
  Forall (λ e, EntityMapEntry.key e ≠ 0 ∧ EntityMapEntry.key e ≠ key)
    (EntityMap.entries m) →
  ∀ pos : Z, EntityMap_pos_of_key_loop fuel m key pos = None.
Proof.
  intros Hfull. induction fuel as [|fuel IH]; intros pos; [done|].
  cbn [EntityMap_pos_of_key_loop].
  destruct (EntityMap.entries m !! Z.to_nat pos) as [e|] eqn:He; [|done].
  cbn [mbind option_bind].
  rewrite Forall_forall in Hfull.
  destruct (Hfull e) as [Hz Hk]; [by eapply list_elem_of_lookup_2|].
  apply Z.eqb_neq in Hz, Hk. rewrite Hz, Hk. apply IH.
Qed.

Lemma ClassCache_wf_new (host : byte_order) :
  ClassCache_wf host (fst Fabric_EntityMap_new).
Proof.
  split; [|split; [by vm_compute | left; by vm_compute]].
  apply (fresh_table_wf host 32). by vm_compute.
Qed.

(** X1: [Fabric_EntityMap_new_with_capacity] returns a well-formed table
    of the capacity asked for (of 32 slots when less than one slot is asked
    for) that holds nothing: its count is 0 and every key is looked up
    without result. *)
Theorem EntityMap_new_with_capacity_is_empty (host : byte_order)
    (capacity key : Z) :
  capacity < FABRIC_ENTITYMAP_TOMBSTONE →
  let m := fst (Fabric_EntityMap_new_with_capacity capacity) in
  snd (Fabric_EntityMap_new_with_capacity capacity) = FABRIC_OK
  ∧ EntityMap_wf host m
  ∧ Fabric_EntityMap_get_count m = 0
  ∧ Fabric_EntityMap_get_capacity m
    = (if capacity <? 1 then FABRIC_ENTITYMAP_DEFAULT_CAPACITY else capacity)
  ∧ Fabric_EntityMap_get host m key = Some NULL
  ∧ Fabric_EntityMap_has_key host m key = Some false.
Proof.
  intros Hcap m.
  set (cap := if capacity <? 1 then FABRIC_ENTITYMAP_DEFAULT_CAPACITY
              else capacity).
  assert (Hrange : 0 < cap < FABRIC_ENTITYMAP_TOMBSTONE).
  { subst cap. unfold FABRIC_ENTITYMAP_DEFAULT_CAPACITY,
      FABRIC_ENTITYMAP_TOMBSTONE in *.
    destruct (capacity <? 1) eqn:H1; [lia|]. apply Z.ltb_ge in H1. lia. }
  destruct (fresh_table_wf host cap Hrange) as [Hwf Hnone].
  set (t := EntityMap.mk 0 cap
              (replicate (Z.to_nat cap) (EntityMapEntry.mk 0 NULL))) in *.
  change m with t. clear m.
  assert (Hroom : Z.of_nat (EntityMap_used t) < EntityMap.cap t).
  { rewrite <- (wf_count _ _ Hwf). cbn. lia. }
  destruct (EntityMap_get_unbound host t key Hwf Hroom) as [Hget Hhas].
  { intros p. apply Hnone. }
  split; [reflexivity|]. split; [exact Hwf|]. split; [reflexivity|].
  split; [reflexivity|]. split; [exact Hget | exact Hhas].
Qed.

Lemma EntityMap_new_with_capacity_is_empty_witness :
  EntityMap_wf LittleEndian (fst Fabric_EntityMap_new)
  ∧ Fabric_EntityMap_get LittleEndian (fst Fabric_EntityMap_new) 7 = Some NULL.
Proof.
  pose proof (EntityMap_new_with_capacity_is_empty LittleEndian 0 7) as H.
  destruct H as (_ & Hwf & _ & _ & Hget & _); [by vm_compute|].
  split; [exact Hwf | exact Hget].
Defined.

(** X2: a table answers for a key what was last set for it.  On a
    well-formed table with a free slot and for a key that is a class id,
    [Fabric_EntityMap_set] returns with [FABRIC_OK] and leaves a
    well-formed table (also when it had to grow); afterwards
    [Fabric_EntityMap_get] returns the entity set and
    [Fabric_EntityMap_has_key] is true. *)
Theorem EntityMap_get_after_set (host : byte_order) (m : EntityMap.t)
    (key : Z) (entity : ptr) :
  EntityMap_wf host m →
  Fabric_EntityMap_get_count m < Fabric_EntityMap_get_capacity m →
  2 * Fabric_EntityMap_get_capacity m < FABRIC_ENTITYMAP_TOMBSTONE →
  0 < key < 2 ^ 16 →
  ∃ m',
    Fabric_EntityMap_set host m key entity = Some (m', FABRIC_OK)
    ∧ EntityMap_wf host m'
    ∧ Fabric_EntityMap_get host m' key = Some entity
    ∧ Fabric_EntityMap_has_key host m' key = Some true.
Proof.
  intros Hwf Hroom Hbig Hkey.
  destruct (EntityMap_set_any host m key entity Hwf Hroom Hbig Hkey)
    as (m' & Hset & Hwf' & Hbound & _).
  exists m'. split; [exact Hset|]. split; [exact Hwf'|].
  apply EntityMap_get_bound; [apply Hwf'|].
  apply Hbound. by left.
Qed.

Lemma EntityMap_get_after_set_witness :
  ∃ m',
    Fabric_EntityMap_set BigEndian (small_map BigEndian) 3 7%nat
    = Some (m', FABRIC_OK)
    ∧ Fabric_EntityMap_get_capacity m' = 10
    ∧ Fabric_EntityMap_get BigEndian m' 3 = Some 7%nat.
Proof.
  destruct (EntityMap_get_after_set BigEndian (small_map BigEndian) 3 7%nat)
    as (m' & Hset & _ & Hget & _).
  - apply small_map_wf.
  - by vm_compute.
  - by vm_compute.
  - lia.
  - exists m'. split; [exact Hset|]. split; [|exact Hget].
    assert (Fabric_EntityMap_get_capacity ∘ fst
              <$> Fabric_EntityMap_set BigEndian (small_map BigEndian) 3 7%nat
            = Some 10) as Hcap by (by vm_compute).
    rewrite Hset in Hcap. by injection Hcap.
Defined.

(** X3: setting a key leaves every other key as it was.  On a well-formed
    table with two free slots, whatever [Fabric_EntityMap_get] and
    [Fabric_EntityMap_has_key] answered for another key before the call,
    they answer after it (also when the table has grown and every entry
    has moved). *)
Theorem EntityMap_set_keeps_other_keys (host : byte_order) (m : EntityMap.t)
    (key : Z) (entity : ptr) (other : Z) :
  EntityMap_wf host m →
  Fabric_EntityMap_get_count m + 1 < Fabric_EntityMap_get_capacity m →
  2 * Fabric_EntityMap_get_capacity m < FABRIC_ENTITYMAP_TOMBSTONE →
  0 < key < 2 ^ 16 → other ≠ key →
  ∃ m',
    Fabric_EntityMap_set host m key entity = Some (m', FABRIC_OK)
    ∧ Fabric_EntityMap_get host m' other = Fabric_EntityMap_get host m other
    ∧ Fabric_EntityMap_has_key host m' other
      = Fabric_EntityMap_has_key host m other.
Proof.
  unfold Fabric_EntityMap_get_count, Fabric_EntityMap_get_capacity.
  intros Hm Hfree Hbig Hkey Hother.
  destruct (EntityMap_set_any host m key entity Hm)
    as (m' & Hset & Hm' & Hbound & Hcount & Hcap); [lia | done | done |].
  exists m'. split; [exact Hset|].
  assert (Hroom : Z.of_nat (EntityMap_used m) < EntityMap.cap m)
    by (rewrite <- (wf_count host m Hm); lia).
  assert (Hroom' : Z.of_nat (EntityMap_used m') < EntityMap.cap m').
  { rewrite <- (wf_count host m' Hm'), Hcount, Hcap.
    destruct (Fabric_EntityMap_has_key host m key) as [[]|];
      [lia| |]; destruct (load_exceeds_maxload _ _ _); lia. }
  destruct (pos_of_key_total host m other Hm Hroom) as [r Hr].
  destruct (pos_of_key_found host m other r Hm Hr)
    as [->|(Hrange & Hnz & e & He & Hek)].
  - pose proof (pos_of_key_tombstone_unbound host m other Hm Hr) as Hnone.
    destruct (EntityMap_get_unbound host m other Hm Hroom Hnone) as [-> ->].
    apply (EntityMap_get_unbound host m' other Hm' Hroom').
    intros p Hp. apply Hbound in Hp as [[-> _]|[_ Hp]]; [done|].
    by apply (Hnone p).
  - assert (Hb : EntityMap_bound m other (EntityMapEntry.entity e)).
    { split; [done|]. apply list_elem_of_lookup. exists (Z.to_nat r).
      rewrite He. f_equal. destruct e as [k p]. cbn in *. by subst. }
    destruct (EntityMap_get_bound host m other _ Hm Hb) as [-> ->].
    apply (EntityMap_get_bound host m' other _ Hm').
    apply Hbound. right. by split.
Qed.

Lemma EntityMap_set_keeps_other_keys_witness :
  ∃ m',
    Fabric_EntityMap_set LittleEndian (small_map LittleEndian) 3 7%nat
    = Some (m', FABRIC_OK)
    ∧ Fabric_EntityMap_get_capacity m' = 10
    ∧ Fabric_EntityMap_get LittleEndian m' 1 = Some 1%nat
    ∧ Fabric_EntityMap_get LittleEndian m' 2 = Some 2%nat
    ∧ Fabric_EntityMap_has_key LittleEndian m' 4 = Some false.
Proof.
  destruct (EntityMap_set_keeps_other_keys LittleEndian
              (small_map LittleEndian) 3 7%nat 1)
    as (m' & Hset & Hget1 & _);
    [apply small_map_wf | by vm_compute | by vm_compute | lia | lia |].
  destruct (EntityMap_set_keeps_other_keys LittleEndian
              (small_map LittleEndian) 3 7%nat 2)
    as (m2 & Hset2 & Hget2 & _);
    [apply small_map_wf | by vm_compute | by vm_compute | lia | lia |].
  destruct (EntityMap_set_keeps_other_keys LittleEndian
              (small_map LittleEndian) 3 7%nat 4)
    as (m4 & Hset4 & _ & Hhas4);
    [apply small_map_wf | by vm_compute | by vm_compute | lia | lia |].
  rewrite Hset in Hset2, Hset4.
  injection Hset2 as <-. injection Hset4 as <-.
  exists m'. split; [exact Hset|]. split; [|split; [|split]].
  - assert (Fabric_EntityMap_get_capacity ∘ fst
              <$> Fabric_EntityMap_set LittleEndian (small_map LittleEndian)
                    3 7%nat
            = Some 10) as Hcap by (by vm_compute).
    rewrite Hset in Hcap. by injection Hcap.
  - rewrite Hget1. by vm_compute.
  - rewrite Hget2. by vm_compute.
  - rewrite Hhas4. by vm_compute.
Defined.

(** X4: [Fabric_EntityMap_set] counts keys, not calls.  On a well-formed
    table with a free slot the count grows by one when the key is new and
    stays when the key is overwritten; the capacity stays when the key is
    overwritten and otherwise doubles exactly when the load test on the
    count before the call says so. *)
Theorem EntityMap_set_count (host : byte_order) (m : EntityMap.t)
    (key : Z) (entity : ptr) :
  EntityMap_wf host m →
  Fabric_EntityMap_get_count m < Fabric_EntityMap_get_capacity m →
  2 * Fabric_EntityMap_get_capacity m < FABRIC_ENTITYMAP_TOMBSTONE →
  0 < key < 2 ^ 16 →
  ∃ m',
    Fabric_EntityMap_set host m key entity = Some (m', FABRIC_OK)
    ∧ Fabric_EntityMap_get_count m'
      = Fabric_EntityMap_get_count m
        + (if Fabric_EntityMap_has_key host m key is Some true then 0 else 1)
    ∧ Fabric_EntityMap_get_capacity m'
      = (if Fabric_EntityMap_has_key host m key is Some true
         then Fabric_EntityMap_get_capacity m
         else if load_exceeds_maxload FABRIC_ENTITYMAP_MAXLOAD
                   (Fabric_EntityMap_get_count m)
                   (Fabric_EntityMap_get_capacity m)
              then Fabric_EntityMap_get_capacity m * 2
              else Fabric_EntityMap_get_capacity m).
Proof.
  intros Hwf Hroom Hbig Hkey.
  destruct (EntityMap_set_any host m key entity Hwf Hroom Hbig Hkey)
    as (m' & Hset & _ & _ & Hcount & Hcap).
  exists m'. split; [exact Hset|]. split; [exact Hcount | exact Hcap].
Qed.

Lemma EntityMap_set_count_witness :
  ∃ m' m'',
    Fabric_EntityMap_set LittleEndian (small_map LittleEndian) 3 7%nat
    = Some (m', FABRIC_OK)
    ∧ Fabric_EntityMap_get_count m' = 3
    ∧ Fabric_EntityMap_get_capacity m' = 10
    ∧ Fabric_EntityMap_set LittleEndian (small_map LittleEndian) 2 7%nat
      = Some (m'', FABRIC_OK)
    ∧ Fabric_EntityMap_get_count m'' = 2
    ∧ Fabric_EntityMap_get_capacity m'' = 5.
Proof.
  destruct (EntityMap_set_count LittleEndian (small_map LittleEndian) 3 7%nat)
    as (m' & Hset & Hcount & Hcap);
    [apply small_map_wf | by vm_compute | by vm_compute | lia |].
  destruct (EntityMap_set_count LittleEndian (small_map LittleEndian) 2 7%nat)
    as (m'' & Hset' & Hcount' & Hcap');
    [apply small_map_wf | by vm_compute | by vm_compute | lia |].
  exists m', m''.
  split; [exact Hset|]. split; [rewrite Hcount; by vm_compute|].
  split; [rewrite Hcap; by vm_compute|].
  split; [exact Hset'|]. split; [rewrite Hcount'; by vm_compute|].
  rewrite Hcap'. by vm_compute.
Defined.

(** X5: key 0 is the mark of an empty slot, so it is never found: on every
    table, whatever has been stored, a lookup of key 0 that returns reports
    "not there" ([Fabric_EntityMap_has_key] false, [Fabric_EntityMap_get]
    NULL).  An entity set under key 0 cannot be read back. *)
Theorem EntityMap_key_zero_is_never_found (host : byte_order)
    (m : EntityMap.t) :
  (Fabric_EntityMap_has_key host m 0 = None
   ∨ Fabric_EntityMap_has_key host m 0 = Some false)
  ∧ (Fabric_EntityMap_get host m 0 = None
     ∨ Fabric_EntityMap_get host m 0 = Some NULL).
Proof.
  unfold Fabric_EntityMap_has_key, Fabric_EntityMap_get,
    Fabric_EntityMap__pos_of_key.
  destruct (EntityMap.cap m <=? 0); [by split; left|].
  destruct (pos_of_key_loop_zero m (Z.to_nat (EntityMap.cap m))
              (hash_uint32 host 0 mod EntityMap.cap m)) as [-> | ->].
  - by split; left.
  - by split; right.
Qed.

(** X6: a table without an empty slot cannot be searched for a key it does
    not hold: the probe of [Fabric_EntityMap__pos_of_key] only stops at an
    empty slot or at the key, so every operation that starts with it (get,
    has_key, set, unset) never returns.  Slots that
    [Fabric_EntityMap_unset] has marked count as not empty. *)
Theorem EntityMap_full_table_never_returns (host : byte_order)
    (m : EntityMap.t) (key : Z) (entity : ptr) :
  Forall (λ e, EntityMapEntry.key e ≠ 0 ∧ EntityMapEntry.key e ≠ key)
    (EntityMap.entries m) →
  Fabric_EntityMap_get host m key = None
  ∧ Fabric_EntityMap_has_key host m key = None
  ∧ Fabric_EntityMap_set host m key entity = None
  ∧ Fabric_EntityMap_unset host m key = None.
Proof.
  intros Hfull.
  assert (Hpos : Fabric_EntityMap__pos_of_key host m key = None).
  { unfold Fabric_EntityMap__pos_of_key.
    destruct (EntityMap.cap m <=? 0); [done|].
    by apply pos_of_key_loop_full. }
  unfold Fabric_EntityMap_get, Fabric_EntityMap_has_key, Fabric_EntityMap_set,
    Fabric_EntityMap_unset.
  by rewrite Hpos.
Qed.

Lemma EntityMap_full_table_never_returns_witness :
  ∃ m : EntityMap.t,
    worn_out_map = Some m
    ∧ Fabric_EntityMap_get_count m = 0
    ∧ Fabric_EntityMap_get BigEndian m 60 = None
    ∧ Fabric_EntityMap_set BigEndian m 60 1%nat = None.
Proof.
  eexists. split; [vm_compute; reflexivity|].
  split; [reflexivity|].
  refine (let H := EntityMap_full_table_never_returns BigEndian _ 60 1%nat _ in
          conj (proj1 H) (proj1 (proj2 (proj2 H)))).
  repeat (constructor; [split; discriminate|]). constructor.
Defined.

(** ** IdSet.c *)

Lemma IdSet_has_loop_zero (s : IdSet.t) (fuel : nat) :
  ∀ pos : Z,
    IdSet_has_loop fuel s 0 pos = None
    ∨ IdSet_has_loop fuel s 0 pos = Some false.
Proof.
  induction fuel as [|fuel IH]; intros pos; [by left|].
  cbn [IdSet_has_loop].
  destruct (IdSet.ids s !! Z.to_nat pos) as [x|]; [|by left].
  cbn [mbind option_bind].
  destruct (x =? 0) eqn:Hz; [by right|]. apply IH.
Qed.

Lemma IdSet_loops_full (s : IdSet.t) (id : Z) (fuel : nat) :
  Forall (λ x, x ≠ 0 ∧ x ≠ id) (IdSet.ids s) →
  ∀ pos : Z,
    IdSet_has_loop fuel s id pos = None
    ∧ IdSet_remove_loop fuel s id pos = None.
Proof.
  intros Hfull. induction fuel as [|fuel IH]; intros pos; [done|].
  cbn [IdSet_has_loop IdSet_remove_loop].
  destruct (IdSet.ids s !! Z.to_nat pos) as [x|] eqn:Hx; [|done].
  cbn [mbind option_bind].
  rewrite Forall_forall in Hfull.
  destruct (Hfull x) as [Hz Hk]; [by eapply list_elem_of_lookup_2|].
  apply Z.eqb_neq in Hz, Hk. rewrite Hz, Hk. apply IH.
Qed.

Lemma filter_insert_length {A : Type} (P : A → Prop) `{!∀ x, Decision (P x)}
    (l : list A) (i : nat) (old new : A) :
  l !! i = Some old →
  (length (filter P (<[i := new]> l)) + (if decide (P old) then 1 else 0)
   = length (filter P l) + (if decide (P new) then 1 else 0))%nat.
Proof.
  revert i. induction l as [|a l IH]; intros i Hi; [done|].
  destruct i as [|i]; cbn in Hi.
  - injection Hi as ->.
    change (<[0%nat := new]> (old :: l)) with (new :: l).
    rewrite !filter_cons.
    destruct (decide (P old)), (decide (P new)); cbn [length]; lia.
  - change (<[S i := new]> (a :: l)) with (a :: <[i := new]> l).
    rewrite !filter_cons. specialize (IH i Hi).
    destruct (decide (P a)); cbn [length]; lia.
Qed.

Lemma IdSet_skip_unused_spec (table : list Z) :
  match IdSet_skip_unused table with
  | [] => filter (λ x, x ≠ 0 ∧ x ≠ FABRIC_IDSET_TOMBSTONE) table = []
  | x :: rest =>
      filter (λ x, x ≠ 0 ∧ x ≠ FABRIC_IDSET_TOMBSTONE) table
      = x :: filter (λ x, x ≠ 0 ∧ x ≠ FABRIC_IDSET_TOMBSTONE) rest
  end.
Proof.
  induction table as [|x table IH]; [done|].
  cbn [IdSet_skip_unused]. rewrite filter_cons.
  destruct (decide (x ≠ 0 ∧ x ≠ FABRIC_IDSET_TOMBSTONE)) as [[Hz Ht]|Hn].
  - apply Z.eqb_neq in Hz, Ht. by rewrite Hz, Ht.
  - destruct (x =? 0) eqn:Hz; [exact IH|].
    destruct (x =? FABRIC_IDSET_TOMBSTONE) eqn:Ht; [exact IH|].
    apply Z.eqb_neq in Hz, Ht. by destruct Hn.
Qed.

Lemma IdSet_to_array_loop_spec (arr_l : nat) :
  ∀ table : list Z,
    let live := filter (λ x, x ≠ 0 ∧ x ≠ FABRIC_IDSET_TOMBSTONE) table in
    IdSet_to_array_loop arr_l table
    = if decide (arr_l ≤ length live)%nat then Some (take arr_l live)
      else None.
Proof.
  induction arr_l as [|n IH]; intros table; cbn zeta.
  - cbn [IdSet_to_array_loop]. rewrite decide_True by lia. done.
  - cbn [IdSet_to_array_loop].
    pose proof (IdSet_skip_unused_spec table) as Hskip.
    destruct (IdSet_skip_unused table) as [|x rest].
    + rewrite Hskip. cbn [length]. rewrite decide_False by lia. done.
    + rewrite Hskip, IH. cbn zeta. cbn [length].
      destruct (decide (n ≤ _)%nat).
      * rewrite decide_True by lia. done.
      * rewrite decide_False by lia. done.
Qed.


Lemma IdSet_free_slot_loop_inv (s : IdSet.t) (fuel : nat) :
  ∀ pos r : Z,
    IdSet_free_slot_loop fuel s pos = Some r →
    ∃ x, IdSet.ids s !! Z.to_nat r = Some x
         ∧ (x = 0 ∨ x = FABRIC_IDSET_TOMBSTONE).
Proof.
  induction fuel as [|fuel IH]; intros pos r; [done|].
  cbn [IdSet_free_slot_loop].
  destruct (IdSet.ids s !! Z.to_nat pos) as [x|] eqn:Hx; [|done].
  cbn [mbind option_bind].
  destruct (x =? 0) eqn:Hz; cbn [negb andb].
  - intros [= <-]. exists x. split; [done|]. left. by apply Z.eqb_eq.
  - destruct (x =? FABRIC_IDSET_TOMBSTONE) eqn:Ht; cbn [negb].
    + intros [= <-]. exists x. split; [done|]. right. by apply Z.eqb_eq.
    + apply IH.
Qed.

Lemma IdSet_add_no_checks_live (host : byte_order) (s s' : IdSet.t) (id : Z) :
  Fabric_IdSet__add_no_checks host s id = Some s' →
  IdSet.count s' = IdSet.count s + 1
  ∧ IdSet.cap s' = IdSet.cap s
  ∧ Z.of_nat (length (IdSet_live s'))
    = Z.of_nat (length (IdSet_live s))
      + (if decide (id ≠ 0 ∧ id ≠ FABRIC_IDSET_TOMBSTONE) then 1 else 0).
Proof.
  unfold Fabric_IdSet__add_no_checks.
  destruct (IdSet.cap s <=? 0); [done|].
  destruct (IdSet_free_slot_loop _ s _) as [r|] eqn:Hr; [|done].
  cbn [mbind option_bind]. intros [= <-]. cbn.
  split; [done|]. split; [done|].
  destruct (IdSet_free_slot_loop_inv _ _ _ _ Hr) as (x & Hx & Hfree).
  unfold IdSet_live. cbn.
  pose proof (filter_insert_length
                (λ x, x ≠ 0 ∧ x ≠ FABRIC_IDSET_TOMBSTONE)
                (IdSet.ids s) (Z.to_nat r) x id Hx) as Hlen.
  rewrite (decide_False (P := x ≠ 0 ∧ x ≠ FABRIC_IDSET_TOMBSTONE)) in Hlen
    by (intros [? ?]; destruct Hfree; done).
  destruct (decide (id ≠ 0 ∧ id ≠ FABRIC_IDSET_TOMBSTONE)); lia.
Qed.

Lemma IdSet_resize_loop_counted (host : byte_order) (old_data : list Z) :
  ∀ t t' : IdSet.t,
    IdSet_resize_loop host old_data t = Some t' →
    IdSet_counted t → IdSet_counted t'.
Proof.
  induction old_data as [|x rest IH]; intros t t'; cbn [IdSet_resize_loop].
  - by intros [= <-].
  - destruct (x =? 0) eqn:Hz; cbn [negb andb]; [apply IH|].
    destruct (x =? FABRIC_IDSET_TOMBSTONE) eqn:Ht; cbn [negb]; [apply IH|].
    destruct (Fabric_IdSet__add_no_checks host t x) as [t1|] eqn:Hadd; [|done].
    cbn [mbind option_bind]. intros Hloop Hc.
    apply (IH t1 t' Hloop).
    destruct (IdSet_add_no_checks_live host t t1 x Hadd) as (Hn & _ & Hl).
    apply Z.eqb_neq in Hz, Ht.
    rewrite decide_True in Hl by done.
    unfold IdSet_counted in *. lia.
Qed.

Lemma IdSet_resize_counted (host : byte_order) (s s' : IdSet.t) (new_cap : Z)
    (st : error_t) :
  Fabric_IdSet__resize host s new_cap = Some (s', st) → IdSet_counted s'.
Proof.
  unfold Fabric_IdSet__resize.
  destruct (IdSet_resize_loop host _ _) as [t'|] eqn:Hloop; [|done].
  cbn [mbind option_bind]. intros [= <- _].
  apply (IdSet_resize_loop_counted host _ _ _ Hloop).
  unfold IdSet_counted, IdSet_live. cbn. clear Hloop.
  induction (Z.to_nat new_cap) as [|n IHn]; [done|].
  cbn [replicate]. rewrite filter_cons.
  destruct (decide _) as [[Hne _]|_]; [done | exact IHn].
Qed.

(** What [Fabric_IdSet_add] leaves when it has not found the id: the table,
    grown or not, with the id put in. *)
Lemma IdSet_add_inv (host : byte_order) (s s' : IdSet.t) (id : Z)
    (st : error_t) :
  Fabric_IdSet_add host s id = Some (s', st) →
  st = FABRIC_OK
  ∧ ((Fabric_IdSet_has host s id = Some true ∧ s' = s)
     ∨ (Fabric_IdSet_has host s id = Some false
        ∧ ∃ s1, (s1 = s ∨ ∃ st1, Fabric_IdSet__resize host s (IdSet.cap s * 2)
                                  = Some (s1, st1))
                ∧ Fabric_IdSet__add_no_checks host s1 id = Some s')).
Proof.
  unfold Fabric_IdSet_add.
  destruct (Fabric_IdSet_has host s id) as [[|]|]; cbn [mbind option_bind];
    [by intros [= <- <-]; split; [|left]| |done].
  destruct (load_exceeds_maxload _ _ _).
  - destruct (Fabric_IdSet__resize host s _) as [[s1 st1]|] eqn:Hres; [|done].
    cbn [mbind option_bind].
    assert (st1 = FABRIC_OK) as ->.
    { unfold Fabric_IdSet__resize in Hres.
      destruct (IdSet_resize_loop _ _ _); [|done].
      cbn in Hres. by injection Hres as _ <-. }
    cbn [Z.eqb FABRIC_OK negb].
    destruct (Fabric_IdSet__add_no_checks host s1 id) as [s2|] eqn:Hadd;
      [|done].
    cbn [mbind option_bind]. intros [= <- <-].
    split; [done|]. right. split; [done|].
    exists s1. split; [right; by exists FABRIC_OK | done].
  - cbn [mbind option_bind Z.eqb FABRIC_OK negb].
    destruct (Fabric_IdSet__add_no_checks host s id) as [s2|] eqn:Hadd;
      [|done].
    cbn [mbind option_bind]. intros [= <- <-].
    split; [done|]. right. split; [done|].
    exists s. split; [by left | done].
Qed.

(** X8: [count] keeps counting the ids held.  When it equals the number of
    ids in the table, it still does after [Fabric_IdSet_add] and after
    [Fabric_IdSet_remove] of a proper id (not 0, the mark of an empty slot,
    and not the mark of a removed one), whether or not the table had to
    grow. *)
Theorem IdSet_add_remove_keep_count (host : byte_order) (s : IdSet.t)
    (id : Z) :
  IdSet_counted s → id ≠ 0 → id ≠ FABRIC_IDSET_TOMBSTONE →
  (∀ s' st, Fabric_IdSet_add host s id = Some (s', st) → IdSet_counted s')
  ∧ (∀ s', Fabric_IdSet_remove host s id = Some s' → IdSet_counted s').
Proof.
  intros Hc Hz Ht. split.
  - intros s' st Hadd.
    destruct (IdSet_add_inv host s s' id st Hadd)
      as (_ & [[_ ->]|(_ & s1 & Hs1 & Hput)]); [done|].
    assert (Hc1 : IdSet_counted s1).
    { destruct Hs1 as [->|[st1 Hres]]; [done|].
      by eapply IdSet_resize_counted. }
    destruct (IdSet_add_no_checks_live host s1 s' id Hput) as (Hn & _ & Hl).
    rewrite decide_True in Hl by done.
    unfold IdSet_counted in *. lia.
  - intros s' Hrem. unfold Fabric_IdSet_remove in Hrem.
    destruct (IdSet.cap s <=? 0); [done|].
    destruct (IdSet_remove_loop_inv _ _ _ _ _ Hrem)
      as [->|(_ & _ & p & Hp & ->)]; [done|].
    unfold IdSet_counted, IdSet_live in *. cbn.
    pose proof (filter_insert_length
                  (λ x, x ≠ 0 ∧ x ≠ FABRIC_IDSET_TOMBSTONE)
                  (IdSet.ids s) p id FABRIC_IDSET_TOMBSTONE Hp) as Hlen.
    rewrite decide_True in Hlen by done.
    rewrite (decide_False (P := FABRIC_IDSET_TOMBSTONE ≠ 0 ∧ _)) in Hlen
      by (by intros [_ ?]).
    lia.
Qed.

Lemma IdSet_add_remove_keep_count_witness :
  IdSet_counted (small_set LittleEndian)
  ∧ Fabric_IdSet_get_capacity (small_set LittleEndian) = 5
  ∧ ∃ s', Fabric_IdSet_add LittleEndian (small_set LittleEndian) 3
          = Some (s', FABRIC_OK)
          ∧ Fabric_IdSet_get_capacity s' = 10
          ∧ IdSet_counted s'.
Proof.
  split; [reflexivity|]. split; [reflexivity|].
  eexists. split; [vm_compute; reflexivity|]. split; [reflexivity|].
  eapply (proj1 (IdSet_add_remove_keep_count LittleEndian
                   (small_set LittleEndian) 3 eq_refl ltac:(lia) ltac:(done))).
  vm_compute. reflexivity.
Defined.

(** X9: id 0 cannot be a member.  [Fabric_IdSet_has] never finds it, so
    [Fabric_IdSet_add] of 0 always counts one id more and holds none more:
    on a set whose count was right, [Fabric_IdSet_to_array] then scans for
    an id that is not there and reads outside the table. *)
Theorem IdSet_add_zero_breaks_to_array (host : byte_order) (s s' : IdSet.t)
    (st : error_t) :
  IdSet_counted s →
  Fabric_IdSet_add host s 0 = Some (s', st) →
  (Fabric_IdSet_has host s' 0 = None ∨ Fabric_IdSet_has host s' 0 = Some false)
  ∧ Fabric_IdSet_get_count s' = Z.of_nat (length (IdSet_live s')) + 1
  ∧ Fabric_IdSet_to_array s' = None.
Proof.
  intros Hc Hadd.
  assert (Hzero : ∀ t, Fabric_IdSet_has host t 0 = None
                       ∨ Fabric_IdSet_has host t 0 = Some false).
  { intros t. unfold Fabric_IdSet_has.
    destruct (IdSet.cap t <=? 0); [by left|]. apply IdSet_has_loop_zero. }
  split; [apply Hzero|].
  destruct (IdSet_add_inv host s s' 0 st Hadd)
    as (_ & [[Hhas _]|(_ & s1 & Hs1 & Hput)]).
  { destruct (Hzero s) as [H|H]; rewrite H in Hhas; done. }
  assert (Hc1 : IdSet_counted s1).
  { destruct Hs1 as [->|[st1 Hres]]; [done|].
    by eapply IdSet_resize_counted. }
  destruct (IdSet_add_no_checks_live host s1 s' 0 Hput) as (Hn & _ & Hl).
  rewrite decide_False in Hl by (by intros [? _]).
  assert (Hcount : Fabric_IdSet_get_count s'
                   = Z.of_nat (length (IdSet_live s')) + 1).
  { unfold Fabric_IdSet_get_count, IdSet_counted in *. lia. }
  split; [exact Hcount|].
  unfold Fabric_IdSet_to_array. rewrite IdSet_to_array_loop_spec. cbn zeta.
  fold (IdSet_live s'). unfold Fabric_IdSet_get_count in Hcount.
  rewrite decide_False by lia. done.
Qed.

Lemma IdSet_add_zero_breaks_to_array_witness :
  ∃ s',
    Fabric_IdSet_add LittleEndian (fst Fabric_IdSet_new) 0
    = Some (s', FABRIC_OK)
    ∧ Fabric_IdSet_get_count s' = 1
    ∧ Fabric_IdSet_to_array s' = None.
Proof.
  eexists. split; [vm_compute; reflexivity|].
  split; [reflexivity|].
  refine (proj2 (proj2 (IdSet_add_zero_breaks_to_array LittleEndian
                          (fst Fabric_IdSet_new) _ FABRIC_OK eq_refl _))).
  vm_compute. reflexivity.
Defined.

(** X10: a set without an empty slot cannot be asked for an id it does not
    hold: the probes of [Fabric_IdSet_has] and [Fabric_IdSet_remove] only
    stop at an empty slot or at the id, and [Fabric_IdSet_add] asks
    [Fabric_IdSet_has] first, so none of the three returns.  A removal
    leaves its slot marked, not empty, and the count that decides on growing
    does not count marked slots: adding and removing ids wears the table
    out. *)
Theorem IdSet_full_table_never_returns (host : byte_order) (s : IdSet.t)
    (id : Z) :
  Forall (λ x, x ≠ 0 ∧ x ≠ id) (IdSet.ids s) →
  Fabric_IdSet_has host s id = None
  ∧ Fabric_IdSet_add host s id = None
  ∧ Fabric_IdSet_remove host s id = None.
Proof.
  intros Hfull.
  assert (Hhas : Fabric_IdSet_has host s id = None).
  { unfold Fabric_IdSet_has. destruct (IdSet.cap s <=? 0); [done|].
    by apply IdSet_loops_full. }
  split; [exact Hhas|]. split.
  - unfold Fabric_IdSet_add. by rewrite Hhas.
  - unfold Fabric_IdSet_remove. destruct (IdSet.cap s <=? 0); [done|].
    by apply IdSet_loops_full.
Qed.

Lemma IdSet_full_table_never_returns_witness :
  ∃ s : IdSet.t,
    worn_out_set = Some s
    ∧ Fabric_IdSet_get_count s = 0
    ∧ Fabric_IdSet_get_capacity s = 32
    ∧ Fabric_IdSet_add BigEndian s 60 = None.
Proof.
  eexists. split; [vm_compute; reflexivity|].
  split; [reflexivity|]. split; [reflexivity|].
  refine (proj1 (proj2 (IdSet_full_table_never_returns BigEndian _ 60 _))).
  repeat (constructor; [split; discriminate|]). constructor.
Defined.

Lemma IdSet_remove_loop_count (fuel : nat) (s s' : IdSet.t) (x : Z) :
  ∀ pos : Z,
    IdSet_remove_loop fuel s x pos = Some s' →
    IdSet.count s'
    = IdSet.count s
      - (if IdSet_has_loop fuel s x pos is Some true then 1 else 0).
Proof.
  induction fuel as [|fuel IH]; intros pos; [done|].
  cbn [IdSet_remove_loop IdSet_has_loop].
  destruct (IdSet.ids s !! Z.to_nat pos) as [y|]; [|done].
  cbn [mbind option_bind].
  destruct (y =? 0); [intros [= <-]; lia|].
  destruct (y =? x); [intros [= <-]; cbn; lia|].
  apply IH.
Qed.

(** X11: [Fabric_IdSet_remove] takes out at most the id asked for.  The
    capacity stays, the count drops by one exactly when the id was found,
    no id is found afterwards that was not found before, and every other id
    is found, or not, as before. *)
Theorem IdSet_remove_spec (host : byte_order) (s s' : IdSet.t) (x id : Z) :
  Fabric_IdSet_remove host s x = Some s' →
  id ≠ FABRIC_IDSET_TOMBSTONE →
  Fabric_IdSet_get_capacity s' = Fabric_IdSet_get_capacity s
  ∧ Fabric_IdSet_get_count s'
    = Fabric_IdSet_get_count s
      - (if Fabric_IdSet_has host s x is Some true then 1 else 0)
  ∧ (Fabric_IdSet_has host s' id = Some true →
     Fabric_IdSet_has host s id = Some true)
  ∧ (id ≠ x → Fabric_IdSet_has host s' id = Fabric_IdSet_has host s id).
Proof.
  intros Hrem Hid.
  destruct (IdSet_has_after_remove host s s' x id Hrem Hid) as (Hcap & H1 & H2).
  split; [exact Hcap|]. split; [|split; [exact H1 | exact H2]].
  unfold Fabric_IdSet_remove, Fabric_IdSet_has, Fabric_IdSet_get_count in *.
  destruct (IdSet.cap s <=? 0); [done|].
  by apply IdSet_remove_loop_count.
Qed.

Lemma IdSet_remove_spec_witness :
  ∃ s s',
    Fabric_IdSet_add LittleEndian (fst Fabric_IdSet_new) 7
    = Some (s, FABRIC_OK)
    ∧ Fabric_IdSet_remove LittleEndian s 7 = Some s'
    ∧ Fabric_IdSet_get_count s' = 0
    ∧ Fabric_IdSet_has LittleEndian s' 8 = Fabric_IdSet_has LittleEndian s 8.
Proof.
  eexists. eexists. split; [vm_compute; reflexivity|].
  split; [vm_compute; reflexivity|].
  match goal with
  | |- context [Fabric_IdSet_has _ ?s' 8 = Fabric_IdSet_has _ ?s 8] =>
      pose proof (IdSet_remove_spec LittleEndian s s' 7 8) as H
  end.
  destruct H as (_ & Hc & _ & Hh);
    [vm_compute; reflexivity | vm_compute; discriminate |].
  split; [exact Hc | apply Hh; lia].
Defined.

(** ** Graph.c *)

Lemma uint8_idemp (b : Z) : uint8 (uint8 b) = uint8 b.
Proof. unfold uint8. apply Z.mod_mod. lia. Qed.

(** The bytes outside the range written survive a run of [fputc]. *)
Lemma fputc_run_other (bytes : list Z) (f : FILE.t) (j : nat) :
  0 ≤ FILE.position f →
  (j < Z.to_nat (FILE.position f)
   ∨ Z.to_nat (FILE.position f) + length bytes ≤ j)%nat →
  (j < length (FILE.contents f))%nat →
  FILE.contents (foldl (λ file byte, fputc byte file) f bytes) !! j
  = FILE.contents f !! j.
Proof.
  revert f. induction bytes as [|b bytes IH]; intros f Hpos Hj Hlen; [done|].
  cbn [foldl]. cbn [length] in Hj. rewrite IH.
  - apply fputc_lookup_other; [lia | done].
  - rewrite fputc_position. lia.
  - rewrite fputc_position. lia.
  - pose proof (fputc_length b f). lia.
Qed.

Lemma fputc_run_length (bytes : list Z) (f : FILE.t) :
  0 ≤ FILE.position f →
  length (FILE.contents (foldl (λ file byte, fputc byte file) f bytes))
  = match bytes with
    | [] => length (FILE.contents f)
    | _ => (length (FILE.contents f)
            `max` (Z.to_nat (FILE.position f) + length bytes))%nat
    end.
Proof.
  revert f. induction bytes as [|b bytes IH]; intros f Hpos; [done|].
  cbn [foldl]. rewrite IH by (rewrite fputc_position; lia).
  assert (Hone : length (FILE.contents (fputc b f))
                 = (length (FILE.contents f)
                    `max` S (Z.to_nat (FILE.position f)))%nat).
  { unfold fputc. cbn [FILE.contents].
    rewrite length_insert, length_app, length_replicate. lia. }
  rewrite fputc_position. destruct bytes as [|b' bytes]; cbn [length] in *; lia.
Qed.

(** X12: [Fabric_Graph_write_bytes] touches the bytes it is asked to write
    and no others.  The file becomes longer only to take in the end of the
    range written, and every byte it had outside that range reads as
    before. *)
Theorem Graph_write_bytes_frame (self : Graph.t) (bytes : list Z)
    (offset : Z) :
  0 ≤ offset →
  let written :=
    Fabric_Graph_write_bytes self bytes (Z.of_nat (length bytes)) offset in
  length (FILE.contents (Graph.graph_file written))
  = match bytes with
    | [] => length (FILE.contents (Graph.graph_file self))
    | _ => (length (FILE.contents (Graph.graph_file self))
            `max` (Z.to_nat offset + length bytes))%nat
    end
  ∧ ∀ j : nat,
      (j < length (FILE.contents (Graph.graph_file self)))%nat →
      (j < Z.to_nat offset ∨ Z.to_nat offset + length bytes ≤ j)%nat →
      FILE.contents (Graph.graph_file written) !! j
      = FILE.contents (Graph.graph_file self) !! j.
Proof.
  intros Hoff. cbn zeta. unfold Fabric_Graph_write_bytes.
  rewrite Nat2Z.id, firstn_all.
  destruct (Z.eqb_spec offset (-1)) as [|_]; [lia|]. cbn [negb].
  unfold fseek. destruct (Z.ltb_spec offset 0) as [|_]; [lia|].
  cbn [Graph.graph_file Graph.with_file].
  set (f0 := FILE.mk (FILE.contents (Graph.graph_file self)) offset).
  split.
  - by apply (fputc_run_length bytes f0).
  - intros j Hlen Hj. by apply (fputc_run_other bytes f0 j).
Qed.

Lemma Graph_write_bytes_frame_witness :
  let g := Graph.with_file blank_graph (FILE.mk [1; 2; 3; 4; 5] 0) in
  let written := Fabric_Graph_write_bytes g [8; 9] 2 4 in
  length (FILE.contents (Graph.graph_file written)) = 6%nat
  ∧ FILE.contents (Graph.graph_file written) !! 3%nat = Some 4.
Proof.
  pose proof (Graph_write_bytes_frame
                (Graph.with_file blank_graph (FILE.mk [1; 2; 3; 4; 5] 0))
                [8; 9] 4 ltac:(lia)) as [Hlen Hframe].
  split; [exact Hlen|].
  exact (Hframe 3%nat ltac:(cbn; lia) ltac:(cbn; lia)).
Defined.

(** X13: what [Fabric_Graph_write_bytes] writes at an offset,
    [Fabric_Graph_read_bytes] reads back there, each value reduced to the
    byte [fputc] stores for it. *)
Theorem Graph_read_bytes_after_write (self : Graph.t) (bytes : list Z)
    (offset : Z) :
  0 ≤ offset →
  fst (Fabric_Graph_read_bytes
         (Fabric_Graph_write_bytes self bytes (Z.of_nat (length bytes)) offset)
         (Z.of_nat (length bytes)) offset)
  = uint8 <$> bytes.
Proof.
  intros Hoff.
  unfold Fabric_Graph_read_bytes, Fabric_Graph_write_bytes.
  rewrite Nat2Z.id, firstn_all.
  destruct (Z.eqb_spec offset (-1)) as [|_]; [lia|]. cbn [negb].
  unfold fseek. destruct (Z.ltb_spec offset 0) as [|_]; [lia|].
  cbn [Graph.graph_file Graph.with_file FILE.contents].
  set (f0 := FILE.mk (FILE.contents (Graph.graph_file self)) offset).
  destruct (fputc_run bytes f0 Hoff) as [_ Hget].
  set (f1 := FILE.mk _ offset).
  pose proof (Graph_read_loop_spec (uint8 <$> bytes) f1 Hoff) as Hread.
  rewrite length_fmap in Hread.
  destruct (Graph_read_loop (length bytes) f1) as [bs f2].
  cbn [fst] in *. rewrite Hread.
  - rewrite <- list_fmap_compose. apply list_fmap_ext.
    intros i b _. apply uint8_idemp.
  - intros i b Hb. subst f1. cbn [FILE.contents FILE.position].
    rewrite list_lookup_fmap in Hb.
    destruct (bytes !! i) as [c|] eqn:Hc; [|done].
    injection Hb as <-. by apply Hget.
Qed.

Lemma Graph_read_bytes_after_write_witness :
  fst (Fabric_Graph_read_bytes
         (Fabric_Graph_write_bytes blank_graph [1; 258] 2 10) 2 10)
  = [1; 2].
Proof.
  exact (Graph_read_bytes_after_write blank_graph [1; 258] 10 ltac:(lia)).
Defined.

Lemma Graph_read_loop_at_end (n : nat) (f : FILE.t) :
  FILE.contents f !! Z.to_nat (FILE.position f) = None →
  Graph_read_loop n f = (replicate n 255, f).
Proof.
  intros Hend. induction n as [|n IH]; [done|].
  cbn [Graph_read_loop]. unfold fgetc. rewrite Hend, IH. reflexivity.
Qed.

(** X14: a read at or behind the end of the file is not an error.  [fgetc]
    returns [EOF] there, which is stored as the byte 0xFF: the bytes read
    are all 0xFF, a 16-bit read gives 65535 and a 32-bit read gives
    4294967295, on either host. *)
Theorem Graph_read_past_end (host : byte_order) (self : Graph.t)
    (num_bytes offset : Z) :
  Z.of_nat (length (FILE.contents (Graph.graph_file self))) ≤ offset →
  fst (Fabric_Graph_read_bytes self num_bytes offset)
  = replicate (Z.to_nat num_bytes) 255
  ∧ fst (Fabric_Graph_read_uint16 host self offset) = 65535
  ∧ fst (Fabric_Graph_read_uint32 host self offset) = 4294967295.
Proof.
  intros Hoff.
  assert (Hread : ∀ n, Fabric_Graph_read_bytes self n offset
                       = (replicate (Z.to_nat n) 255,
                          Graph.with_file self
                            (FILE.mk (FILE.contents (Graph.graph_file self))
                               offset))).
  { intros n. unfold Fabric_Graph_read_bytes.
    destruct (Z.eqb_spec offset (-1)) as [|_]; [lia|]. cbn [negb].
    unfold fseek. destruct (Z.ltb_spec offset 0) as [|_]; [lia|].
    rewrite Graph_read_loop_at_end; [done|].
    cbn [FILE.contents FILE.position]. apply lookup_ge_None. lia. }
  unfold Fabric_Graph_read_uint16, Fabric_Graph_read_uint32.
  rewrite !Hread. cbn [fst].
  split; [done|]. by destruct host.
Qed.

Lemma Graph_read_past_end_witness :
  fst (Fabric_Graph_read_uint16 LittleEndian blank_graph 84) = 65535.
Proof.
  exact (proj1 (proj2 (Graph_read_past_end LittleEndian blank_graph 2 84
                         ltac:(cbn; lia)))).
Defined.

(** X15: a 32-bit value written by [Fabric_Graph_write_uint32] lies in the
    file most significant byte first whatever the host is, and
    [Fabric_Graph_read_uint32] reads it back. *)
Theorem Graph_uint32_round_trip (host : byte_order) (self : Graph.t)
    (value offset : Z) :
  0 ≤ offset → 0 ≤ value < 2 ^ 32 →
  let written := Fabric_Graph_write_uint32 host self value offset in
  fst (Fabric_Graph_read_bytes written 4 offset) = reverse (le_bytes 4 value)
  ∧ fst (Fabric_Graph_read_uint32 host written offset) = value.
Proof.
  intros Hoff Hv. cbn zeta.
  unfold Fabric_Graph_read_uint32, Fabric_Graph_write_uint32.
  pose proof (read_bytes_write_bytes self
                (object_bytes host 4 (htobe32 host value)) offset Hoff
                (object_bytes_is_byte _ _ _)) as H.
  rewrite object_bytes_length in H. change (Z.of_nat 4) with 4 in H.
  destruct (Fabric_Graph_read_bytes _ 4 offset) as [bytes g].
  cbn [fst] in *. subst bytes.
  split; [by apply object_bytes_big_endian_32 | by apply betoh32_htobe32].
Qed.

Lemma Graph_uint32_round_trip_witness :
  fst (Fabric_Graph_read_uint32 LittleEndian
         (Fabric_Graph_write_uint32 LittleEndian blank_graph 65536 32) 32)
  = 65536.
Proof.
  exact (proj2 (Graph_uint32_round_trip LittleEndian blank_graph 65536 32
                  ltac:(lia) ltac:(lia))).
Defined.

(** *** The header written and read again *)

Lemma Graph_read_loop_slice (bs : list Z) :
  ∀ (pre post : list Z) (p : Z),
    Forall is_byte bs → length pre = Z.to_nat p → 0 ≤ p →
    Graph_read_loop (length bs) (FILE.mk (pre ++ bs ++ post) p)
    = (bs, FILE.mk (pre ++ bs ++ post) (p + Z.of_nat (length bs))).
Proof.
  induction bs as [|b bs IH]; intros pre post p Hbs Hpre Hp.
  - cbn [length Graph_read_loop]. by rewrite Z.add_0_r.
  - cbn [length Graph_read_loop]. unfold fgetc.
    cbn [FILE.contents FILE.position].
    change ((b :: bs) ++ post) with (b :: (bs ++ post)).
    rewrite <- Hpre, list_lookup_middle by done.
    apply Forall_cons in Hbs as [Hb Hbs].
    assert (Hshape : pre ++ b :: bs ++ post = (pre ++ [b]) ++ bs ++ post)
      by (by rewrite <- app_assoc).
    rewrite Hshape, IH; [|done|rewrite length_app; cbn [length]; lia|lia].
    rewrite uint8_is_byte by done.
    do 2 f_equal. lia.
Qed.

Lemma read_bytes_next (g : Graph.t) (pre bs post : list Z) (p n : Z) :
  Forall is_byte bs → length pre = Z.to_nat p → 0 ≤ p →
  Z.to_nat n = length bs →
  Fabric_Graph_read_bytes (Graph.with_file g (FILE.mk (pre ++ bs ++ post) p))
    n (-1)
  = (bs, Graph.with_file g
           (FILE.mk (pre ++ bs ++ post) (p + Z.of_nat (length bs)))).
Proof.
  intros Hbs Hpre Hp Hn. unfold Fabric_Graph_read_bytes.
  change (-1 =? -1) with true.
  cbn [negb Graph.graph_file Graph.with_file].
  by rewrite Hn, Graph_read_loop_slice.
Qed.

Lemma read_bytes_first (g : Graph.t) (bs post : list Z) (p n : Z) :
  Forall is_byte bs → Z.to_nat n = length bs →
  Fabric_Graph_read_bytes (Graph.with_file g (FILE.mk (bs ++ post) p)) n 0
  = (bs, Graph.with_file g
           (FILE.mk ([] ++ bs ++ post) (0 + Z.of_nat (length bs)))).
Proof.
  intros Hbs Hn. unfold Fabric_Graph_read_bytes.
  change (0 =? -1) with false. unfold fseek. change (0 <? 0) with false.
  cbn [negb Graph.graph_file Graph.with_file FILE.contents].
  rewrite Hn.
  pose proof (Graph_read_loop_slice bs [] post 0 Hbs eq_refl ltac:(lia)) as H.
  change ([] ++ bs ++ post) with (bs ++ post) in H.
  by rewrite H.
Qed.

Lemma read_uint32_next (host : byte_order) (g : Graph.t) (pre post : list Z)
    (v p : Z) :
  0 ≤ v < 2 ^ 32 → length pre = Z.to_nat p → 0 ≤ p →
  Fabric_Graph_read_uint32 host
    (Graph.with_file g
       (FILE.mk (pre ++ object_bytes host 4 (htobe32 host v) ++ post) p)) (-1)
  = (v, Graph.with_file g
          (FILE.mk (pre ++ object_bytes host 4 (htobe32 host v) ++ post)
             (p + 4))).
Proof.
  intros Hv Hpre Hp. unfold Fabric_Graph_read_uint32.
  rewrite (read_bytes_next g pre (object_bytes host 4 (htobe32 host v)) post p 4);
    [|apply object_bytes_is_byte|done|done|by rewrite object_bytes_length].
  rewrite object_bytes_length, betoh32_htobe32 by done.
  reflexivity.
Qed.

Lemma write_bytes_exact (g : Graph.t) (bytes : list Z) (n offset : Z) :
  Z.to_nat n = length bytes →
  Fabric_Graph_write_bytes g bytes n offset
  = Graph.with_file g
      (foldl (λ file byte, fputc byte file)
         (if negb (offset =? -1) then fseek (Graph.graph_file g) offset
          else Graph.graph_file g)
         bytes).
Proof.
  intros Hn. unfold Fabric_Graph_write_bytes. by rewrite Hn, firstn_all.
Qed.

Lemma write_uint32_next (host : byte_order) (g : Graph.t) (v : Z) :
  Fabric_Graph_write_uint32 host g v (-1)
  = Graph.with_file g
      (foldl (λ file byte, fputc byte file) (Graph.graph_file g)
         (object_bytes host 4 (htobe32 host v))).
Proof.
  unfold Fabric_Graph_write_uint32.
  by rewrite write_bytes_exact by (by rewrite object_bytes_length).
Qed.

(** The 84 bytes of the header, in the order of the file. *)
Lemma write_header_file (host : byte_order) (g : Graph.t) :
  length (Graph.fabric_header_string g) = 16%nat →
  length (Graph.application_header_string g) = 16%nat →
  Graph.graph_file (fst (Fabric_Graph_write_header host g))
  = foldl (λ file byte, fputc byte file)
      (FILE.mk (FILE.contents (Graph.graph_file g)) 0)
      (Graph.fabric_header_string g
       ++ Graph.application_header_string g
       ++ concat ((λ v, object_bytes host 4 (htobe32 host v))
                    <$> Graph_header_numbers g)).
Proof.
  intros Hfs Has. unfold Fabric_Graph_write_header. cbn [fst].
  rewrite !write_uint32_next.
  rewrite !write_bytes_exact by done.
  change (-1 =? -1) with true. change (0 =? -1) with false.
  unfold fseek. change (0 <? 0) with false.
  cbn [negb Graph.graph_file Graph.with_file FILE.contents
         Graph_header_numbers fmap list_fmap concat].
  rewrite !foldl_app. reflexivity.
Qed.

Lemma prefix_of_lookups (H C : list Z) :
  (∀ (i : nat) (b : Z), H !! i = Some b → C !! i = Some b) →
  C = H ++ drop (length H) C.
Proof.
  revert C. induction H as [|h H IH]; intros C Hget; [done|].
  destruct C as [|c C]; [by specialize (Hget 0%nat h eq_refl)|].
  pose proof (Hget 0%nat h eq_refl) as H0. injection H0 as ->.
  cbn [length drop app]. f_equal. apply IH.
  intros i b Hb. exact (Hget (S i) b Hb).
Qed.

Lemma read_bytes_snd (g : Graph.t) (n offset : Z) :
  ∃ f, snd (Fabric_Graph_read_bytes g n offset) = Graph.with_file g f.
Proof.
  unfold Fabric_Graph_read_bytes.
  destruct (Graph_read_loop _ _) as [bs f]. by exists f.
Qed.

Lemma read_uint16_snd (host : byte_order) (g : Graph.t) (offset : Z) :
  ∃ f, snd (Fabric_Graph_read_uint16 host g offset) = Graph.with_file g f.
Proof.
  unfold Fabric_Graph_read_uint16.
  destruct (read_bytes_snd g 2 offset) as [f Hf].
  destruct (Fabric_Graph_read_bytes g 2 offset) as [bs g']. by exists f.
Qed.

(** [Fabric_ClassStore_init] reads through the graph and sets the class
    store: the header fields and the other stores stay. *)
Lemma ClassStore_init_frame (host : byte_order) (g : Graph.t) :
  ∃ f cs,
    fst (Fabric_ClassStore_init host g)
    = Graph.with_class_store (Graph.with_file g f) cs
    ∧ ClassStore.offset cs = ClassStore.offset (Graph.class_store g).
Proof.
  unfold Fabric_ClassStore_init.
  destruct (read_uint16_snd host g (ClassStore.offset (Graph.class_store g)))
    as [f1 H1].
  destruct (Fabric_Graph_read_uint16 host g _) as [v1 g1]. cbn [snd] in H1.
  subst g1.
  destruct (read_uint16_snd host (Graph.with_file g f1)
              (uint32 (ClassStore.offset (Graph.class_store g) + 2)))
    as [f2 H2].
  destruct (Fabric_Graph_read_uint16 host _ _) as [v2 g2]. cbn [snd] in H2.
  subst g2.
  destruct (read_uint16_snd host (Graph.with_file (Graph.with_file g f1) f2)
              (uint32 (ClassStore.offset (Graph.class_store g) + 4)))
    as [f3 H3].
  destruct (Fabric_Graph_read_uint16 host _ _) as [v3 g3]. cbn [snd] in H3.
  subst g3.
  cbn. eexists f3, _. split; reflexivity.
Qed.

Ltac next_chunk :=
  match goal with
  | |- context [FILE.mk (?pre ++ ?bs ++ ?post) _] =>
      rewrite (app_assoc pre bs post)
  end.

(** X16: a header written by [Fabric_Graph_write_header] is read back by
    the header reads of [Fabric_Graph_init], on either host and whatever
    the file held before and the graph object held before: the two header
    strings and the thirteen numbers of the graph read are those of the
    graph written, and [Fabric_ClassStore_init], which comes next, leaves
    the numbers as read. *)
Theorem Graph_header_round_trip (host : byte_order) (g self : Graph.t) :
  Graph_header_in_range g →
  let loaded :=
    Graph_init_header host self
      (Graph.graph_file (fst (Fabric_Graph_write_header host g))) in
  Graph.fabric_header_string loaded = Graph.fabric_header_string g
  ∧ Graph.application_header_string loaded
    = Graph.application_header_string g
  ∧ Graph_header_numbers loaded = Graph_header_numbers g
  ∧ Graph_header_numbers (fst (Fabric_ClassStore_init host loaded))
    = Graph_header_numbers g.
Proof.
  intros (Hfs & Hfsb & Has & Hasb & Hnum). cbn zeta.
  rewrite write_header_file by done.
  set (H := Graph.fabric_header_string g ++ _).
  set (f0 := FILE.mk (FILE.contents (Graph.graph_file g)) 0).
  destruct (fputc_run H f0 ltac:(cbn; lia)) as [_ Hget]. cbn zeta in Hget.
  set (fw := foldl _ f0 H) in *.
  assert (Hbytes : Forall is_byte H).
  { subst H. apply Forall_app. split; [done|]. apply Forall_app.
    split; [done|]. apply Forall_concat, Forall_fmap, Forall_true.
    intros v. apply object_bytes_is_byte. }
  assert (HC : FILE.contents fw = H ++ drop (length H) (FILE.contents fw)).
  { apply prefix_of_lookups. intros i b Hb.
    pose proof (Hget i b Hb) as Hi.
    change (FILE.contents fw !! i = Some (uint8 b)) in Hi.
    rewrite Hi. f_equal. apply uint8_is_byte.
    rewrite Forall_forall in Hbytes. apply Hbytes.
    by eapply list_elem_of_lookup_2. }
  clearbody fw. clear Hget f0. destruct fw as [C p]. cbn in HC.
  rewrite HC. generalize (drop (length H) C). intros rest. clear HC C.
  subst H. cbn [Graph_header_numbers fmap list_fmap concat] in *.
  repeat (apply Forall_cons in Hnum as [? Hnum]).
  rewrite <- !app_assoc.
  unfold Graph_init_header. cbv zeta.
  rewrite (read_bytes_first self (Graph.fabric_header_string g) _ p 16)
    by done.
  cbv beta iota.
  next_chunk.
  rewrite (read_bytes_next self _ (Graph.application_header_string g) _ _ 16)
    by (first [done | rewrite ?length_app, ?Hfs, ?Has; cbn [length]; lia]).
  cbv beta iota.
  do 13 (next_chunk;
         rewrite read_uint32_next
           by (first [done
                     | rewrite ?length_app, ?object_bytes_length, ?Hfs, ?Has;
                       cbn [length]; lia]);
         cbv beta iota).
  split; [reflexivity|]. split; [reflexivity|]. split; [reflexivity|].
  match goal with
  | |- context [Fabric_ClassStore_init host ?G] =>
      destruct (ClassStore_init_frame host G) as (f1 & cs & Hcs & Hoff);
      destruct (Fabric_ClassStore_init host G) as [g1 st1]
  end.
  cbn [fst] in Hcs. subst g1.
  unfold Graph_header_numbers. cbn in Hoff. cbn. by rewrite Hoff.
Qed.

Lemma Graph_header_round_trip_witness :
  let g := Fabric_create_graph LittleEndian (FILE.mk [] 0) blank_graph in
  let loaded :=
    Graph_init_header LittleEndian blank_graph
      (Graph.graph_file (fst (Fabric_Graph_write_header LittleEndian g))) in
  Graph.fabric_header_string loaded = FABRIC_HEADER_STRING
  ∧ Graph_header_numbers loaded = Graph_header_numbers g.
Proof.
  pose proof (Graph_header_round_trip LittleEndian
                (Fabric_create_graph LittleEndian (FILE.mk [] 0) blank_graph)
                blank_graph) as H.
  destruct H as (Hfs & _ & Hnum & _); [|split; [exact Hfs | exact Hnum]].
  unfold Graph_header_in_range, is_byte.
  split; [reflexivity|]. split; [by apply (bool_decide_unpack _); vm_compute|].
  split; [reflexivity|]. split; [by apply (bool_decide_unpack _); vm_compute|].
  by apply (bool_decide_unpack _); vm_compute.
Defined.

(** X17: a 16-bit value written by [Fabric_Graph_write_uint16] on a
    big-endian host lies in the file most significant byte first, and
    [Fabric_Graph_read_uint16] reads it back. *)
Theorem Graph_uint16_round_trip_big_endian (self : Graph.t)
    (value offset : Z) :
  0 ≤ offset → 0 ≤ value < 2 ^ 16 →
  let written := Fabric_Graph_write_uint16 BigEndian self value offset in
  fst (Fabric_Graph_read_bytes written 2 offset) = reverse (le_bytes 2 value)
  ∧ fst (Fabric_Graph_read_uint16 BigEndian written offset) = value.
Proof.
  intros Hoff Hv. cbn zeta.
  unfold Fabric_Graph_read_uint16, Fabric_Graph_write_uint16.
  pose proof (read_bytes_write_bytes self
                (object_bytes BigEndian 2 (uint16 (htobe32 BigEndian value)))
                offset Hoff (object_bytes_is_byte _ _ _)) as H.
  rewrite object_bytes_length in H. change (Z.of_nat 2) with 2 in H.
  destruct (Fabric_Graph_read_bytes _ 2 offset) as [bytes g].
  cbn [fst] in *. subst bytes.
  assert (Hsame : uint16 (htobe32 BigEndian value) = value).
  { unfold htobe32, uint16, uint32.
    rewrite (Z.mod_small value (2 ^ 32)) by lia. apply Z.mod_small. lia. }
  rewrite Hsame. split; [reflexivity|].
  by apply betoh16_object_big_endian.
Qed.

Lemma Graph_uint16_round_trip_big_endian_witness :
  fst (Fabric_Graph_read_uint16 BigEndian
         (Fabric_Graph_write_uint16 BigEndian blank_graph 3120 84) 84)
  = 3120.
Proof.
  exact (proj2 (Graph_uint16_round_trip_big_endian blank_graph 3120 84
                  ltac:(lia) ltac:(lia))).
Defined.

(** ** Class.c *)

Lemma class_round_trip_big_endian_witness :
  Fabric_Class_init BigEndian S2_class (Fabric_Class_load_bytes BigEndian S2_class)
  = (S2_class, FABRIC_OK).
Proof.
  apply (class_round_trip_big_endian S2_class).
  unfold Class_in_range. cbn. lia.
Defined.

Lemma class_round_trip_little_endian_witness :
  fst (Fabric_Class_init LittleEndian S2_class
         (Fabric_Class_load_bytes LittleEndian S2_class))
  = Class.mk 2 0x09000000 0x0100 0x0400 0 0x1000 0x23000000 0 0x25000000.
Proof.
  exact (f_equal fst (class_round_trip_little_endian S2_class ltac:(cbn; lia))).
Defined.






(** The stored form [Fabric_Class_load_bytes] makes of a record is
    always FABRIC_CLASS_STORAGE_SIZE bytes long, each of them a byte,
    whatever the fields hold, and never contains the id. *)
Lemma Class_load_bytes_size (host : byte_order) (self : Class.t) (id : Z) :
  Z.of_nat (length (Fabric_Class_load_bytes host self))
  = FABRIC_CLASS_STORAGE_SIZE
  ∧ Forall is_byte (Fabric_Class_load_bytes host self)
  ∧ Fabric_Class_load_bytes host (Fabric_Class_set_id self id)
    = Fabric_Class_load_bytes host self.
Proof.
  unfold Fabric_Class_load_bytes. split; [|split; [|reflexivity]].
  - rewrite !length_app, !object_bytes_length. reflexivity.
  - repeat (apply Forall_app; split; [apply object_bytes_is_byte|]).
    apply Forall_cons. split; [|apply object_bytes_is_byte].
    unfold is_byte, uint8. apply Z.mod_pos_bound. lia.
Qed.

(** ** DynamicList.c *)

(** X20: a list made by [Fabric_DynamicList_init_with_capacity] is empty
    and has the capacity asked for, or the minimum of 16 when less is asked
    for; no position of it holds an item, whatever the fresh memory
    contained. *)
Theorem DynamicList_init_is_empty (junk : ptr) (capacity pos : Z) :
  let self := fst (Fabric_DynamicList_init_with_capacity junk capacity) in
  snd (Fabric_DynamicList_init_with_capacity junk capacity) = FABRIC_OK
  ∧ DynamicList_wf self
  ∧ DynamicList_items self = []
  ∧ Fabric_DynamicList_capacity self = capacity `max` 16
  ∧ Fabric_DynamicList_at self pos = Some NULL.
Proof.
  cbn zeta. unfold Fabric_DynamicList_init_with_capacity,
    FABRIC_DYNAMIC_LIST_MIN_CAP.
  cbn [fst snd]. split; [reflexivity|].
  destruct (Z.ltb_spec 16 capacity) as [Hc|Hc].
  - split; [|split; [reflexivity|split; [cbn; lia|]]].
    + unfold DynamicList_wf, FABRIC_DYNAMIC_LIST_MIN_CAP. cbn.
      rewrite length_replicate. lia.
    + unfold Fabric_DynamicList_at. cbn [DynamicList.count].
      destruct (Z.leb_spec 0 pos) as [|Hneg]; [done|].
      cbn [orb]. destruct (Z.ltb_spec pos 0); [done | lia].
  - split; [|split; [reflexivity|split; [cbn; lia|]]].
    + unfold DynamicList_wf, FABRIC_DYNAMIC_LIST_MIN_CAP. cbn.
      rewrite length_replicate. lia.
    + unfold Fabric_DynamicList_at. cbn [DynamicList.count].
      destruct (Z.leb_spec 0 pos) as [|Hneg]; [done|].
      cbn [orb]. destruct (Z.ltb_spec pos 0); [done | lia].
Qed.

(** [Fabric_DynamicList_at] in terms of the items held. *)
Lemma DynamicList_at_items (self : DynamicList.t) (pos : Z) :
  DynamicList_wf self →
  Fabric_DynamicList_at self pos
  = Some (if (0 <=? pos) && (pos <? Fabric_DynamicList_count self)
          then default NULL (DynamicList_items self !! Z.to_nat pos)
          else NULL).
Proof.
  intros (Hcount & _ & Hlen).
  unfold Fabric_DynamicList_at, Fabric_DynamicList_count, DynamicList_items.
  destruct (Z.leb_spec (DynamicList.count self) pos) as [Hge|Hlt].
  { cbn [orb]. destruct (Z.ltb_spec pos (DynamicList.count self)); [lia|].
    by rewrite andb_false_r. }
  cbn [orb]. destruct (Z.ltb_spec pos 0) as [Hneg|Hpos].
  { destruct (Z.leb_spec 0 pos); [lia | done]. }
  destruct (Z.leb_spec 0 pos); [|lia].
  destruct (Z.ltb_spec pos (DynamicList.count self)); [|lia].
  cbn [andb]. rewrite lookup_take_lt by lia.
  destruct (DynamicList.list self !! Z.to_nat pos) as [p|] eqn:Hp; [done|].
  apply lookup_ge_None in Hp. lia.
Qed.

Lemma DynamicList_append_items (junk : ptr) (self : DynamicList.t)
    (item : ptr) :
  DynamicList_wf self → DynamicList.cap self < 2 ^ 30 →
  ∃ self',
    Fabric_DynamicList_append junk self item = Some (self', FABRIC_OK)
    ∧ DynamicList_wf self'
    ∧ DynamicList_items self' = DynamicList_items self ++ [item]
    ∧ Fabric_DynamicList_count self' = Fabric_DynamicList_count self + 1
    ∧ Fabric_DynamicList_capacity self'
      = (if Fabric_DynamicList_capacity self <=? Fabric_DynamicList_count self
         then 2 * Fabric_DynamicList_capacity self
         else Fabric_DynamicList_capacity self).
Proof.
  intros (Hcount & Hmin & Hlen) Hcap.
  unfold Fabric_DynamicList_append, Fabric_DynamicList_capacity,
    Fabric_DynamicList_count, FABRIC_DYNAMIC_LIST_MIN_CAP in *.
  assert (Hput : ∀ l : list ptr,
            (Z.to_nat (DynamicList.count self) < length l)%nat →
            take (Z.to_nat (DynamicList.count self)) l
            = DynamicList_items self →
            take (Z.to_nat (DynamicList.count self + 1))
              (<[Z.to_nat (DynamicList.count self) := item]> l)
            = DynamicList_items self ++ [item]).
  { intros l Hl Htake.
    replace (Z.to_nat (DynamicList.count self + 1))
      with (S (Z.to_nat (DynamicList.count self))) by lia.
    destruct (lookup_lt_is_Some_2 l _ Hl) as [x Hx].
    rewrite (take_S_r _ _ item)
      by (by rewrite list_lookup_insert_eq).
    by rewrite take_insert_ge, Htake by lia. }
  destruct (Z.leb_spec (DynamicList.cap self) (DynamicList.count self))
    as [Hfull|Hroom].
  - destruct (Z.leb_spec (2 ^ 31) (DynamicList.cap self * 2)); [lia|].
    unfold Fabric_DynamicList_change_capacity, FABRIC_DYNAMIC_LIST_MIN_CAP.
    destruct (Z.ltb_spec (DynamicList.cap self * 2) 16); [lia|].
    cbn [mbind option_bind FABRIC_OK Z.eqb negb DynamicList.list
           DynamicList.count DynamicList.cap].
    set (l := take _ (DynamicList.list self) ++ _).
    assert (Hl : Z.of_nat (length l) = DynamicList.cap self * 2).
    { subst l. rewrite length_app, length_take, length_replicate. lia. }
    destruct (lookup_lt_is_Some_2 l (Z.to_nat (DynamicList.count self)))
      as [x Hx]; [lia|].
    rewrite Hx. cbn [mbind option_bind].
    eexists. split; [reflexivity|].
    split; [|split; [|split; [reflexivity | cbn; lia]]].
    + unfold DynamicList_wf, FABRIC_DYNAMIC_LIST_MIN_CAP. cbn.
      rewrite length_insert. lia.
    + unfold DynamicList_items at 1. cbn [DynamicList.count DynamicList.list].
      apply Hput; [lia|].
      subst l. unfold DynamicList_items.
      rewrite take_app_le by (rewrite length_take; lia).
      rewrite take_take. f_equal. lia.
  - cbn [mbind option_bind FABRIC_OK Z.eqb negb].
    destruct (lookup_lt_is_Some_2 (DynamicList.list self)
                (Z.to_nat (DynamicList.count self))) as [x Hx]; [lia|].
    rewrite Hx. cbn [mbind option_bind].
    eexists. split; [reflexivity|].
    split; [|split; [|split; [reflexivity | cbn; lia]]].
    + unfold DynamicList_wf, FABRIC_DYNAMIC_LIST_MIN_CAP. cbn.
      rewrite length_insert. lia.
    + unfold DynamicList_items at 1. cbn [DynamicList.count DynamicList.list].
      apply Hput; [lia | done].
Qed.

(** X21: what [Fabric_DynamicList_append] has put in a list,
    [Fabric_DynamicList_at] finds.  After an append the item is read at
    the position that was the count, every position before it reads as it
    did, and every position behind it reads NULL, also when the array has
    been doubled and moved. *)
Theorem DynamicList_at_after_append (junk : ptr) (self : DynamicList.t)
    (item : ptr) (pos : Z) :
  DynamicList_wf self → DynamicList.cap self < 2 ^ 30 →
  ∃ self',
    Fabric_DynamicList_append junk self item = Some (self', FABRIC_OK)
    ∧ Fabric_DynamicList_at self' pos
      = (if pos =? Fabric_DynamicList_count self then Some item
         else if pos <? Fabric_DynamicList_count self
              then Fabric_DynamicList_at self pos
              else Some NULL).
Proof.
  intros Hwf Hcap.
  destruct (DynamicList_append_items junk self item Hwf Hcap)
    as (self' & Happ & Hwf' & Hitems & Hcount' & _).
  exists self'. split; [exact Happ|].
  rewrite (DynamicList_at_items self' pos Hwf'), Hitems, Hcount'.
  rewrite (DynamicList_at_items self pos Hwf).
  assert (Hlen : Z.of_nat (length (DynamicList_items self))
                 = Fabric_DynamicList_count self).
  { destruct Hwf as (Hc & _ & Hl).
    unfold DynamicList_items, Fabric_DynamicList_count.
    rewrite length_take. lia. }
  destruct (Z.eqb_spec pos (Fabric_DynamicList_count self)) as [->|Hne].
  - destruct (Z.leb_spec 0 (Fabric_DynamicList_count self)); [|lia].
    destruct (Z.ltb_spec (Fabric_DynamicList_count self)
                (Fabric_DynamicList_count self + 1)); [|lia].
    cbn [andb]. rewrite <- Hlen, Nat2Z.id.
    by rewrite list_lookup_middle.
  - destruct (Z.ltb_spec pos (Fabric_DynamicList_count self)) as [Hlt|Hge].
    + destruct (Z.ltb_spec pos (Fabric_DynamicList_count self + 1)); [|lia].
      destruct (0 <=? pos) eqn:Hpos; [|done].
      apply Z.leb_le in Hpos. cbn [andb].
      by rewrite lookup_app_l by lia.
    + destruct (Z.ltb_spec pos (Fabric_DynamicList_count self + 1)); [lia|].
      by rewrite andb_false_r.
Qed.

Lemma DynamicList_at_after_append_witness :
  let full := DynamicList.mk 16 16 (seq 1 16) in
  ∃ self',
    Fabric_DynamicList_append 9%nat full 99%nat = Some (self', FABRIC_OK)
    ∧ Fabric_DynamicList_at self' 16 = Some 99%nat
    ∧ Fabric_DynamicList_at self' 3 = Some 4%nat
    ∧ Fabric_DynamicList_at self' 17 = Some NULL.
Proof.
  cbn zeta.
  destruct (DynamicList_at_after_append 9%nat
              (DynamicList.mk 16 16 (seq 1 16)) 99%nat 16)
    as (self' & Happ & Hat16); [by vm_compute | by vm_compute |].
  destruct (DynamicList_at_after_append 9%nat
              (DynamicList.mk 16 16 (seq 1 16)) 99%nat 3)
    as (s3 & Happ3 & Hat3); [by vm_compute | by vm_compute |].
  destruct (DynamicList_at_after_append 9%nat
              (DynamicList.mk 16 16 (seq 1 16)) 99%nat 17)
    as (s17 & Happ17 & Hat17); [by vm_compute | by vm_compute |].
  rewrite Happ in Happ3, Happ17.
  injection Happ3 as <-. injection Happ17 as <-.
  exists self'. split; [exact Happ|].
  split; [exact Hat16|]. split; [exact Hat3 | exact Hat17].
Defined.

(** X22: [Fabric_DynamicList_append] puts the item behind the items the
    list holds and keeps those, also when the array has to be doubled and
    moved; the capacity stays or doubles. *)
Theorem DynamicList_append_spec (junk : ptr) (self : DynamicList.t)
    (item : ptr) :
  DynamicList_wf self → DynamicList.cap self < 2 ^ 30 →
  ∃ self',
    Fabric_DynamicList_append junk self item = Some (self', FABRIC_OK)
    ∧ DynamicList_wf self'
    ∧ DynamicList_items self' = DynamicList_items self ++ [item]
    ∧ Fabric_DynamicList_count self' = Fabric_DynamicList_count self + 1
    ∧ Fabric_DynamicList_capacity self'
      = (if Fabric_DynamicList_capacity self <=? Fabric_DynamicList_count self
         then 2 * Fabric_DynamicList_capacity self
         else Fabric_DynamicList_capacity self).
Proof. apply DynamicList_append_items. Qed.

Lemma DynamicList_append_spec_witness :
  ∃ self',
    Fabric_DynamicList_append 9%nat (fst (Fabric_DynamicList_init 9%nat)) 5%nat
    = Some (self', FABRIC_OK)
    ∧ DynamicList_items self' = [5%nat].
Proof.
  destruct (DynamicList_append_spec 9%nat (fst (Fabric_DynamicList_init 9%nat))
              5%nat) as (self' & Happ & _ & Hitems & _).
  - by vm_compute.
  - by vm_compute.
  - exists self'. split; [exact Happ | exact Hitems].
Defined.

(** X23: [Fabric_DynamicList_remove_last] drops the last item and nothing
    else, so it undoes an append; on an empty list it does nothing.  The
    capacity is never given back. *)
Theorem DynamicList_remove_last_spec (self : DynamicList.t) :
  DynamicList_wf self →
  let self' := fst (Fabric_DynamicList_remove_last self) in
  snd (Fabric_DynamicList_remove_last self) = FABRIC_OK
  ∧ DynamicList_wf self'
  ∧ DynamicList_items self'
    = take (length (DynamicList_items self) - 1) (DynamicList_items self)
  ∧ Fabric_DynamicList_capacity self' = Fabric_DynamicList_capacity self.
Proof.
  intros (Hcount & Hmin & Hlen). cbn zeta.
  unfold Fabric_DynamicList_remove_last.
  destruct (Z.leb_spec (DynamicList.count self) 0) as [Hz|Hpos]; cbn [fst snd].
  - split; [done|]. split; [done|]. split; [|done].
    unfold DynamicList_items.
    replace (Z.to_nat (DynamicList.count self)) with 0%nat by lia. done.
  - split; [done|]. split; [|split; [|done]].
    + unfold DynamicList_wf. cbn. lia.
    + unfold DynamicList_items. cbn [DynamicList.count DynamicList.list].
      rewrite length_take, take_take. f_equal. lia.
Qed.

Lemma DynamicList_remove_last_spec_witness :
  DynamicList_items
    (fst (Fabric_DynamicList_remove_last
            (DynamicList.mk 2 16 ([5; 6] ++ replicate 14 9))%nat))
  = [5%nat].
Proof.
  refine (proj1 (proj2 (proj2 (DynamicList_remove_last_spec
                                 (DynamicList.mk 2 16
                                    ([5; 6] ++ replicate 14 9)%nat) _)))).
  by vm_compute.
Defined.

(** ** ClassStore.c *)

Lemma bind_run {A B : Type} (m : M A) (f : A → M B) (w w1 : World.t) (a : A) :
  m w = Some (a, w1) → (m ≫= f) w = f a w1.
Proof. intros H. unfold mbind, M_bind. by rewrite H. Qed.

Lemma flush_frame_refl (w : World.t) : flush_frame w w.
Proof.
  split; [done|]. split; [done|].
  exists (Graph.graph_file (World.graph w)),
    (ClassStore.changed (class_store_of w)).
  unfold class_store_of. cbn zeta.
  destruct (World.graph w) as [f ? ? ? ? ? cs ? ? ? ? ? ?]. by destruct cs.
Qed.

Lemma flush_frame_trans (w1 w2 w3 : World.t) :
  flush_frame w1 w2 → flush_frame w2 w3 → flush_frame w1 w3.
Proof.
  intros (Hh1 & Hj1 & f1 & c1 & Hg1) (Hh2 & Hj2 & f2 & c2 & Hg2).
  split; [congruence|]. split; [congruence|].
  exists f2, c2. cbn zeta in *. unfold class_store_of in *.
  rewrite Hg2, Hg1. reflexivity.
Qed.

Lemma flush_frame_file (w : World.t) (file : FILE.t) :
  flush_frame w
    (World.mk (World.heap w) (World.junk w)
       (Graph.with_file (World.graph w) file)).
Proof.
  split; [done|]. split; [done|].
  exists file, (ClassStore.changed (class_store_of w)).
  unfold class_store_of. cbn zeta. cbn [World.graph].
  destruct (World.graph w) as [f ? ? ? ? ? cs ? ? ? ? ? ?]. by destruct cs.
Qed.

Lemma flush_frame_changed (w : World.t) (changed : IdSet.t) (w' : World.t) :
  put_changed changed w = Some (tt, w') → flush_frame w w'.
Proof.
  intros [= <-]. split; [done|]. split; [done|].
  exists (Graph.graph_file (World.graph w)), changed.
  unfold class_store_of. cbn zeta. cbn [World.graph].
  destruct (World.graph w) as [f ? ? ? ? ? cs ? ? ? ? ? ?]. by destruct cs.
Qed.

Lemma write_bytes_with_file (g : Graph.t) (bytes : list Z) (n offset : Z) :
  ∃ file, Fabric_Graph_write_bytes g bytes n offset = Graph.with_file g file.
Proof. unfold Fabric_Graph_write_bytes. by eexists. Qed.

Lemma ClassStore_flush_loop_frame (host : byte_order) (changed_ids : list Z)
    (max_id : Z) (w w' : World.t) (r : option error_t) :
  ClassStore_flush_loop host changed_ids max_id w = Some (r, w') →
  flush_frame w w'.
Proof.
  revert w. induction changed_ids as [|changed_id rest IH]; intros w.
  - intros [= _ <-]. apply flush_frame_refl.
  - cbn [ClassStore_flush_loop]. intros H.
    apply bind_inv in H as (self & w1 & [= <- <-] & H).
    apply bind_inv in H as (changed_class & w1 & Hget & H).
    apply lift_option_inv in Hget as [_ ->].
    destruct (max_id <? changed_id).
    { injection H as _ <-. apply flush_frame_refl. }
    apply bind_inv in H as (v & w1 & Hv & H).
    apply deref_inv in Hv as ->.
    apply bind_inv in H as (graph & w1 & [= <- <-] & H).
    apply bind_inv in H as ([] & w1 & [= <-] & H).
    apply bind_inv in H as (self' & w2 & [= <- <-] & H).
    apply bind_inv in H as (changed & w2 & Hrem & H).
    apply lift_option_inv in Hrem as [Hrem ->].
    apply bind_inv in H as ([] & w2 & Hput & H).
    apply IH in H.
    destruct (write_bytes_with_file (World.graph w)
                (Fabric_Class_load_bytes host v) FABRIC_CLASS_STORAGE_SIZE
                (Fabric_ClassStore__get_id_offset
                   (Graph.class_store (World.graph w)) changed_id))
      as [file Hfile].
    rewrite Hfile in *.
    eapply flush_frame_trans; [apply (flush_frame_file w file)|].
    eapply flush_frame_trans; [|exact H].
    eapply flush_frame_changed. exact Hput.
Qed.

(** X24: [Fabric_ClassStore_flush] changes the file and the changed set
    and nothing else.  Whatever status it returns, the class objects, the
    counters of the store, its offset and size, the cache, and the rest of
    the graph are what they were before the call. *)
Theorem ClassStore_flush_frame (host : byte_order) (w w' : World.t)
    (status : error_t) :
  Fabric_ClassStore_flush host w = Some (status, w') → flush_frame w w'.
Proof.
  unfold Fabric_ClassStore_flush. intros H.
  apply bind_inv in H as (self & w1 & [= <- <-] & H).
  destruct (Fabric_IdSet_is_empty _).
  { injection H as _ <-. apply flush_frame_refl. }
  apply bind_inv in H as ([changed_ids st] & w1 & Harr & H).
  apply lift_option_inv in Harr as [Harr ->].
  destruct (negb (FABRIC_OK =? st)).
  { injection H as _ <-. apply flush_frame_refl. }
  apply bind_inv in H as (r & w1 & Hloop & H).
  apply ClassStore_flush_loop_frame in Hloop.
  destruct r as [st'|].
  { injection H as _ <-. exact Hloop. }
  apply bind_inv in H as (self' & w2 & [= <- <-] & H).
  apply bind_inv in H as (graph & w3 & [= <- <-] & H).
  apply bind_inv in H as ([] & w4 & [= <-] & H).
  injection H as _ <-.
  eapply flush_frame_trans; [exact Hloop|].
  unfold Fabric_Graph_write_uint16.
  repeat match goal with
         | |- context [Fabric_Graph_write_bytes ?g ?b ?n ?o] =>
             let f := fresh "file" in
             let Hf := fresh "Hfile" in
             destruct (write_bytes_with_file g b n o) as [f Hf]; rewrite Hf
         end.
  apply (flush_frame_file w1).
Qed.

Lemma ClassStore_flush_frame_witness :
  ∃ w' : World.t,
    Fabric_ClassStore_flush BigEndian (family_less_2 BigEndian)
    = Some (FABRIC_OK, w')
    ∧ flush_frame (family_less_2 BigEndian) w'.
Proof.
  eexists. split; [vm_compute; reflexivity|].
  eapply (ClassStore_flush_frame BigEndian). vm_compute. reflexivity.
Defined.

Lemma read_bytes_contents (g : Graph.t) (n offset : Z) :
  ∃ p, snd (Fabric_Graph_read_bytes g n offset)
       = Graph.with_file g (FILE.mk (FILE.contents (Graph.graph_file g)) p).
Proof.
  unfold Fabric_Graph_read_bytes.
  set (f := if negb (offset =? -1) then _ else _).
  assert (Hf : FILE.contents f = FILE.contents (Graph.graph_file g)).
  { subst f. destruct (negb _); [|done]. unfold fseek.
    by destruct (offset <? 0). }
  assert (Hloop : ∀ (k : nat) (f : FILE.t),
            FILE.contents (snd (Graph_read_loop k f)) = FILE.contents f).
  { induction k as [|k IH]; intros f'; [done|].
    cbn [Graph_read_loop]. unfold fgetc.
    destruct (FILE.contents f' !! _).
    - specialize (IH (FILE.mk (FILE.contents f') (FILE.position f' + 1))).
      destruct (Graph_read_loop k _). exact IH.
    - specialize (IH f'). destruct (Graph_read_loop k _). exact IH. }
  specialize (Hloop (Z.to_nat n) f).
  destruct (Graph_read_loop (Z.to_nat n) f) as [bs [c p]].
  cbn in *. exists p. by rewrite Hloop, Hf.
Qed.

(** The class store of a state with another cache. *)
Lemma get_class_load_inv (host : byte_order) (class_id : Z) (status : nat)
    (w w1 : World.t) (r : ptr * error_t) :
  Fabric_EntityMap_get host (ClassStore.cache (class_store_of w)) class_id
  = Some NULL →
  Fabric_ClassStore_get_class host class_id (S status) w = Some (r, w1) →
  (r = (NULL, FABRIC_CLASSSTORE_INVALID_ID) ∧ w1 = w)
  ∨ (1 ≤ class_id
     ∧ ∃ (v : Class.t) (p : Z) (m' : EntityMap.t) (st : error_t),
         Fabric_EntityMap_set host (ClassStore.cache (class_store_of w))
           class_id (S (length (World.heap w)))
         = Some (m', st)
         ∧ Class.id v = class_id
         ∧ r = (if Fabric_Class_is_in_use v
                then (S (length (World.heap w)), FABRIC_OK)
                else (NULL, FABRIC_CLASS_DOESNT_EXIST))
         ∧ w1 = World.mk (World.heap w ++ [v]) (World.junk w)
                  (Graph.with_class_store
                     (Graph.with_file (World.graph w)
                        (FILE.mk (FILE.contents
                                    (Graph.graph_file (World.graph w))) p))
                     (let self := class_store_of w in
                      ClassStore.mk (ClassStore.offset self)
                        (ClassStore.num_classes self)
                        (ClassStore.next_free_id self)
                        (ClassStore.last_free_id self) (ClassStore.size self)
                        m' (ClassStore.changed self)))).
Proof.
  intros Hget H. unfold Fabric_ClassStore_get_class in H.
  apply bind_inv in H as (self & w0 & [= <- <-] & H).
  apply bind_inv in H as (c & w0 & Hc & H).
  apply lift_option_inv in Hc as [Hc ->].
  unfold class_store_of in Hget. rewrite Hget in Hc. injection Hc as <-.
  apply bind_inv in H as ([] & w0 & [= <-] & H).
  destruct (decide (NULL = NULL)) as [_|]; [|done].
  destruct (Z.ltb_spec class_id 1) as [Hlt|Hge].
  { rewrite orb_true_r in H. injection H as <- <-. by left. }
  rewrite orb_false_r in H.
  destruct (_ <? _).
  { injection H as <- <-. by left. }
  right. split; [done|].
  apply bind_inv in H as (g & w0 & [= <- <-] & H).
  destruct (read_bytes_contents (World.graph w) FABRIC_CLASS_STORAGE_SIZE
              (Fabric_ClassStore__get_id_offset
                 (Graph.class_store (World.graph w)) class_id)) as [p Hp].
  destruct (Fabric_Graph_read_bytes _ _ _) as [data g']. cbn [snd] in Hp.
  subst g'.
  apply bind_inv in H as ([] & w0 & [= <-] & H).
  apply bind_inv in H as ([c st] & w0 & Hnew & H).
  unfold Fabric_Class_new in Hnew.
  apply bind_inv in Hnew as (c' & w2 & [= <- <-] & Hnew).
  apply bind_inv in Hnew as ([] & w2 & Hupd & Hnew).
  unfold update in Hupd.
  apply bind_inv in Hupd as (v0 & w3 & Hv0 & Hupd).
  unfold deref in Hv0. cbn [World.heap] in Hv0.
  rewrite lookup_app_r, Nat.sub_diag in Hv0 by done.
  injection Hv0 as <- <-.
  unfold assign in Hupd. cbn [World.heap World.junk World.graph] in Hupd.
  rewrite lookup_app_r, Nat.sub_diag in Hupd by done.
  cbn [lookup list_lookup] in Hupd. injection Hupd as <-.
  apply bind_inv in Hnew as ([] & w2 & [= <-] & Hnew).
  injection Hnew as <- <- <-.
  cbn [FABRIC_OK Z.eqb negb] in H.
  apply bind_inv in H as (v1 & w2 & Hv1 & H).
  unfold deref in Hv1. cbn [World.heap] in Hv1.
  rewrite list_lookup_insert_eq in Hv1
    by (rewrite length_app; cbn [length]; lia).
  injection Hv1 as <- <-.
  unfold Fabric_Class_init in H. cbn [Fabric_Class_set_id Class.id] in H.
  destruct (Z.ltb_spec class_id 1); [lia|].
  apply bind_inv in H as ([] & w2 & Hass & H).
  unfold assign in Hass. cbn [World.heap World.junk World.graph] in Hass.
  rewrite list_lookup_insert_eq in Hass
    by (rewrite length_app; cbn [length]; lia).
  injection Hass as <-.
  apply bind_inv in H as (stc & w2 & Hset & H).
  unfold cache_set in Hset.
  apply bind_inv in Hset as (self' & w3 & [= <- <-] & Hset).
  apply bind_inv in Hset as ([m' st'] & w3 & Hm & Hset).
  apply lift_option_inv in Hm as [Hm ->].
  apply bind_inv in Hset as ([] & w3 & [= <-] & Hset).
  injection Hset as <- <-.
  unfold ClassStore_get_class_in_use in H.
  apply bind_inv in H as (v2 & w2 & Hv2 & H).
  unfold deref in Hv2. cbn [World.heap] in Hv2.
  rewrite list_insert_insert_eq in Hv2.
  rewrite list_lookup_insert_eq in Hv2
    by (rewrite length_app; cbn [length]; lia).
  injection Hv2 as <- <-.
  rewrite insert_app_r_alt in H by lia. rewrite Nat.sub_diag in H.
  cbn [insert list_insert] in H.
  match type of H with
  | context [Fabric_Class_is_in_use ?v] => exists v, p, m', st'
  end.
  split; [exact Hm|]. split; [reflexivity|].
  destruct (Fabric_Class_is_in_use _); cbn [negb] in H;
    injection H as <- <-; done.
Qed.

Ltac mrun := erewrite bind_run; [|reflexivity].

Lemma get_class_cached_run (host : byte_order) (class_id : Z) (status : nat)
    (w : World.t) (c : ptr) :
  Fabric_EntityMap_get host (ClassStore.cache (class_store_of w)) class_id
  = Some c →
  c ≠ NULL →
  Fabric_ClassStore_get_class host class_id (S status) w
  = ClassStore_get_class_in_use c FABRIC_OK w.
Proof.
  intros Hget Hc. unfold Fabric_ClassStore_get_class.
  mrun. unfold class_store_of in Hget. rewrite Hget.
  mrun. mrun. by destruct (decide (c = NULL)).
Qed.

Lemma get_class_inv (host : byte_order) (class_id : Z) (status : ptr)
    (w w1 : World.t) (r : ptr * error_t) :
  Fabric_ClassStore_get_class host class_id status w = Some (r, w1) →
  ∃ (c : ptr) (status' : nat),
    status = S status'
    ∧ Fabric_EntityMap_get host (ClassStore.cache (class_store_of w)) class_id
      = Some c.
Proof.
  unfold Fabric_ClassStore_get_class. intros H.
  apply bind_inv in H as (self & w0 & [= <- <-] & H).
  apply bind_inv in H as (c & w0 & Hc & H).
  apply lift_option_inv in Hc as [Hc ->].
  apply bind_inv in H as ([] & w0 & Hst & H).
  destruct status as [|status']; [done|]. by exists c, status'.
Qed.

Lemma get_class_in_use_inv (c : ptr) (st : error_t) (w w1 : World.t)
    (r : ptr * error_t) :
  ClassStore_get_class_in_use c st w = Some (r, w1) → w1 = w.
Proof.
  unfold ClassStore_get_class_in_use. intros H.
  apply bind_inv in H as (v & w0 & Hv & H).
  apply deref_inv in Hv as ->.
  destruct (negb _); by injection H as _ <-.
Qed.

(** X25: [Fabric_ClassStore_get_class] keeps what it has loaded.  On a
    store whose cache is a well-formed table with a free slot, a lookup
    that has returned returns the same object (or the same refusal) when
    it is repeated, and the repeated lookup changes nothing: it reads no
    file and allocates no object.  The cache is still a well-formed
    table. *)
Theorem ClassStore_get_class_again (host : byte_order) (class_id : Z)
    (status : ptr) (w w1 : World.t) (r : ptr * error_t) :
  EntityMap_wf host (ClassStore.cache (class_store_of w)) →
  Fabric_EntityMap_get_count (ClassStore.cache (class_store_of w))
  < Fabric_EntityMap_get_capacity (ClassStore.cache (class_store_of w)) →
  2 * Fabric_EntityMap_get_capacity (ClassStore.cache (class_store_of w))
  < FABRIC_ENTITYMAP_TOMBSTONE →
  0 ≤ class_id < 2 ^ 16 →
  Fabric_ClassStore_get_class host class_id status w = Some (r, w1) →
  Fabric_ClassStore_get_class host class_id status w1 = Some (r, w1)
  ∧ EntityMap_wf host (ClassStore.cache (class_store_of w1)).
Proof.
  intros Hwf Hroom Hbig Hid H.
  destruct (get_class_inv _ _ _ _ _ _ H) as (c & status' & -> & Hget).
  destruct (decide (c = NULL)) as [->|Hc].
  - destruct (get_class_load_inv _ _ _ _ _ _ Hget H)
      as [[-> ->]|(Hge & v & p & m' & st & Hset & Hv & -> & ->)]; [done|].
    destruct (EntityMap_set_any host _ class_id (S (length (World.heap w)))
                Hwf Hroom Hbig ltac:(lia))
      as (m'' & Hset' & Hwf' & Hbound & _).
    rewrite Hset in Hset'. injection Hset' as Hm Hst. subst m'' st.
    split; [|exact Hwf'].
    destruct (EntityMap_get_bound host m' class_id (S (length (World.heap w))))
      as [Hget' _]; [apply Hwf' | apply Hbound; by left |].
    rewrite get_class_cached_run with (c := S (length (World.heap w)));
      [|exact Hget'|done].
    unfold ClassStore_get_class_in_use.
    erewrite bind_run;
      [|unfold deref; cbn [World.heap];
        rewrite lookup_app_r, Nat.sub_diag by done; reflexivity].
    by destruct (Fabric_Class_is_in_use v).
  - rewrite (get_class_cached_run host class_id status' w c Hget Hc) in H.
    pose proof (get_class_in_use_inv _ _ _ _ _ H) as ->.
    split; [|done].
    by rewrite (get_class_cached_run host class_id status' w c Hget Hc).
Qed.

Lemma ClassStore_get_class_again_witness :
  let w := store_world LittleEndian [] 0 1 1 [] [] in
  ∃ r w1,
    Fabric_ClassStore_get_class LittleEndian 1 1%nat w = Some (r, w1)
    ∧ length (World.heap w1) = 1%nat
    ∧ Fabric_ClassStore_get_class LittleEndian 1 1%nat w1 = Some (r, w1).
Proof.
  cbn zeta. eexists. eexists.
  split; [vm_compute; reflexivity|]. split; [reflexivity|].
  eapply (ClassStore_get_class_again LittleEndian 1 1%nat
            (store_world LittleEndian [] 0 1 1 [] [])).
  - apply ClassCache_wf_new.
  - by vm_compute.
  - by vm_compute.
  - lia.
  - vm_compute. reflexivity.
Defined.

(** X26: [Fabric_ClassStore_get_class] never writes.  Whatever it returns,
    the bytes of the file, the counters of the store, its offset and size
    and the changed set are those before the call, and the class objects
    that existed are where they were and as they were; at most one object
    has been added. *)
Theorem ClassStore_get_class_frame (host : byte_order) (class_id : Z)
    (status : ptr) (w w1 : World.t) (r : ptr * error_t) :
  Fabric_ClassStore_get_class host class_id status w = Some (r, w1) →
  (∃ added, World.heap w1 = World.heap w ++ added ∧ (length added ≤ 1)%nat)
  ∧ FILE.contents (Graph.graph_file (World.graph w1))
    = FILE.contents (Graph.graph_file (World.graph w))
  ∧ ClassStore.num_classes (class_store_of w1)
    = ClassStore.num_classes (class_store_of w)
  ∧ ClassStore.next_free_id (class_store_of w1)
    = ClassStore.next_free_id (class_store_of w)
  ∧ ClassStore.last_free_id (class_store_of w1)
    = ClassStore.last_free_id (class_store_of w)
  ∧ ClassStore.offset (class_store_of w1) = ClassStore.offset (class_store_of w)
  ∧ ClassStore.size (class_store_of w1) = ClassStore.size (class_store_of w)
  ∧ ClassStore.changed (class_store_of w1)
    = ClassStore.changed (class_store_of w).
Proof.
  intros H.
  assert (Hsame : w1 = w →
            (∃ added, World.heap w1 = World.heap w ++ added
                      ∧ (length added ≤ 1)%nat)
            ∧ FILE.contents (Graph.graph_file (World.graph w1))
              = FILE.contents (Graph.graph_file (World.graph w))
            ∧ ClassStore.num_classes (class_store_of w1)
              = ClassStore.num_classes (class_store_of w)
            ∧ ClassStore.next_free_id (class_store_of w1)
              = ClassStore.next_free_id (class_store_of w)
            ∧ ClassStore.last_free_id (class_store_of w1)
              = ClassStore.last_free_id (class_store_of w)
            ∧ ClassStore.offset (class_store_of w1)
              = ClassStore.offset (class_store_of w)
            ∧ ClassStore.size (class_store_of w1)
              = ClassStore.size (class_store_of w)
            ∧ ClassStore.changed (class_store_of w1)
              = ClassStore.changed (class_store_of w)).
  { intros ->. split; [|done]. exists [].
    split; [by rewrite app_nil_r | cbn; lia]. }
  destruct (get_class_inv _ _ _ _ _ _ H) as (c & status' & -> & Hget).
  destruct (decide (c = NULL)) as [->|Hc].
  - destruct (get_class_load_inv _ _ _ _ _ _ Hget H)
      as [[-> ->]|(Hge & v & p & m' & st & Hset & Hv & -> & ->)];
      [by apply Hsame|].
    split; [exists [v]; split; [done | cbn; lia]|]. done.
  - rewrite (get_class_cached_run host class_id status' w c Hget Hc) in H.
    apply Hsame. by eapply get_class_in_use_inv.
Qed.

Lemma ClassStore_get_class_frame_witness :
  let w := store_world BigEndian [] 0 1 1 [] [] in
  ∃ r w1,
    Fabric_ClassStore_get_class BigEndian 1 1%nat w = Some (r, w1)
    ∧ FILE.contents (Graph.graph_file (World.graph w1))
      = FILE.contents (Graph.graph_file (World.graph w)).
Proof.
  cbn zeta. eexists. eexists.
  split; [vm_compute; reflexivity|].
  eapply (ClassStore_get_class_frame BigEndian 1 1%nat
            (store_world BigEndian [] 0 1 1 [] [])).
  vm_compute. reflexivity.
Defined.

(** *** The free list *)

(** The chain lies in the cache and in the objects it reaches. *)
Lemma free_chain_ext (host : byte_order) (w w' : World.t) (freed : list Z)
    (last : Z) :
  ClassStore.cache (class_store_of w') = ClassStore.cache (class_store_of w) →
  (∀ (c : nat) (v : Class.t),
     World.heap w !! c = Some v → Class.id v ∈ freed →
     World.heap w' !! c = Some v) →
  ∀ next, free_chain host w next freed last →
          free_chain host w' next freed last.
Proof.
  intros Hcache. induction freed as [|id rest IH]; intros Hheap next; [done|].
  cbn [free_chain]. intros (Hnext & Hlast & c & v & Hhas & Hget & Hv & Hid & Hrest).
  split; [done|]. split; [done|]. exists c, v.
  rewrite Hcache. split; [done|]. split; [done|].
  split; [apply Hheap; [done | rewrite Hid; by left]|]. split; [done|].
  apply IH; [|done]. intros c' v' Hc' Hin. apply Hheap; [done | by right].
Qed.

(** What an allocation does to the free list. *)
Lemma next_id_free_list (host : byte_order) (w : World.t)
    (freed : list Z) :
  free_list host w freed →
  ∃ (id : Z) (w' : World.t),
    Fabric_ClassStore__next_id host w = Some (id, w')
    ∧ World.heap w' = World.heap w
    ∧ ClassStore.cache (class_store_of w') = ClassStore.cache (class_store_of w)
    ∧ Graph.graph_file (World.graph w') = Graph.graph_file (World.graph w)
    ∧ match freed with
      | head :: rest =>
          id = head ∧ free_list host w' rest
          ∧ ClassStore.last_free_id (class_store_of w')
            = ClassStore.last_free_id (class_store_of w)
      | [] =>
          id = ClassStore.last_free_id (class_store_of w)
          ∧ free_list host w' []
          ∧ ClassStore.last_free_id (class_store_of w')
            = uint16 (ClassStore.last_free_id (class_store_of w) + 1)
      end.
Proof.
  unfold free_list, class_store_of. intros Hchain.
  unfold Fabric_ClassStore__next_id. mrun.
  destruct freed as [|head rest]; cbn [free_chain] in Hchain.
  - rewrite Hchain, Z.eqb_refl.
    eexists _, _. split; [reflexivity|]. cbn.
    split; [done|]. split; [done|]. split; [done|].
    split; [done|]. split; [|done]. reflexivity.
  - destruct Hchain as (Hnext & Hlast & c & v & Hhas & Hget & Hv & Hid & Hrest).
    rewrite Hnext. apply Z.eqb_neq in Hlast. rewrite Hlast.
    unfold class_store_of in Hhas, Hget. rewrite Hhas, Hget.
    eexists _, _. split.
    { erewrite bind_run; [reflexivity|].
      mrun. cbv beta iota. mrun.
      erewrite bind_run; [|unfold deref; rewrite Hv; reflexivity].
      reflexivity. }
    cbn. split; [done|]. split; [done|]. split; [done|].
    split; [done|]. split; [|done].
    eapply free_chain_ext; [| |exact Hrest]; [reflexivity | done].
Qed.

(** X27: allocation pops the free list.  When the list is not empty,
    [Fabric_ClassStore__next_id] returns the id at its head and the rest
    is the free list afterwards; when it is empty, it returns
    [last_free_id] and advances both counters by one (modulo 2^16), and
    the list stays empty.  Nothing else changes. *)
Theorem ClassStore_next_id_pops (host : byte_order) (w : World.t)
    (freed : list Z) :
  free_list host w freed →
  ∃ (id : Z) (w' : World.t),
    Fabric_ClassStore__next_id host w = Some (id, w')
    ∧ World.heap w' = World.heap w
    ∧ ClassStore.cache (class_store_of w') = ClassStore.cache (class_store_of w)
    ∧ Graph.graph_file (World.graph w') = Graph.graph_file (World.graph w)
    ∧ match freed with
      | head :: rest =>
          id = head ∧ free_list host w' rest
          ∧ ClassStore.last_free_id (class_store_of w')
            = ClassStore.last_free_id (class_store_of w)
      | [] =>
          id = ClassStore.last_free_id (class_store_of w)
          ∧ free_list host w' []
          ∧ ClassStore.last_free_id (class_store_of w')
            = uint16 (ClassStore.last_free_id (class_store_of w) + 1)
      end.
Proof. apply next_id_free_list. Qed.

Lemma ClassStore_next_id_pops_witness :
  ∃ w' : World.t,
    Fabric_ClassStore__next_id BigEndian (released BigEndian) = Some (2, w')
    ∧ free_list BigEndian w' [].
Proof.
  destruct (ClassStore_next_id_pops BigEndian (released BigEndian) [2])
    as (id & w' & Hrun & _ & _ & _ & -> & Hlist & _).
  - split; [reflexivity|]. split; [by vm_compute|].
    exists 1%nat, (Class.mk 2 0 3 0 0 0 0 0 1).
    split; [vm_compute; reflexivity|]. split; [vm_compute; reflexivity|].
    split; [reflexivity|]. split; [reflexivity|]. reflexivity.
  - exists w'. split; [exact Hrun | exact Hlist].
Defined.

(** What a release does to the free list. *)
Lemma add_free_id_free_list (host : byte_order) (w : World.t)
    (freed : list Z) (c : nat) (v : Class.t) :
  free_list host w freed →
  World.heap w !! c = Some v →
  Fabric_EntityMap_has_key host (ClassStore.cache (class_store_of w))
    (Class.id v) = Some true →
  Fabric_EntityMap_get host (ClassStore.cache (class_store_of w)) (Class.id v)
  = Some (S c) →
  Class.id v ∉ freed →
  Class.id v ≠ ClassStore.last_free_id (class_store_of w) →
  ∃ w' : World.t,
    Fabric_ClassStore__add_free_id (S c) w = Some (tt, w')
    ∧ free_list host w' (Class.id v :: freed)
    ∧ World.heap w'
      = <[c := Fabric_Class_set_parent_class_id v
                 (ClassStore.next_free_id (class_store_of w))]> (World.heap w)
    ∧ ClassStore.last_free_id (class_store_of w')
      = ClassStore.last_free_id (class_store_of w)
    ∧ ClassStore.cache (class_store_of w') = ClassStore.cache (class_store_of w).
Proof.
  unfold free_list, class_store_of.
  intros Hchain Hv Hhas Hget Hfresh Hlast.
  assert (Hlt : (c < length (World.heap w))%nat)
    by (by eapply lookup_lt_Some).
  unfold Fabric_ClassStore__add_free_id. eexists. split.
  { mrun. unfold update.
    erewrite bind_run;
      [|erewrite bind_run; [|unfold deref; rewrite Hv; reflexivity];
        unfold assign; rewrite Hv; reflexivity].
    erewrite bind_run;
      [|unfold deref; cbn [World.heap];
        rewrite list_lookup_insert_eq by done; reflexivity].
    reflexivity. }
  cbn. split; [|done].
  split; [done|]. split; [done|].
  exists c, (Fabric_Class_set_parent_class_id v
               (ClassStore.next_free_id (Graph.class_store (World.graph w)))).
  split; [done|]. split; [done|].
  split; [by apply list_lookup_insert_eq|]. split; [done|].
  cbn [Fabric_Class_set_parent_class_id Class.parent_id].
  eapply free_chain_ext; [| |exact Hchain]; [reflexivity|].
  intros c' v' Hc' Hin. cbn [World.heap].
  rewrite list_lookup_insert_ne; [done|].
  intros <-. rewrite Hv in Hc'. injection Hc' as <-. done.
Qed.

(** X28: a release pushes on the free list.  For a class object that is
    cached under its id, whose id is neither on the list nor
    [last_free_id], [Fabric_ClassStore__add_free_id] returns, and
    afterwards the free list is the id followed by the list before; the
    only object changed is the one released, and of it only the parent id,
    which now holds the old head. *)
Theorem ClassStore_add_free_id_pushes (host : byte_order) (w : World.t)
    (freed : list Z) (c : nat) (v : Class.t) :
  free_list host w freed →
  World.heap w !! c = Some v →
  Fabric_EntityMap_has_key host (ClassStore.cache (class_store_of w))
    (Class.id v) = Some true →
  Fabric_EntityMap_get host (ClassStore.cache (class_store_of w)) (Class.id v)
  = Some (S c) →
  Class.id v ∉ freed →
  Class.id v ≠ ClassStore.last_free_id (class_store_of w) →
  ∃ w' : World.t,
    Fabric_ClassStore__add_free_id (S c) w = Some (tt, w')
    ∧ free_list host w' (Class.id v :: freed)
    ∧ World.heap w'
      = <[c := Fabric_Class_set_parent_class_id v
                 (ClassStore.next_free_id (class_store_of w))]> (World.heap w)
    ∧ ClassStore.last_free_id (class_store_of w')
      = ClassStore.last_free_id (class_store_of w)
    ∧ ClassStore.cache (class_store_of w') = ClassStore.cache (class_store_of w).
Proof. apply add_free_id_free_list. Qed.

Lemma ClassStore_add_free_id_pushes_witness :
  ∃ w' : World.t,
    Fabric_ClassStore__add_free_id 2%nat (family BigEndian) = Some (tt, w')
    ∧ free_list BigEndian w' [2].
Proof.
  destruct (ClassStore_add_free_id_pushes BigEndian (family BigEndian) []
              1%nat (Class.mk 2 2 1 0 0 0 0 0 1))
    as (w' & Hrun & Hlist & _).
  - reflexivity.
  - reflexivity.
  - vm_compute. reflexivity.
  - vm_compute. reflexivity.
  - apply not_elem_of_nil.
  - by vm_compute.
  - exists w'. split; [exact Hrun | exact Hlist].
Defined.

(** *** The free list under any history *)






(** Two deletions through [Fabric_ClassStore_delete_class], of class 2 and
    then of class 3 of [family]: the free list is 2, then 3 and 2, and the
    next allocation hands out 3. *)
Example delete_class_free_list (host : byte_order) :
  ∃ w1 w2 : World.t,
    Fabric_ClassStore_delete_class host 2%nat (family host)
    = Some (FABRIC_OK, w1)
    ∧ free_list host w1 [2]
    ∧ Fabric_ClassStore_delete_class host 3%nat w1 = Some (FABRIC_OK, w2)
    ∧ free_list host w2 [3; 2]
    ∧ (fst <$> Fabric_ClassStore__next_id host w2) = Some 3.
Proof.
  destruct host; eexists _, _.
  all: split; [vm_compute; reflexivity|].
  all: split.
  all: try (split; [vm_compute; reflexivity|]).
  all: try (split; [|vm_compute; reflexivity]).
  all: unfold free_list; cbn [free_chain].
  all: repeat match goal with
       | |- _ ∧ _ => split
       | |- ∃ (c : nat) (v : Class.t), _ => eexists _, _
       end.
  all: try (vm_compute; first [reflexivity | discriminate]).
Qed.

(** *** Deletion of a first child *)

Lemma cache_set_inv (host : byte_order) (key : Z) (entity : ptr)
    (w w1 : World.t) (st : error_t) :
  cache_set host key entity w = Some (st, w1) →
  ∃ m',
    Fabric_EntityMap_set host (ClassStore.cache (class_store_of w)) key entity
    = Some (m', st)
    ∧ World.heap w1 = World.heap w
    ∧ ClassStore.cache (class_store_of w1) = m'.
Proof.
  unfold cache_set. intros H.
  apply bind_inv in H as (self & w0 & [= <- <-] & H).
  apply bind_inv in H as ([m' st'] & w0 & Hm & H).
  apply lift_option_inv in Hm as [Hm ->].
  apply bind_inv in H as ([] & w0 & [= <-] & H).
  injection H as <- <-. by exists m'.
Qed.

Lemma changed_add_inv (host : byte_order) (id : Z) (w w1 : World.t)
    (st : error_t) :
  changed_add host id w = Some (st, w1) →
  World.heap w1 = World.heap w
  ∧ ClassStore.cache (class_store_of w1) = ClassStore.cache (class_store_of w).
Proof.
  unfold changed_add. intros H.
  apply bind_inv in H as (self & w0 & [= <- <-] & H).
  apply bind_inv in H as ([s' st'] & w0 & Hs & H).
  apply lift_option_inv in Hs as [Hs ->].
  apply bind_inv in H as ([] & w0 & [= <-] & H).
  by injection H as <- <-.
Qed.

Lemma update_inv (c : ptr) (f : Class.t → Class.t) (w w1 : World.t) :
  update c f w = Some (tt, w1) →
  ClassStore.cache (class_store_of w1) = ClassStore.cache (class_store_of w)
  ∧ ∃ (i : nat) (v : Class.t),
      c = S i ∧ World.heap w !! i = Some v
      ∧ World.heap w1 = <[i := f v]> (World.heap w).
Proof.
  unfold update, deref, assign. intros H.
  apply bind_inv in H as (v & w0 & Hv & H).
  destruct c as [|i]; [done|].
  destruct (World.heap w !! i) as [v'|] eqn:Hi; [|done].
  injection Hv as <- <-. rewrite Hi in H. injection H as <-.
  split; [done|]. by exists i, v'.
Qed.

Lemma or_else_inv (status : error_t) (call : M error_t) (w w1 : World.t)
    (st : error_t) :
  or_else status call w = Some (st, w1) →
  (status ≠ FABRIC_OK ∧ st = status ∧ w1 = w)
  ∨ (status = FABRIC_OK ∧ call w = Some (st, w1)).
Proof.
  unfold or_else. destruct (Z.eqb_spec status FABRIC_OK) as [->|Hne].
  - intros H. by right.
  - intros [= <- <-]. by left.
Qed.

Lemma changed_add_status (host : byte_order) (id : Z) (w w1 : World.t)
    (st : error_t) :
  changed_add host id w = Some (st, w1) → st = FABRIC_OK.
Proof.
  unfold changed_add. intros H.
  apply bind_inv in H as (self & w0 & [= <- <-] & H).
  apply bind_inv in H as ([s' st'] & w0 & Hs & H).
  apply lift_option_inv in Hs as [Hs ->].
  apply bind_inv in H as ([] & w0 & [= <-] & H).
  injection H as <- _. by apply IdSet_add_inv in Hs as [-> _].
Qed.

Lemma add_free_id_inv (c : ptr) (w w1 : World.t) :
  Fabric_ClassStore__add_free_id c w = Some (tt, w1) →
  ClassStore.cache (class_store_of w1) = ClassStore.cache (class_store_of w).
Proof.
  unfold Fabric_ClassStore__add_free_id. intros H.
  apply bind_inv in H as (self & w0 & [= <- <-] & H).
  apply bind_inv in H as ([] & w0 & Hupd & H).
  apply update_inv in Hupd as [Hcache _].
  apply bind_inv in H as (v & w2 & Hv & H).
  apply deref_inv in Hv as ->.
  injection H as <-. exact Hcache.
Qed.

(** X29: deleting a first child loses the parent.  The parent object is
    given the next sibling as its first child, but the cache is then told
    to hold NULL for the parent's id (the variable passed is the
    predecessor in the sibling chain, which a first child does not have).
    After a deletion that has returned FABRIC_OK, the parent's id is still
    a key of the cache and the entity found under it is NULL. *)
Theorem delete_first_child_forgets_parent (host : byte_order)
    (w w' : World.t) (ic ip : nat) (cv pv : Class.t) :
  ClassCache_wf host (ClassStore.cache (class_store_of w)) →
  World.heap w !! ic = Some cv →
  World.heap w !! ip = Some pv →
  Class.label_id cv ≠ 0 → Class.first_child_id cv = 0 → Class.count cv ≤ 0 →
  Fabric_EntityMap_get host (ClassStore.cache (class_store_of w))
    (Class.parent_id cv) = Some (S ip) →
  Class.label_id pv ≠ 0 →
  Class.first_child_id pv = Class.id cv →
  0 < Class.id pv < 2 ^ 16 → 0 < Class.id cv < 2 ^ 16 →
  Class.id pv ≠ Class.id cv →
  Fabric_ClassStore_delete_class host (S ic) w = Some (FABRIC_OK, w') →
  Fabric_EntityMap_get host (ClassStore.cache (class_store_of w'))
    (Class.id pv) = Some NULL
  ∧ Fabric_EntityMap_has_key host (ClassStore.cache (class_store_of w'))
      (Class.id pv) = Some true.
Proof.
  intros Hwf Hcv Hpv Hlabel Hchild Hcount Hparent Hplabel Hfirst Hpid Hcid
    Hne H.
  assert (Hc : deref (S ic) w = Some (cv, w))
    by (unfold deref; by rewrite Hcv).
  assert (Hp : deref (S ip) w = Some (pv, w))
    by (unfold deref; by rewrite Hpv).
  unfold Fabric_ClassStore_delete_class in H.
  rewrite (bind_deref _ _ _ _ Hc) in H.
  unfold Fabric_Class_is_in_use, Fabric_Class_has_child_classes,
    Fabric_Class_has_members, Fabric_Class_get_id in H.
  destruct (Z.eqb_spec (Class.label_id cv) 0) as [|_]; [done|].
  rewrite Hchild in H. cbn [Z.eqb negb] in H.
  destruct (Z.ltb_spec 0 (Class.count cv)) as [|_]; [lia|].
  apply bind_inv in H as ([pc st] & w1 & Hpar & H).
  unfold Fabric_Class_get_parent_class in Hpar.
  rewrite (bind_deref _ _ _ _ Hc) in Hpar.
  unfold local_status in Hpar.
  rewrite (get_class_cached_run host _ 0 w (S ip) Hparent) in Hpar by done.
  unfold ClassStore_get_class_in_use in Hpar.
  rewrite (bind_deref _ _ _ _ Hp) in Hpar.
  unfold Fabric_Class_is_in_use in Hpar.
  destruct (Z.eqb_spec (Class.label_id pv) 0) as [|_]; [done|].
  cbn [negb] in Hpar. injection Hpar as <- <- <-.
  cbn [FABRIC_OK Z.eqb negb] in H.
  apply bind_inv in H as (unl & w2 & Hunl & H).
  unfold ClassStore_delete_class_unlink in Hunl.
  rewrite (bind_deref _ _ _ _ Hp) in Hunl.
  unfold Fabric_Class_get_first_child_class_id in Hunl.
  rewrite Hfirst, Z.eqb_refl in Hunl.
  rewrite (bind_deref _ _ _ _ Hc) in Hunl.
  apply bind_inv in Hunl as ([] & wa & Hupd & Hunl).
  apply update_inv in Hupd as (Hcache_a & i & v & [= <-] & Hv & Hheap_a).
  rewrite Hpv in Hv. injection Hv as <-.
  apply bind_inv in Hunl as (pv1 & wb & Hd & Hunl).
  pose proof (deref_inv _ _ _ _ Hd) as ->.
  unfold deref in Hd. rewrite Hheap_a in Hd.
  rewrite list_lookup_insert_eq in Hd by (by eapply lookup_lt_Some).
  injection Hd as <-.
  cbn [Fabric_Class_get_id Fabric_Class_set_first_child_class_id Class.id]
    in Hunl.
  apply bind_inv in Hunl as (st1 & wc & Hset1 & Hunl).
  apply cache_set_inv in Hset1 as (m1 & Hm1 & Hheap_c & Hcache_c).
  rewrite Hcache_a in Hm1.
  pose proof (ClassCache_cap_small host _ Hwf) as Hsmall.
  destruct (ClassCache_set host _ (Class.id pv) NULL Hwf Hpid)
    as (m1' & Hm1' & Hwf1 & Hbound1 & Hroom1 & Hcap1).
  rewrite Hm1 in Hm1'. injection Hm1' as Hm Hst. subst m1' st1.
  cbn [FABRIC_OK Z.eqb] in Hunl.
  apply bind_inv in Hunl as (st2 & wd & Hadd & Hunl).
  apply bind_inv in Hadd as (pv2 & we & Hd2 & Hadd).
  pose proof (deref_inv _ _ _ _ Hd2) as ->.
  pose proof (changed_add_status _ _ _ _ _ Hadd) as ->.
  apply changed_add_inv in Hadd as [Hheap_d Hcache_d].
  injection Hunl as <- <-.
  apply bind_inv in H as (cv2 & wf & Hd3 & H).
  pose proof (deref_inv _ _ _ _ Hd3) as ->.
  unfold or_else in H. cbn [FABRIC_OK Z.eqb negb] in H.
  apply bind_inv in H as (st3 & wf & [= <- <-] & H).
  cbn [FABRIC_OK Z.eqb negb] in H.
  apply bind_inv in H as (st4 & wg & Hadd4 & H).
  pose proof (changed_add_status _ _ _ _ _ Hadd4) as ->.
  apply changed_add_inv in Hadd4 as [Hheap_g Hcache_g].
  cbn [FABRIC_OK Z.eqb negb] in H.
  apply bind_inv in H as (st5 & wh & Hset5 & H).
  apply cache_set_inv in Hset5 as (m2 & Hm2 & Hheap_h & Hcache_h).
  rewrite Hcache_g, Hcache_d, Hcache_c in Hm2.
  destruct (EntityMap_set_any host m1 (Class.id cv) (S ic) Hwf1 Hroom1
              ltac:(lia) Hcid)
    as (m2' & Hm2' & Hwf2 & Hbound2 & _).
  rewrite Hm2 in Hm2'. injection Hm2' as Hm Hst. subst m2' st5.
  cbn [FABRIC_OK Z.eqb negb] in H.
  apply bind_inv in H as (st6 & wi & Hadd6 & H).
  pose proof (changed_add_status _ _ _ _ _ Hadd6) as ->.
  apply changed_add_inv in Hadd6 as [Hheap_i Hcache_i].
  cbn [FABRIC_OK Z.eqb negb] in H.
  apply bind_inv in H as (st7 & wj & [= <- <-] & H).
  cbn [FABRIC_OK Z.eqb negb] in H.
  apply bind_inv in H as ([] & wk & Hfree & H).
  apply add_free_id_inv in Hfree.
  apply bind_inv in H as (self & wl & [= <- <-] & H).
  apply bind_inv in H as ([] & wl & [= <-] & H).
  injection H as <-.
  change (ClassStore.cache (class_store_of _))
    with (ClassStore.cache (class_store_of wk)).
  rewrite Hfree, Hcache_i, Hcache_h.
  apply EntityMap_get_bound; [apply Hwf2|].
  apply Hbound2. right. split; [done|]. apply Hbound1. by left.
Qed.

Lemma delete_first_child_forgets_parent_witness :
  ∃ w' : World.t,
    Fabric_ClassStore_delete_class LittleEndian 3%nat (family LittleEndian)
    = Some (FABRIC_OK, w')
    ∧ Fabric_EntityMap_get LittleEndian (ClassStore.cache (class_store_of w')) 1
      = Some NULL
    ∧ Fabric_ClassStore_flush LittleEndian w' = None.
Proof.
  eexists. split; [vm_compute; reflexivity|]. split; [|vm_compute; reflexivity].
  refine (proj1 (delete_first_child_forgets_parent LittleEndian
                   (family LittleEndian) _ 2 0
                   (Class.mk 3 3 1 0 2 0 0 0 1) (Class.mk 1 1 0 3 0 0 0 0 1)
                   _ eq_refl eq_refl _ eq_refl _ _ _ eq_refl _ _ _ _)).
  - split; [|split; [by vm_compute | left; by vm_compute]].
    apply EntityMap_wf_check_sound. by vm_compute.
  - done.
  - by vm_compute.
  - vm_compute. reflexivity.
  - done.
  - cbn. lia.
  - cbn. lia.
  - done.
  - vm_compute. reflexivity.
Defined.

(** *** The dirty set under a flush *)

(** X30: [Fabric_ClassStore_flush] only ever takes ids out of the changed
    set, and none beyond [max_id].  Whatever status it returns, an id found
    in the changed set after the call was found in it before, and an id
    beyond [max_id] is found after the call exactly when it was before. *)
Theorem ClassStore_flush_only_removes (host : byte_order) (w w' : World.t)
    (status : error_t) (id : Z) :
  Fabric_ClassStore_flush host w = Some (status, w') →
  id ≠ FABRIC_IDSET_TOMBSTONE →
  (dirty host w' id = Some true → dirty host w id = Some true)
  ∧ (ClassStore_max_id (class_store_of w) < id →
     dirty host w' id = dirty host w id).
Proof.
  unfold Fabric_ClassStore_flush. intros H.
  apply bind_inv in H as (self & w1 & [= <- <-] & H).
  destruct (Fabric_IdSet_is_empty _); [by injection H as _ <-|].
  apply bind_inv in H as ([changed_ids st] & w1 & Harr & H).
  apply lift_option_inv in Harr as [Harr ->].
  destruct (negb (FABRIC_OK =? st)); [by injection H as _ <-|].
  apply bind_inv in H as (r & w1 & Hloop & H).
  apply ClassStore_flush_loop_dirty in Hloop.
  destruct r as [st'|].
  { injection H as _ <-. exact (Hloop id). }
  apply bind_inv in H as (self' & w2 & [= <- <-] & H).
  apply bind_inv in H as (graph & w3 & [= <- <-] & H).
  apply bind_inv in H as ([] & w4 & [= <-] & H).
  injection H as _ <-. exact (Hloop id).
Qed.

Lemma ClassStore_flush_only_removes_witness :
  ∃ w' : World.t,
    Fabric_ClassStore_flush BigEndian (family_less_2 BigEndian)
    = Some (FABRIC_OK, w')
    ∧ (dirty BigEndian w' 2 = Some true
       → dirty BigEndian (family_less_2 BigEndian) 2 = Some true).
Proof.
  eexists. split; [vm_compute; reflexivity|].
  refine (proj1 (ClassStore_flush_only_removes BigEndian
                   (family_less_2 BigEndian) _ FABRIC_OK 2 _ _)).
  - vm_compute. reflexivity.
  - by vm_compute.
Defined.
